(** * AWS Enterprise Landing Zone cost calculator

    A shallow embedding of [scripts/pre-deployment/cost-calculator.py]:
    the organization profile, the pricing table, the eight per-service
    calculators, the report aggregator, the recommendation engine, the
    risk analyzer and the printed summary.  [load_config_file] and [main]
    read a JSON file and the command line into a profile and are not
    modelled.

    Python integers are [Z].  Python floats are kept behind the interface
    [PyFloat], which lists exactly the float operations the script uses.
    The f-strings of the cost drivers and of the summary are kept as
    their pieces: the literal text and each field with its format.  The
    calculators are written once against that interface and read at two
    implementations:

    - [B64]: IEEE-754 binary64, through the kernel's primitive floats.
      This is what CPython computes, bit for bit, including overflow to
      infinity, the [OverflowError] of an int that does not fit a float
      and the [ValueError] of an int too long to be written out.  It is
      used to evaluate the script on concrete profiles and for what
      holds of every profile without any arithmetic: which exceptions
      can be raised, and which cannot.
    - [Std R]: rationals, where every operation rounds its exact result
      through [R : Rounding], any function with relative error at most
      2^-53 (the standard model of floating-point arithmetic).  Exact
      arithmetic ([exact]) and round-to-nearest-even on 53 bits
      ([binary53]) are instances.  The exponent range is unbounded and
      ints have no size limit: this is the script without overflow.  A
      theorem proved here for all profiles holds of the script wherever
      no operation overflows, and no further; what happens beyond is
      shown in [B64] on concrete profiles. *)

From Stdlib Require Import ZArith QArith Qabs Qround Qpower Lqa Lia List Sorted String Ascii Bool
  Floats.
Import ListNotations.
Open Scope string_scope.
Open Scope list_scope.
Open Scope Q_scope.

Set Warnings "-inexact-float".

(** ** Exceptions and the result monad *)

Inductive exception : Type :=
| ZeroDivisionError
| OverflowError
| ValueError.

Inductive result (A : Type) : Type :=
| Ok (a : A)
| Raise (e : exception).

Arguments Ok {A} a.
Arguments Raise {A} e.

Definition bind {A B : Type} (c : result A) (k : A -> result B) : result B :=
  match c with
  | Ok a => k a
  | Raise e => Raise e
  end.

Notation "x <- c ;; k" := (bind c (fun x => k))
  (at level 61, c at next level, right associativity).

Lemma Ok_inj {A : Type} (a b : A) : Ok a = Ok b -> a = b.
Proof.
  intros E.
  exact (f_equal (fun r => match r with Ok x => x | Raise _ => a end) E).
Qed.

Definition returns {A : Type} (c : result A) : Prop := exists a, c = Ok a.

Definition raises {A : Type} (c : result A) (e : exception) : Prop := c = Raise e.

(** ** The float operations of the script *)

Class PyFloat (F : Type) : Type := {
  (** a decimal literal of the source, such as [89.10] or [12] *)
  float_lit : Q -> F;
  (** the implicit conversion of an [int] operand in [float * int],
      [float / int], [int - float] *)
  float_of_int : Z -> result F;
  fadd : F -> F -> F;
  fsub : F -> F -> F;
  fmul : F -> F -> F;
  (** [x / y] on floats *)
  ftruediv : F -> F -> result F;
  (** [a / b] on two ints (true division) *)
  int_truediv : Z -> Z -> result F;
  (** [int(x)] *)
  float_to_int : F -> result Z;
  (** [round(x)] *)
  float_round_int : F -> result Z;
  (** [round(x, ndigits)] *)
  float_round : F -> Z -> F;
  (** [x > y] and [x <= y] *)
  fgt : F -> F -> bool;
  fle : F -> F -> bool;
  (** [str(n)] of an int that no earlier operation has bounded, as the
      field [{n}] of an f-string takes it.  It is listed here because the
      two implementations differ on it as they do on floats: the
      interpreter has a size limit, the standard model has none. *)
  int_str : Z -> result Z
}.

Declare Scope pyfloat_scope.
Delimit Scope pyfloat_scope with py.
Infix "+" := fadd : pyfloat_scope.
Infix "-" := fsub : pyfloat_scope.
Infix "*" := fmul : pyfloat_scope.

(** Rounding a rational to an integer: ties to even ([round]) and toward
    zero ([int]). *)

Definition round_half_even (q : Q) : Z :=
  let f := Qfloor q in
  match (q - inject_Z f ?= 1 # 2)%Q with
  | Lt => f
  | Gt => (f + 1)%Z
  | Eq => if Z.even f then f else (f + 1)%Z
  end.

Definition Qtrunc (q : Q) : Z := Z.quot (Qnum q) (Zpos (Qden q)).

Definition pow10 (n : Z) : positive := Z.to_pos (10 ^ n).

(** ** Binary64 *)

Module B64.

Definition Z2SF (z : Z) : spec_float :=
  match z with
  | Z0 => S754_zero false
  | Zpos p => S754_finite false p 0
  | Zneg p => S754_finite true p 0
  end.

(** The double nearest to [n / d] (ties to even), as a [spec_float]. *)
Definition nearest (n : Z) (d : positive) : spec_float :=
  SFdiv prec emax (Z2SF n) (Z2SF (Zpos d)).

Definition of_Q (q : Q) : float := SF2Prim (nearest (Qnum q) (Qden q)).

(** [PyLong_AsDouble]: correctly rounded, [OverflowError] beyond the
    largest double. *)
Definition of_int (z : Z) : result float :=
  match binary_normalize prec emax z 0 false with
  | S754_infinity _ => Raise OverflowError
  | sf => Ok (SF2Prim sf)
  end.

(** [float_div]: a zero divisor raises. *)
Definition truediv (x y : float) : result float :=
  if PrimFloat.eqb y 0%float then Raise ZeroDivisionError
  else Ok (PrimFloat.div x y).

(** [long_true_divide]: the correctly rounded quotient of two ints. *)
Definition int_div (a b : Z) : result float :=
  match b with
  | Z0 => Raise ZeroDivisionError
  | Zpos d => match nearest a d with
              | S754_infinity _ => Raise OverflowError
              | sf => Ok (SF2Prim sf)
              end
  | Zneg d => match nearest (- a) d with
              | S754_infinity _ => Raise OverflowError
              | sf => Ok (SF2Prim sf)
              end
  end.

(** The exact value of a finite double. *)
Definition value (s : bool) (m : positive) (e : Z) : Q :=
  let n := if s then Zneg m else Zpos m in
  match e with
  | Zneg p => n # (2 ^ p)%positive
  | _ => inject_Z (n * 2 ^ e)
  end.

Definition to_int (x : float) : result Z :=
  match Prim2SF x with
  | S754_nan => Raise ValueError
  | S754_infinity _ => Raise OverflowError
  | S754_zero _ => Ok 0%Z
  | S754_finite s m e => Ok (Qtrunc (value s m e))
  end.

Definition round_int (x : float) : result Z :=
  match Prim2SF x with
  | S754_nan => Raise ValueError
  | S754_infinity _ => Raise OverflowError
  | S754_zero _ => Ok 0%Z
  | S754_finite s m e => Ok (round_half_even (value s m e))
  end.

(** [float.__round__] with [ndigits >= 0]: the decimal expansion of the
    exact value is rounded half-even, and the decimal result is read
    back as the nearest double, a zero result keeping the sign of [x]
    ([round(-0.001, 2)] is [-0.0]); zeros, infinities and nan are
    returned as they are. *)
Definition round_nd (x : float) (ndigits : Z) : float :=
  match Prim2SF x with
  | S754_finite s m e =>
      match round_half_even (value s m e * inject_Z (Zpos (pow10 ndigits))) with
      | Z0 => SF2Prim (S754_zero s)
      | n => SF2Prim (nearest n (pow10 ndigits))
      end
  | _ => x
  end.

(** [sys.get_int_max_str_digits()], as the interpreter starts. *)
Definition max_str_digits : Z := 4300.

(** [str(n)]: an int of more than [max_str_digits] digits is refused
    with [ValueError]. *)
Definition str_of_int (n : Z) : result Z :=
  if (Z.abs n <? 10 ^ max_str_digits)%Z then Ok n else Raise ValueError.

#[export] Instance ops : PyFloat float := {
  float_lit := of_Q;
  float_of_int := of_int;
  fadd := PrimFloat.add;
  fsub := PrimFloat.sub;
  fmul := PrimFloat.mul;
  ftruediv := truediv;
  int_truediv := int_div;
  float_to_int := to_int;
  float_round_int := round_int;
  float_round := round_nd;
  fgt := fun x y => PrimFloat.ltb y x;
  fle := PrimFloat.leb;
  int_str := str_of_int
}.

End B64.

(** ** The standard model: rationals with a rounding of relative error 2^-53

    No operation overflows here: [float_of_int] and [int_str] always
    return, and only a zero divisor raises. *)

(** The unit roundoff of binary64, 2^-53. *)
Definition u : Q := 1 # 9007199254740992.

Record Rounding : Type := {
  rnd :> Q -> Q;
  rnd_err : forall x : Q, Qabs (rnd x - x) <= u * Qabs x;
  rnd_one : rnd 1 == 1
}.

Module Std.
Section Ops.
Variable R : Rounding.

Definition truediv (x y : Q) : result Q :=
  if Qeq_bool y 0 then Raise ZeroDivisionError else Ok (R (x / y)).

Definition int_div (a b : Z) : result Q :=
  if (b =? 0)%Z then Raise ZeroDivisionError
  else Ok (R (inject_Z a / inject_Z b)).

Definition round_nd (x : Q) (ndigits : Z) : Q :=
  R (round_half_even (x * inject_Z (Zpos (pow10 ndigits))) # pow10 ndigits).

#[export] Instance ops : PyFloat Q := {
  float_lit := fun q => R q;
  float_of_int := fun z => Ok (R (inject_Z z));
  fadd := fun x y => R (x + y);
  fsub := fun x y => R (x - y);
  fmul := fun x y => R (x * y);
  ftruediv := truediv;
  int_truediv := int_div;
  float_to_int := fun x => Ok (Qtrunc x);
  float_round_int := fun x => Ok (round_half_even x);
  float_round := round_nd;
  fgt := fun x y => negb (Qle_bool x y);
  fle := Qle_bool;
  int_str := fun n => Ok n
}.

End Ops.
End Std.

(** Exact arithmetic: nothing is rounded. *)

Lemma exact_err (x : Q) : Qabs (x - x) <= u * Qabs x.
Proof.
  setoid_replace (x - x) with 0 by ring.
  apply Qmult_le_0_compat; [discriminate | apply Qabs_nonneg].
Qed.

Definition exact : Rounding :=
  {| rnd := fun x => x; rnd_err := exact_err; rnd_one := Qeq_refl 1 |}.

(** ** Round to nearest even on 53 bits, as a [Rounding] *)

Definition pow2 (e : Z) : Q := 2 ^ e.

(** [binade q] is the exponent [e] with [2^e <= |q| < 2^(e+1)]; the proofs
    below use the lower bound only. *)
Definition binade (q : Q) : Z :=
  let e0 := (Z.log2 (Z.abs (Qnum q)) - Z.log2 (Zpos (Qden q)))%Z in
  if Qle_bool (pow2 e0) (Qabs q) then e0 else (e0 - 1)%Z.

(** The nearest rational with a 53-bit significand, ties to even. *)
Definition round53 (q : Q) : Q :=
  if Qeq_bool q 0 then 0
  else
    let s := pow2 (binade q - 52) in
    inject_Z (round_half_even (q / s)) * s.

Lemma round_half_even_err (x : Q) : Qabs (inject_Z (round_half_even x) - x) <= 1 # 2.
Proof.
  unfold round_half_even.
  pose proof (Qfloor_le x) as L. pose proof (Qlt_floor x) as U.
  rewrite inject_Z_plus in U. change (inject_Z 1) with 1 in U.
  apply Qabs_Qle_condition.
  destruct (x - inject_Z (Qfloor x) ?= 1 # 2) eqn:C.
  - apply Qeq_alt in C.
    destruct (Z.even (Qfloor x)); [| rewrite inject_Z_plus; change (inject_Z 1) with 1];
      split; lra.
  - apply Qlt_alt in C. split; lra.
  - apply Qgt_alt in C. rewrite inject_Z_plus. change (inject_Z 1) with 1. split; lra.
Qed.

Lemma pow2_pos (e : Z) : 0 < pow2 e.
Proof. apply Qpower_0_lt. reflexivity. Qed.

Lemma pow2_plus (a b : Z) : pow2 (a + b) == pow2 a * pow2 b.
Proof. apply Qpower_plus. discriminate. Qed.

Lemma pow2_log2_le (n : Z) : (0 < n)%Z -> pow2 (Z.log2 n) <= inject_Z n.
Proof.
  intros Hn. unfold pow2. change 2 with (inject_Z 2).
  rewrite <- Zpower_Qpower by apply Z.log2_nonneg.
  rewrite <- Zle_Qle. apply Z.log2_spec, Hn.
Qed.

Lemma pow2_log2_gt (n : Z) : (0 < n)%Z -> inject_Z n <= pow2 (Z.log2 n + 1).
Proof.
  intros Hn. unfold pow2. change 2 with (inject_Z 2).
  rewrite <- Zpower_Qpower by (pose proof (Z.log2_nonneg n); lia).
  rewrite <- Zle_Qle. pose proof (Z.log2_spec n Hn) as [_ U].
  replace (Z.succ (Z.log2 n)) with (Z.log2 n + 1)%Z in U by lia. lia.
Qed.

Lemma Qabs_as_fraction (q : Q) :
  Qabs q == inject_Z (Z.abs (Qnum q)) / inject_Z (Zpos (Qden q)).
Proof.
  destruct q as [n d]. unfold Qabs. cbn [Qnum Qden].
  rewrite (Qmake_Qdiv (Z.abs n) d). reflexivity.
Qed.

Lemma binade_lower (q : Q) : ~ q == 0 -> pow2 (binade q) <= Qabs q.
Proof.
  intros Hq. unfold binade.
  set (n := Z.abs (Qnum q)). set (d := Zpos (Qden q)).
  destruct (Qle_bool (pow2 (Z.log2 n - Z.log2 d)) (Qabs q)) eqn:C.
  - apply Qle_bool_iff, C.
  - assert (Hn : (0 < n)%Z).
    { unfold n. destruct q as [qn qd]. cbn [Qnum].
      assert (qn <> 0)%Z; [| lia].
      intros ->. apply Hq. reflexivity. }
    assert (Hd : (0 < d)%Z) by (unfold d; lia).
    pose proof (pow2_log2_le n Hn) as Ln.
    pose proof (pow2_log2_gt d Hd) as Ud.
    pose proof (pow2_pos (Z.log2 d + 1)) as Pd.
    pose proof (pow2_pos (Z.log2 n)) as Pn.
    assert (Qd : 0 < inject_Z d) by (change 0 with (inject_Z 0); rewrite <- Zlt_Qlt; exact Hd).
    rewrite (Qabs_as_fraction q). fold n d.
    replace (Z.log2 n - Z.log2 d - 1)%Z with (Z.log2 n + - (Z.log2 d + 1))%Z by lia.
    rewrite pow2_plus. unfold pow2 at 2. rewrite Qpower_opp. fold (pow2 (Z.log2 d + 1)).
    apply Qle_shift_div_l; [exact Qd |].
    apply Qle_trans with (pow2 (Z.log2 n)); [| exact Ln].
    setoid_replace (pow2 (Z.log2 n) * / pow2 (Z.log2 d + 1) * inject_Z d)
      with (pow2 (Z.log2 n) * (inject_Z d / pow2 (Z.log2 d + 1))) by (unfold Qdiv; ring).
    setoid_replace (pow2 (Z.log2 n)) with (pow2 (Z.log2 n) * 1) at 2 by ring.
    apply Qmult_le_l; [exact Pn |].
    apply Qle_shift_div_r; [exact Pd |]. lra.
Qed.

Lemma round53_err (x : Q) : Qabs (round53 x - x) <= u * Qabs x.
Proof.
  unfold round53. destruct (Qeq_bool x 0) eqn:E0.
  - apply Qeq_bool_iff in E0.
    setoid_replace (0 - x) with 0 by (rewrite E0; ring).
    apply Qmult_le_0_compat; [discriminate | apply Qabs_nonneg].
  - assert (Hx : ~ x == 0) by (apply Qeq_bool_neq; exact E0).
    cbv zeta. set (s := pow2 (binade x - 52)).
    pose proof (pow2_pos (binade x - 52)) as Ps. fold s in Ps.
    pose proof (round_half_even_err (x / s)) as Herr.
    pose proof (binade_lower x Hx) as Hlow.
    assert (Es : pow2 (binade x) == s * pow2 52).
    { unfold s. rewrite <- pow2_plus. replace (binade x - 52 + 52)%Z with (binade x) by lia.
      reflexivity. }
    setoid_replace (inject_Z (round_half_even (x / s)) * s - x)
      with ((inject_Z (round_half_even (x / s)) - x / s) * s)
      by (field; lra).
    rewrite Qabs_Qmult, (Qabs_pos s) by lra.
    apply Qle_trans with ((1 # 2) * s).
    + apply Qmult_le_compat_r; [exact Herr | lra].
    + apply Qle_trans with (u * pow2 (binade x)).
      * rewrite Es. change (pow2 52) with (inject_Z (2 ^ 52)). unfold u.
        setoid_replace ((1 # 9007199254740992) * (s * inject_Z (2 ^ 52)))
          with ((1 # 2) * s) by (change (inject_Z (2 ^ 52)) with 4503599627370496; ring).
        apply Qle_refl.
      * apply Qmult_le_l; [reflexivity | exact Hlow].
Qed.

Lemma round53_one : round53 1 == 1.
Proof. vm_compute. reflexivity. Qed.

Definition binary53 : Rounding :=
  {| rnd := round53; rnd_err := round53_err; rnd_one := round53_one |}.

(** ** The script *)

Section CostCalculator.
Context {F : Type} {FO : PyFloat F}.

(** [float * int] and [int * float] with an [int] variable: the int is
    converted first. *)
Definition fmul_int (x : F) (n : Z) : result F :=
  y <- float_of_int n ;; Ok (x * y)%py.

Definition int_fmul (n : Z) (x : F) : result F :=
  y <- float_of_int n ;; Ok (y * x)%py.

Definition ftruediv_int (x : F) (n : Z) : result F :=
  y <- float_of_int n ;; ftruediv x y.

(** [sum(...)] over floats: starts from the int [0] and adds from left to
    right, rounding after each addition (CPython up to 3.11; the
    compensated summation of later versions is not modelled). *)
Definition py_sum (xs : list F) : F := fold_left fadd xs (float_lit 0).

Fixpoint map_result {A B : Type} (f : A -> result B) (xs : list A) : result (list B) :=
  match xs with
  | [] => Ok []
  | x :: xs' => y <- f x ;; ys <- map_result f xs' ;; Ok (y :: ys)
  end.

(** [class OrganizationProfile] *)
Record OrganizationProfile : Type := {
  name : string;
  accounts_count : Z;
  employees : Z;
  regions : list string;
  compliance_requirements : list string;
  expected_data_gb_monthly : Z;
  business_hours_only : bool;
  development_accounts_ratio : F
}.

(** An f-string, as the sequence of its literal parts and of its fields,
    each field with the value formatted and its format specification.
    The characters that [format] makes of a field are not modelled. *)
Inductive piece : Type :=
| Literal (text : string)
  (** [{s}] and [{s:<width}] on a string *)
| Field (s : string)
| FieldLeft (s : string) (width : nat)
  (** [{n}] and [{n:,}] on an int *)
| Integer (n : Z)
| IntegerGrouped (n : Z)
  (** [{x}] on a float *)
| Number (x : F)
  (** [{x:.Nf}], [{x:,.Nf}] and [{x:>W.Nf}] on a float; on an int, which
      [format] converts to a float first, the converted value *)
| FixedPoint (x : F) (grouping : bool) (width : nat) (precision : nat).

Definition line : Type := list piece.

(** [class ServiceCost] *)
Record ServiceCost : Type := {
  service_name : string;
  monthly_cost : F;
  annual_cost : F;
  cost_drivers : list line;
  optimization_potential : F;
  cost_tier : string
}.

(** [class AWSPricing] *)
Record AWSPricing : Type := {
  CONTROL_TOWER_BASE : F;
  GUARDDUTY_BASE_PER_ACCOUNT : F;
  GUARDDUTY_CLOUDTRAIL_PER_100K_EVENTS : F;
  GUARDDUTY_DNS_PER_GB : F;
  CONFIG_ITEM_PRICE : F;
  CONFIG_RULE_EVALUATION_PRICE : F;
  CONFIG_TYPICAL_PER_ACCOUNT : F;
  TGW_ATTACHMENT_HOURLY : F;
  TGW_DATA_PROCESSING_PER_GB : F;
  CLOUDTRAIL_DATA_EVENTS_PER_100K : F;
  CLOUDTRAIL_INSIGHTS_PER_100K : F;
  CLOUDTRAIL_TYPICAL_MONTHLY : F;
  CLOUDWATCH_LOG_INGESTION_PER_GB : F;
  CLOUDWATCH_LOG_STORAGE_PER_GB_MONTH : F;
  CLOUDWATCH_TYPICAL_PER_ACCOUNT : F;
  SECURITY_HUB_FINDING_INGESTION_PER_100K : F;
  SECURITY_HUB_COMPLIANCE_CHECKS_PER_100K : F;
  SYSTEMS_MANAGER_PARAMETER_STORE_STANDARD : F;
  SYSTEMS_MANAGER_AUTOMATION_PER_STEP : F;
  AWS_BACKUP_STORAGE_PER_GB_MONTH : F;
  AWS_BACKUP_CROSS_REGION_COPY_PER_GB : F
}.

Definition AWSPricing_new : AWSPricing := {|
  CONTROL_TOWER_BASE := float_lit 89.10;
  GUARDDUTY_BASE_PER_ACCOUNT := float_lit 15.60;
  GUARDDUTY_CLOUDTRAIL_PER_100K_EVENTS := float_lit 0.10;
  GUARDDUTY_DNS_PER_GB := float_lit 0.50;
  CONFIG_ITEM_PRICE := float_lit 0.003;
  CONFIG_RULE_EVALUATION_PRICE := float_lit 0.001;
  CONFIG_TYPICAL_PER_ACCOUNT := float_lit 23.40;
  TGW_ATTACHMENT_HOURLY := float_lit 0.05;
  TGW_DATA_PROCESSING_PER_GB := float_lit 0.02;
  CLOUDTRAIL_DATA_EVENTS_PER_100K := float_lit 0.10;
  CLOUDTRAIL_INSIGHTS_PER_100K := float_lit 0.35;
  CLOUDTRAIL_TYPICAL_MONTHLY := float_lit 67.50;
  CLOUDWATCH_LOG_INGESTION_PER_GB := float_lit 0.50;
  CLOUDWATCH_LOG_STORAGE_PER_GB_MONTH := float_lit 0.03;
  CLOUDWATCH_TYPICAL_PER_ACCOUNT := float_lit 7.89;
  SECURITY_HUB_FINDING_INGESTION_PER_100K := float_lit 0.30;
  SECURITY_HUB_COMPLIANCE_CHECKS_PER_100K := float_lit 0.10;
  SYSTEMS_MANAGER_PARAMETER_STORE_STANDARD := float_lit 0.05;
  SYSTEMS_MANAGER_AUTOMATION_PER_STEP := float_lit 0.002;
  AWS_BACKUP_STORAGE_PER_GB_MONTH := float_lit 0.05;
  AWS_BACKUP_CROSS_REGION_COPY_PER_GB := float_lit 0.02
|}.

(** [class LandingZoneCostCalculator] and its [__init__] *)
Record LandingZoneCostCalculator : Type := {
  org_profile : OrganizationProfile;
  pricing : AWSPricing
}.

Definition LandingZoneCostCalculator_new (p : OrganizationProfile) : LandingZoneCostCalculator :=
  {| org_profile := p; pricing := AWSPricing_new |}.

Definition len {A : Type} (xs : list A) : Z := Z.of_nat (List.length xs).

(** The calculators.  Each builds its [cost_drivers] after its costs
    and before its [optimization_potential].  An int formatted with a
    float specification is converted to a float there, and the conversion
    can raise.  An int formatted as an int is written out by [int_str] in
    the Control Tower calculator, where [accounts_count] is met for the
    first time; everywhere else the int has already been converted to a
    float or divided into one by the same calculator, so that it has far
    fewer digits than the limit. *)

Definition calculate_control_tower_costs (self : LandingZoneCostCalculator) : result ServiceCost :=
  let monthly_cost := CONTROL_TOWER_BASE (pricing self) in
  let annual_cost := (monthly_cost * float_lit 12)%py in
  accounts <- int_str (accounts_count (org_profile self)) ;;
  let cost_drivers :=
    [[Literal "Base Control Tower service for "; Integer accounts; Literal " accounts"];
     [Literal "Automated guardrails and compliance monitoring"];
     [Literal "Account Factory for automated provisioning"];
     [Literal "Service Catalog integration"]] in
  let optimization_potential := float_lit 0.0 in
  Ok {| service_name := "AWS Control Tower";
        monthly_cost := monthly_cost;
        annual_cost := annual_cost;
        cost_drivers := cost_drivers;
        optimization_potential := optimization_potential;
        cost_tier := "enterprise" |}.

Definition calculate_guardduty_costs (self : LandingZoneCostCalculator) : result ServiceCost :=
  base_monthly <- fmul_int (GUARDDUTY_BASE_PER_ACCOUNT (pricing self))
                           (accounts_count (org_profile self)) ;;
  let events_per_month := (expected_data_gb_monthly (org_profile self) * 100)%Z in
  events_100k <- int_truediv events_per_month 100000 ;;
  let cloudtrail_events_cost :=
    (events_100k * GUARDDUTY_CLOUDTRAIL_PER_100K_EVENTS (pricing self))%py in
  dns_logs_cost <- int_fmul (expected_data_gb_monthly (org_profile self))
                            (GUARDDUTY_DNS_PER_GB (pricing self)) ;;
  let monthly_cost := (base_monthly + cloudtrail_events_cost + dns_logs_cost)%py in
  let annual_cost := (monthly_cost * float_lit 12)%py in
  events_shown <- float_of_int events_per_month ;;
  let cost_drivers :=
    [[Literal "Base GuardDuty for "; Integer (accounts_count (org_profile self));
      Literal " accounts"];
     [Literal "CloudTrail event analysis: ~"; FixedPoint events_shown true 0 0;
      Literal " events/month"];
     [Literal "DNS log analysis: "; Integer (expected_data_gb_monthly (org_profile self));
      Literal " GB/month"];
     [Literal "Threat intelligence feeds and ML model inference"]] in
  let optimization_potential := float_lit 0.20 in
  Ok {| service_name := "Amazon GuardDuty";
        monthly_cost := monthly_cost;
        annual_cost := annual_cost;
        cost_drivers := cost_drivers;
        optimization_potential := optimization_potential;
        cost_tier := "premium" |}.

Definition calculate_config_costs (self : LandingZoneCostCalculator) : result ServiceCost :=
  let config_items_per_account := 500%Z in
  let total_config_items := (config_items_per_account * accounts_count (org_profile self))%Z in
  let rule_evaluations_per_month := (accounts_count (org_profile self) * 50 * 4 * 30)%Z in
  items_cost <- int_fmul total_config_items (CONFIG_ITEM_PRICE (pricing self)) ;;
  evaluations_cost <- int_fmul rule_evaluations_per_month
                               (CONFIG_RULE_EVALUATION_PRICE (pricing self)) ;;
  let monthly_cost := (items_cost + evaluations_cost)%py in
  let annual_cost := (monthly_cost * float_lit 12)%py in
  let cost_drivers :=
    [[Literal "Configuration items: ~"; IntegerGrouped total_config_items;
      Literal " items/month"];
     [Literal "Rule evaluations: ~"; IntegerGrouped rule_evaluations_per_month;
      Literal " evaluations/month"];
     [Literal "Compliance monitoring across ";
      Integer (len (compliance_requirements (org_profile self))); Literal " frameworks"];
     [Literal "Configuration history and snapshots"]] in
  let optimization_potential := float_lit 0.25 in
  Ok {| service_name := "AWS Config";
        monthly_cost := monthly_cost;
        annual_cost := annual_cost;
        cost_drivers := cost_drivers;
        optimization_potential := optimization_potential;
        cost_tier := "standard" |}.

Definition calculate_transit_gateway_costs (self : LandingZoneCostCalculator) : result ServiceCost :=
  let attachments_per_account := 2%Z in
  let total_attachments := (accounts_count (org_profile self) * attachments_per_account)%Z in
  let region_multiplier := len (regions (org_profile self)) in
  let total_attachments := (total_attachments * region_multiplier)%Z in
  let hours_per_month := (24 * 30)%Z in
  attachments_hourly <- int_fmul total_attachments (TGW_ATTACHMENT_HOURLY (pricing self)) ;;
  attachment_cost <- fmul_int attachments_hourly hours_per_month ;;
  tgw_data_gb <- int_fmul (expected_data_gb_monthly (org_profile self)) (float_lit 0.7) ;;
  let data_processing_cost := (tgw_data_gb * TGW_DATA_PROCESSING_PER_GB (pricing self))%py in
  let monthly_cost := (attachment_cost + data_processing_cost)%py in
  let annual_cost := (monthly_cost * float_lit 12)%py in
  let cost_drivers :=
    [[Literal "VPC attachments: "; Integer total_attachments;
      Literal " attachments across "; Integer region_multiplier; Literal " regions"];
     [Literal "Data processing: ~"; FixedPoint tgw_data_gb false 0 0;
      Literal " GB/month @ $0.02/GB"];
     [Literal "Cross-AZ data transfer costs"];
     [Literal "Route table associations and propagations"]] in
  let optimization_potential := float_lit 0.30 in
  Ok {| service_name := "AWS Transit Gateway";
        monthly_cost := monthly_cost;
        annual_cost := annual_cost;
        cost_drivers := cost_drivers;
        optimization_potential := optimization_potential;
        cost_tier := "standard" |}.

Definition calculate_cloudtrail_costs (self : LandingZoneCostCalculator) : result ServiceCost :=
  let base_cost := CLOUDTRAIL_TYPICAL_MONTHLY (pricing self) in
  let data_events_per_month := (expected_data_gb_monthly (org_profile self) * 50)%Z in
  data_events_100k <- int_truediv data_events_per_month 100000 ;;
  let data_events_cost :=
    (data_events_100k * CLOUDTRAIL_DATA_EVENTS_PER_100K (pricing self))%py in
  insights_100k <- int_truediv data_events_per_month 100000 ;;
  let insights_cost :=
    (insights_100k * CLOUDTRAIL_INSIGHTS_PER_100K (pricing self) * float_lit 0.1)%py in
  let monthly_cost := (base_cost + data_events_cost + insights_cost)%py in
  let annual_cost := (monthly_cost * float_lit 12)%py in
  data_events_shown <- float_of_int data_events_per_month ;;
  let cost_drivers :=
    [[Literal "Organization-wide CloudTrail with management events"];
     [Literal "Data events: ~"; FixedPoint data_events_shown true 0 0;
      Literal " events/month"];
     [Literal "CloudTrail Insights for anomaly detection (10% of events)"];
     [Literal "Cross-region log replication for DR"]] in
  let optimization_potential := float_lit 0.15 in
  Ok {| service_name := "AWS CloudTrail";
        monthly_cost := monthly_cost;
        annual_cost := annual_cost;
        cost_drivers := cost_drivers;
        optimization_potential := optimization_potential;
        cost_tier := "standard" |}.

Definition calculate_cloudwatch_costs (self : LandingZoneCostCalculator) : result ServiceCost :=
  base_cost <- fmul_int (CLOUDWATCH_TYPICAL_PER_ACCOUNT (pricing self))
                        (accounts_count (org_profile self)) ;;
  log_ingestion_gb <- int_fmul (expected_data_gb_monthly (org_profile self)) (float_lit 0.3) ;;
  let ingestion_cost := (log_ingestion_gb * CLOUDWATCH_LOG_INGESTION_PER_GB (pricing self))%py in
  let avg_retention_months := 6%Z in
  retained_gb <- fmul_int log_ingestion_gb avg_retention_months ;;
  let storage_cost :=
    (retained_gb * CLOUDWATCH_LOG_STORAGE_PER_GB_MONTH (pricing self))%py in
  let monthly_cost := (base_cost + ingestion_cost + storage_cost)%py in
  let annual_cost := (monthly_cost * float_lit 12)%py in
  retained_shown <- fmul_int log_ingestion_gb avg_retention_months ;;
  let cost_drivers :=
    [[Literal "Log ingestion: ~"; FixedPoint log_ingestion_gb false 0 0;
      Literal " GB/month across "; Integer (accounts_count (org_profile self));
      Literal " accounts"];
     [Literal "Log storage: ~"; FixedPoint retained_shown false 0 0;
      Literal " GB with average "; Integer avg_retention_months;
      Literal " month retention"];
     [Literal "Custom metrics and dashboards"];
     [Literal "Cross-account metric sharing"]] in
  let optimization_potential := float_lit 0.40 in
  Ok {| service_name := "Amazon CloudWatch";
        monthly_cost := monthly_cost;
        annual_cost := annual_cost;
        cost_drivers := cost_drivers;
        optimization_potential := optimization_potential;
        cost_tier := "standard" |}.

Definition calculate_security_hub_costs (self : LandingZoneCostCalculator) : result ServiceCost :=
  let findings_per_month := (accounts_count (org_profile self) * 10000)%Z in
  findings_100k <- int_truediv findings_per_month 100000 ;;
  let ingestion_cost :=
    (findings_100k * SECURITY_HUB_FINDING_INGESTION_PER_100K (pricing self))%py in
  let compliance_checks_per_month :=
    (accounts_count (org_profile self)
     * len (compliance_requirements (org_profile self)) * 1000)%Z in
  checks_100k <- int_truediv compliance_checks_per_month 100000 ;;
  let compliance_cost :=
    (checks_100k * SECURITY_HUB_COMPLIANCE_CHECKS_PER_100K (pricing self))%py in
  let monthly_cost := (ingestion_cost + compliance_cost)%py in
  let annual_cost := (monthly_cost * float_lit 12)%py in
  let cost_drivers :=
    [[Literal "Security findings ingestion: ~"; IntegerGrouped findings_per_month;
      Literal " findings/month"];
     [Literal "Compliance checks: ~"; IntegerGrouped compliance_checks_per_month;
      Literal " checks/month"];
     [Literal "Standards: ";
      Field (String.concat ", " (compliance_requirements (org_profile self)))];
     [Literal "Cross-account security posture aggregation"]] in
  let optimization_potential := float_lit 0.10 in
  Ok {| service_name := "AWS Security Hub";
        monthly_cost := monthly_cost;
        annual_cost := annual_cost;
        cost_drivers := cost_drivers;
        optimization_potential := optimization_potential;
        cost_tier := "premium" |}.

Definition calculate_backup_costs (self : LandingZoneCostCalculator) : result ServiceCost :=
  prod_share <- int_fmul (accounts_count (org_profile self))
                         (float_lit 1 - development_accounts_ratio (org_profile self))%py ;;
  prod_accounts <- float_to_int prod_share ;;
  let dev_accounts := (accounts_count (org_profile self) - prod_accounts)%Z in
  let backup_storage_gb := (prod_accounts * 100 + dev_accounts * 30)%Z in
  storage_cost <- int_fmul backup_storage_gb (AWS_BACKUP_STORAGE_PER_GB_MONTH (pricing self)) ;;
  cross_region_gb <- int_fmul backup_storage_gb (float_lit 0.5) ;;
  let cross_region_cost :=
    (cross_region_gb * AWS_BACKUP_CROSS_REGION_COPY_PER_GB (pricing self))%py in
  let monthly_cost := (storage_cost + cross_region_cost)%py in
  let annual_cost := (monthly_cost * float_lit 12)%py in
  storage_shown <- float_of_int backup_storage_gb ;;
  let cost_drivers :=
    [[Literal "Backup storage: ~"; FixedPoint storage_shown false 0 0;
      Literal " GB across "; Integer (accounts_count (org_profile self));
      Literal " accounts"];
     [Literal "Cross-region replication: ~"; FixedPoint cross_region_gb false 0 0;
      Literal " GB for DR"];
     [Literal "EBS snapshots, RDS backups, EFS backups"];
     [Literal "Automated backup lifecycle management"]] in
  let optimization_potential := float_lit 0.25 in
  Ok {| service_name := "AWS Backup";
        monthly_cost := monthly_cost;
        annual_cost := annual_cost;
        cost_drivers := cost_drivers;
        optimization_potential := optimization_potential;
        cost_tier := "standard" |}.

(** The dictionaries of the report, as records. *)

Record Recommendation : Type := {
  priority : string;
  category : string;
  title : string;
  description : string;
  estimated_savings_annual : F;
  implementation_effort : string
}.

Record RiskFactor : Type := {
  risk : string;
  risk_description : string;
  mitigation : string
}.

Record RiskAnalysis : Type := {
  risk_level : string;
  risk_factors : list RiskFactor
}.

Record ServiceEntry : Type := {
  entry_name : string;
  entry_monthly_cost : F;
  entry_annual_cost : F;
  entry_cost_drivers : list line;
  entry_optimization_potential_pct : F;
  entry_cost_tier : string;
  entry_percentage_of_total : F
}.

Record Totals : Type := {
  totals_monthly_cost : F;
  totals_annual_cost : F;
  totals_optimized_monthly : F;
  totals_optimized_annual : F;
  potential_savings_monthly : F;
  potential_savings_annual : F;
  potential_savings_percentage : F
}.

Record BusinessMetrics : Type := {
  cost_per_employee_monthly : F;
  cost_per_employee_annual : F;
  cost_per_account_monthly : F;
  cost_per_account_annual : F
}.

Record CostReport : Type := {
  organization_profile : OrganizationProfile;
  cost_breakdown_services : list ServiceEntry;
  cost_breakdown_totals : Totals;
  business_metrics : BusinessMetrics;
  recommendations : list Recommendation;
  risk_analysis : RiskAnalysis
}.

(** [_generate_recommendations].  The argument [services] is not read. *)
Definition _generate_recommendations (self : LandingZoneCostCalculator)
    (services : list ServiceCost) (total_annual : F) : list Recommendation :=
  let recommendations := [] in
  let recommendations := recommendations ++ [
    {| priority := "high";
       category := "cost_optimization";
       title := "Implement Transit Gateway Reserved Instances";
       description := "Purchase 1-year reserved instances for Transit Gateway attachments";
       estimated_savings_annual := (total_annual * float_lit 0.15)%py;
       implementation_effort := "low" |};
    {| priority := "high";
       category := "log_optimization";
       title := "Configure CloudWatch Logs retention policies";
       description := "Implement tiered retention: 30 days (debug), 90 days (info), 365 days (error)";
       estimated_savings_annual := (total_annual * float_lit 0.12)%py;
       implementation_effort := "medium" |} ] in
  let recommendations :=
    if (accounts_count (org_profile self) >? 20)%Z then
      recommendations ++ [
        {| priority := "medium";
           category := "governance";
           title := "Implement account-level budget controls";
           description := "Set up automated budget alerts and spending limits per account";
           estimated_savings_annual := (total_annual * float_lit 0.08)%py;
           implementation_effort := "high" |} ]
    else recommendations in
  let recommendations :=
    if existsb (String.eqb "pci-dss") (compliance_requirements (org_profile self)) then
      recommendations ++ [
        {| priority := "medium";
           category := "compliance";
           title := "Optimize PCI DSS scope";
           description := "Reduce PCI DSS scope by network segmentation and data flow optimization";
           estimated_savings_annual := (total_annual * float_lit 0.05)%py;
           implementation_effort := "high" |} ]
    else recommendations in
  recommendations.

(** [_generate_risk_analysis] *)
Definition _generate_risk_analysis (self : LandingZoneCostCalculator)
    (monthly_cost : F) : RiskAnalysis :=
  let risk_factors := [] in
  let risk_factors :=
    if fgt monthly_cost (float_lit 2000) then
      risk_factors ++ [
        {| risk := "high_monthly_spend";
           risk_description := "Monthly spend exceeds $2,000 - implement strict monitoring";
           mitigation := "Set up daily cost alerts and weekly reviews" |} ]
    else risk_factors in
  let risk_factors :=
    if (len (regions (org_profile self)) >? 2)%Z then
      risk_factors ++ [
        {| risk := "multi_region_complexity";
           risk_description := "Multi-region deployment increases data transfer costs";
           mitigation := "Optimize cross-region traffic patterns and implement data locality" |} ]
    else risk_factors in
  let risk_factors :=
    if (accounts_count (org_profile self) >? 50)%Z then
      risk_factors ++ [
        {| risk := "account_sprawl";
           risk_description := "Large number of accounts may lead to governance challenges";
           mitigation := "Implement automated account lifecycle management" |} ]
    else risk_factors in
  {| risk_level :=
       if (len risk_factors >=? 2)%Z then "high"
       else match risk_factors with
            | _ :: _ => "medium"
            | [] => "low"
            end;
     risk_factors := risk_factors |}.

(** The local variables of [generate_cost_report]. *)

Definition services_of (self : LandingZoneCostCalculator) : result (list ServiceCost) :=
  s1 <- calculate_control_tower_costs self ;;
  s2 <- calculate_guardduty_costs self ;;
  s3 <- calculate_config_costs self ;;
  s4 <- calculate_transit_gateway_costs self ;;
  s5 <- calculate_cloudtrail_costs self ;;
  s6 <- calculate_cloudwatch_costs self ;;
  s7 <- calculate_security_hub_costs self ;;
  s8 <- calculate_backup_costs self ;;
  Ok [s1; s2; s3; s4; s5; s6; s7; s8].

Definition total_monthly_of (services : list ServiceCost) : F :=
  py_sum (map monthly_cost services).

Definition total_annual_of (services : list ServiceCost) : F :=
  py_sum (map annual_cost services).

Definition optimized_monthly_of (services : list ServiceCost) : F :=
  py_sum (map (fun service =>
                 (monthly_cost service
                  * (float_lit 1 - optimization_potential service))%py)
              services).

Definition service_entry (total_monthly : F) (service : ServiceCost) : result ServiceEntry :=
  share <- ftruediv (monthly_cost service) total_monthly ;;
  Ok {| entry_name := service_name service;
        entry_monthly_cost := float_round (monthly_cost service) 2;
        entry_annual_cost := float_round (annual_cost service) 2;
        entry_cost_drivers := cost_drivers service;
        entry_optimization_potential_pct :=
          float_round (optimization_potential service * float_lit 100)%py 1;
        entry_cost_tier := cost_tier service;
        entry_percentage_of_total := float_round (share * float_lit 100)%py 1 |}.

(** [generate_cost_report].  The constant block [cost_analysis]
    (timestamp, currency, region) is left out. *)
Definition generate_cost_report (self : LandingZoneCostCalculator) : result CostReport :=
  services <- services_of self ;;
  let total_monthly := total_monthly_of services in
  let total_annual := total_annual_of services in
  let optimized_monthly := optimized_monthly_of services in
  let optimized_annual := (optimized_monthly * float_lit 12)%py in
  let potential_savings_monthly := (total_monthly - optimized_monthly)%py in
  let potential_savings_annual := (total_annual - optimized_annual)%py in
  cost_per_employee_monthly <- ftruediv_int total_monthly (employees (org_profile self)) ;;
  cost_per_employee_annual <- ftruediv_int total_annual (employees (org_profile self)) ;;
  entries <- map_result (service_entry total_monthly) services ;;
  savings_share <- ftruediv potential_savings_annual total_annual ;;
  cost_per_account_monthly <- ftruediv_int total_monthly (accounts_count (org_profile self)) ;;
  cost_per_account_annual <- ftruediv_int total_annual (accounts_count (org_profile self)) ;;
  Ok {| organization_profile := org_profile self;
        cost_breakdown_services := entries;
        cost_breakdown_totals :=
          {| totals_monthly_cost := float_round total_monthly 2;
             totals_annual_cost := float_round total_annual 2;
             totals_optimized_monthly := float_round optimized_monthly 2;
             totals_optimized_annual := float_round optimized_annual 2;
             potential_savings_monthly := float_round potential_savings_monthly 2;
             potential_savings_annual := float_round potential_savings_annual 2;
             potential_savings_percentage :=
               float_round (savings_share * float_lit 100)%py 1 |};
        business_metrics :=
          {| cost_per_employee_monthly := float_round cost_per_employee_monthly 2;
             cost_per_employee_annual := float_round cost_per_employee_annual 2;
             cost_per_account_monthly := float_round cost_per_account_monthly 2;
             cost_per_account_annual := float_round cost_per_account_annual 2 |};
        recommendations := _generate_recommendations self services total_annual;
        risk_analysis := _generate_risk_analysis self total_monthly |}.

End CostCalculator.

Arguments OrganizationProfile F : clear implicits.
Arguments piece F : clear implicits.
Arguments line F : clear implicits.
Arguments ServiceCost F : clear implicits.
Arguments AWSPricing F : clear implicits.
Arguments LandingZoneCostCalculator F : clear implicits.
Arguments Recommendation F : clear implicits.
Arguments CostReport F : clear implicits.
Arguments ServiceEntry F : clear implicits.
Arguments RiskAnalysis : clear implicits.

(** ** The profile invariants of the specification *)

Definition valid_profile {F : Type} {FO : PyFloat F} (p : OrganizationProfile F) : Prop :=
  (1 <= accounts_count p)%Z
  /\ (1 <= employees p)%Z
  /\ regions p <> []
  /\ (0 <= expected_data_gb_monthly p)%Z
  /\ fle (float_lit 0) (development_accounts_ratio p) = true
  /\ fle (development_accounts_ratio p) (float_lit 1) = true.

(** [doubled p] is [p] with twice the accounts and every other field kept. *)
Definition doubled {F : Type} (p : OrganizationProfile F) : OrganizationProfile F :=
  {| name := name p;
     accounts_count := 2 * accounts_count p;
     employees := employees p;
     regions := regions p;
     compliance_requirements := compliance_requirements p;
     expected_data_gb_monthly := expected_data_gb_monthly p;
     business_hours_only := business_hours_only p;
     development_accounts_ratio := development_accounts_ratio p |}.

(** ** The rules of the specification, in its own words *)

Section Rules.
Context {F : Type} {FO : PyFloat F}.

(** Rule 1: reserved capacity for the transit service. *)
Definition transit_reserved_rule (total_annual : F) : Recommendation F :=
  {| priority := "high";
     category := "cost_optimization";
     title := "Implement Transit Gateway Reserved Instances";
     description := "Purchase 1-year reserved instances for Transit Gateway attachments";
     estimated_savings_annual := (total_annual * float_lit 0.15)%py;
     implementation_effort := "low" |}.

(** Rule 2: tiered log retention. *)
Definition log_retention_rule (total_annual : F) : Recommendation F :=
  {| priority := "high";
     category := "log_optimization";
     title := "Configure CloudWatch Logs retention policies";
     description := "Implement tiered retention: 30 days (debug), 90 days (info), 365 days (error)";
     estimated_savings_annual := (total_annual * float_lit 0.12)%py;
     implementation_effort := "medium" |}.

(** Rule 3: account-level budget controls. *)
Definition budget_controls_rule (total_annual : F) : Recommendation F :=
  {| priority := "medium";
     category := "governance";
     title := "Implement account-level budget controls";
     description := "Set up automated budget alerts and spending limits per account";
     estimated_savings_annual := (total_annual * float_lit 0.08)%py;
     implementation_effort := "high" |}.

(** Rule 4: PCI scope reduction. *)
Definition pci_scope_rule (total_annual : F) : Recommendation F :=
  {| priority := "medium";
     category := "compliance";
     title := "Optimize PCI DSS scope";
     description := "Reduce PCI DSS scope by network segmentation and data flow optimization";
     estimated_savings_annual := (total_annual * float_lit 0.05)%py;
     implementation_effort := "high" |}.

Definition high_monthly_spend : RiskFactor :=
  {| risk := "high_monthly_spend";
     risk_description := "Monthly spend exceeds $2,000 - implement strict monitoring";
     mitigation := "Set up daily cost alerts and weekly reviews" |}.

Definition multi_region_complexity : RiskFactor :=
  {| risk := "multi_region_complexity";
     risk_description := "Multi-region deployment increases data transfer costs";
     mitigation := "Optimize cross-region traffic patterns and implement data locality" |}.

Definition account_sprawl : RiskFactor :=
  {| risk := "account_sprawl";
     risk_description := "Large number of accounts may lead to governance challenges";
     mitigation := "Implement automated account lifecycle management" |}.

(** The three conditions of the risk analyzer, and how many of them hold. *)
Definition spend_triggered (monthly_cost : F) : bool := fgt monthly_cost (float_lit 2000).

Definition regions_triggered (p : OrganizationProfile F) : bool := (len (regions p) >? 2)%Z.

Definition sprawl_triggered (p : OrganizationProfile F) : bool := (accounts_count p >? 50)%Z.

Definition triggered (p : OrganizationProfile F) (monthly_cost : F) : nat :=
  (if spend_triggered monthly_cost then 1 else 0)
  + (if regions_triggered p then 1 else 0)
  + (if sprawl_triggered p then 1 else 0).

Definition level_of (n : nat) : string :=
  match n with
  | O => "low"
  | S O => "medium"
  | _ => "high"
  end.

(** The backup formula of the specification, with [round] as it says ... *)
Definition backup_monthly_with (to_accounts : F -> result Z)
    (self : LandingZoneCostCalculator F) : result F :=
  let a := accounts_count (org_profile self) in
  share <- float_of_int a ;;
  prod_accounts <-
    to_accounts (share * (float_lit 1 - development_accounts_ratio (org_profile self)))%py ;;
  let dev_accounts := (a - prod_accounts)%Z in
  let storage_gb := (prod_accounts * 100 + dev_accounts * 30)%Z in
  storage <- float_of_int storage_gb ;;
  storage' <- float_of_int storage_gb ;;
  let cross_region_gb := (storage' * float_lit 0.5)%py in
  Ok (storage * AWS_BACKUP_STORAGE_PER_GB_MONTH (pricing self)
      + cross_region_gb * AWS_BACKUP_CROSS_REGION_COPY_PER_GB (pricing self))%py.

Definition backup_monthly_claimed (self : LandingZoneCostCalculator F) : result F :=
  backup_monthly_with float_round_int self.

(** ... and with [int], as the script has it. *)
Definition backup_monthly_amended (self : LandingZoneCostCalculator F) : result F :=
  backup_monthly_with float_to_int self.

Definition monthly_of (c : result (ServiceCost F)) : result F :=
  s <- c ;; Ok (monthly_cost s).

Definition potential_of (c : result (ServiceCost F)) : result F :=
  s <- c ;; Ok (optimization_potential s).

End Rules.

(** ** Recommendation engine and risk analyzer: every float implementation *)

Section Engines.
Context {F : Type} {FO : PyFloat F}.

(** The engine's output, rule by rule. *)
Lemma recommendations_shape (self : LandingZoneCostCalculator F)
    (services : list (ServiceCost F)) (total_annual : F) :
  _generate_recommendations self services total_annual
  = [transit_reserved_rule total_annual; log_retention_rule total_annual]
    ++ (if (accounts_count (org_profile self) >? 20)%Z
        then [budget_controls_rule total_annual] else [])
    ++ (if existsb (String.eqb "pci-dss") (compliance_requirements (org_profile self))
        then [pci_scope_rule total_annual] else []).
Proof.
  unfold _generate_recommendations.
  destruct (accounts_count (org_profile self) >? 20)%Z;
    destruct (existsb _ _); reflexivity.
Qed.

Lemma budget_rule_is_no_other_rule (t : F) :
  budget_controls_rule t <> transit_reserved_rule t
  /\ budget_controls_rule t <> log_retention_rule t
  /\ budget_controls_rule t <> pci_scope_rule t.
Proof.
  repeat split; intro E; apply (f_equal category) in E; discriminate E.
Qed.

(** C6: the budget-controls recommendation (0.08 of the annual total,
    priority medium, effort high) is in the engine's output exactly when
    [accounts_count > 20]; with 20 accounts it is absent. *)
Theorem budget_controls_iff_more_than_20 (self : LandingZoneCostCalculator F)
    (services : list (ServiceCost F)) (total_annual : F) :
  (In (budget_controls_rule total_annual)
      (_generate_recommendations self services total_annual)
   <-> (accounts_count (org_profile self) > 20)%Z)
  /\ ((accounts_count (org_profile self) = 20)%Z ->
      ~ In (budget_controls_rule total_annual)
           (_generate_recommendations self services total_annual))
  /\ estimated_savings_annual (budget_controls_rule total_annual)
     = (total_annual * float_lit 0.08)%py
  /\ priority (budget_controls_rule total_annual) = "medium"
  /\ implementation_effort (budget_controls_rule total_annual) = "high".
Proof.
  destruct (budget_rule_is_no_other_rule total_annual) as (N1 & N2 & N3).
  assert (Iff : In (budget_controls_rule total_annual)
                   (_generate_recommendations self services total_annual)
                <-> (accounts_count (org_profile self) > 20)%Z).
  { rewrite recommendations_shape.
    destruct (accounts_count (org_profile self) >? 20)%Z eqn:E20.
    - apply Z.gtb_lt in E20. split; [lia | intros _].
      simpl. right. right. left. reflexivity.
    - assert (~ (accounts_count (org_profile self) > 20)%Z).
      { intro G. apply Z.gt_lt, Z.gtb_lt in G. congruence. }
      split; [| tauto].
      destruct (existsb _ _); simpl; intros [E | [E | Hin]];
        try (symmetry in E; tauto); try tauto.
      destruct Hin as [E | []]. symmetry in E. tauto. }
  split; [exact Iff |].
  split; [| repeat split; reflexivity].
  intros E20 Hin. apply Iff in Hin. lia.
Qed.

(** C10: the engine returns between 2 and 4 recommendations, and the
    first two are always the transit reserved-capacity rule (0.15 of the
    annual total) and the log-retention rule (0.12 of it), in this order. *)
Theorem recommendations_two_to_four (self : LandingZoneCostCalculator F)
    (services : list (ServiceCost F)) (total_annual : F) :
  exists rest,
    _generate_recommendations self services total_annual
    = transit_reserved_rule total_annual :: log_retention_rule total_annual :: rest
    /\ (2 <= List.length (_generate_recommendations self services total_annual) <= 4)%nat
    /\ estimated_savings_annual (transit_reserved_rule total_annual)
       = (total_annual * float_lit 0.15)%py
    /\ estimated_savings_annual (log_retention_rule total_annual)
       = (total_annual * float_lit 0.12)%py.
Proof.
  rewrite recommendations_shape.
  eexists. split; [reflexivity |].
  split; [| split; reflexivity].
  destruct (accounts_count (org_profile self) >? 20)%Z;
    destruct (existsb _ _); simpl; lia.
Qed.

(** The analyzer's factors are the triggered ones among the three, in the
    order of the checks. *)
Lemma risk_factors_shape (self : LandingZoneCostCalculator F) (monthly : F) :
  risk_factors (_generate_risk_analysis self monthly)
  = (if spend_triggered monthly then [high_monthly_spend] else [])
    ++ (if regions_triggered (org_profile self) then [multi_region_complexity] else [])
    ++ (if sprawl_triggered (org_profile self) then [account_sprawl] else []).
Proof.
  unfold _generate_risk_analysis, spend_triggered, regions_triggered, sprawl_triggered.
  destruct (fgt monthly (float_lit 2000));
    destruct (len (regions (org_profile self)) >? 2)%Z;
    destruct (accounts_count (org_profile self) >? 50)%Z; reflexivity.
Qed.

Lemma risk_level_shape (self : LandingZoneCostCalculator F) (monthly : F) :
  risk_level (_generate_risk_analysis self monthly)
  = level_of (triggered (org_profile self) monthly).
Proof.
  unfold _generate_risk_analysis, triggered, spend_triggered, regions_triggered,
    sprawl_triggered.
  destruct (fgt monthly (float_lit 2000));
    destruct (len (regions (org_profile self)) >? 2)%Z;
    destruct (accounts_count (org_profile self) >? 50)%Z; reflexivity.
Qed.

(** C7: each of the three conditions (monthly cost above 2000, more than
    two regions, more than 50 accounts) appends its factor; the level is
    high with two or more factors, medium with one, low with none; and a
    profile with 60 accounts, three regions and a monthly total above 2000
    is rated high with all three factors. *)
Theorem risk_analysis_rules (self : LandingZoneCostCalculator F) (monthly : F) :
  let analysis := _generate_risk_analysis self monthly in
  let n := triggered (org_profile self) monthly in
  risk_factors analysis
  = (if fgt monthly (float_lit 2000) then [high_monthly_spend] else [])
    ++ (if (len (regions (org_profile self)) >? 2)%Z then [multi_region_complexity] else [])
    ++ (if (accounts_count (org_profile self) >? 50)%Z then [account_sprawl] else [])
  /\ List.length (risk_factors analysis) = n
  /\ ((2 <= n)%nat -> risk_level analysis = "high")
  /\ (n = 1%nat -> risk_level analysis = "medium")
  /\ (n = 0%nat -> risk_level analysis = "low")
  /\ (accounts_count (org_profile self) = 60%Z ->
      List.length (regions (org_profile self)) = 3%nat ->
      fgt monthly (float_lit 2000) = true ->
      risk_level analysis = "high"
      /\ risk_factors analysis
         = [high_monthly_spend; multi_region_complexity; account_sprawl]).
Proof.
  cbv zeta.
  rewrite risk_level_shape, risk_factors_shape.
  unfold triggered, spend_triggered, regions_triggered, sprawl_triggered, len.
  split; [reflexivity |].
  split.
  { destruct (fgt monthly (float_lit 2000));
      destruct (Z.of_nat (List.length (regions (org_profile self))) >? 2)%Z;
      destruct (accounts_count (org_profile self) >? 50)%Z; reflexivity. }
  split; [| split; [| split]].
  - destruct (fgt monthly (float_lit 2000));
      destruct (Z.of_nat (List.length (regions (org_profile self))) >? 2)%Z;
      destruct (accounts_count (org_profile self) >? 50)%Z; simpl; intros; try reflexivity; lia.
  - destruct (fgt monthly (float_lit 2000));
      destruct (Z.of_nat (List.length (regions (org_profile self))) >? 2)%Z;
      destruct (accounts_count (org_profile self) >? 50)%Z; simpl; intros; try reflexivity; lia.
  - destruct (fgt monthly (float_lit 2000));
      destruct (Z.of_nat (List.length (regions (org_profile self))) >? 2)%Z;
      destruct (accounts_count (org_profile self) >? 50)%Z; simpl; intros; try reflexivity; lia.
  - intros Ha Hr Hm. rewrite Ha, Hr, Hm. split; reflexivity.
Qed.

(** The script's backup calculator charges exactly the specification's
    formula read with [int]. *)
Lemma backup_monthly_is_amended (self : LandingZoneCostCalculator F) :
  monthly_of (calculate_backup_costs self) = backup_monthly_amended self.
Proof.
  unfold monthly_of, calculate_backup_costs, backup_monthly_amended,
    backup_monthly_with, int_fmul.
  destruct (float_of_int (accounts_count (org_profile self))) as [share |]; [| reflexivity].
  simpl.
  destruct (float_to_int _) as [prod |]; [| reflexivity].
  simpl.
  destruct (float_of_int _) as [storage |]; reflexivity.
Qed.

End Engines.

(** ** The claims, stated for any float implementation *)

Section Claims.
Context {F : Type} {FO : PyFloat F}.

(** The monthly cost of calculator [calc] grows strictly when the accounts
    of [p] are doubled. *)
Definition increases_on_doubling
    (calc : LandingZoneCostCalculator F -> result (ServiceCost F))
    (p : OrganizationProfile F) : Prop :=
  exists m m',
    monthly_of (calc (LandingZoneCostCalculator_new p)) = Ok m
    /\ monthly_of (calc (LandingZoneCostCalculator_new (doubled p))) = Ok m'
    /\ fgt m' m = true.

Definition unchanged_on_doubling
    (calc : LandingZoneCostCalculator F -> result (ServiceCost F))
    (p : OrganizationProfile F) : Prop :=
  exists m,
    monthly_of (calc (LandingZoneCostCalculator_new p)) = Ok m
    /\ monthly_of (calc (LandingZoneCostCalculator_new (doubled p))) = Ok m.

Definition scaling_property (p : OrganizationProfile F) : Prop :=
  increases_on_doubling calculate_guardduty_costs p
  /\ increases_on_doubling calculate_config_costs p
  /\ increases_on_doubling calculate_transit_gateway_costs p
  /\ increases_on_doubling calculate_cloudwatch_costs p
  /\ increases_on_doubling calculate_security_hub_costs p
  /\ increases_on_doubling calculate_backup_costs p
  /\ unchanged_on_doubling calculate_control_tower_costs p.

(** The outcome of each of the eight calculators satisfies [P]. *)
Definition calculators_satisfy (P : result (ServiceCost F) -> Prop)
    (p : OrganizationProfile F) : Prop :=
  let self := LandingZoneCostCalculator_new p in
  P (calculate_control_tower_costs self)
  /\ P (calculate_guardduty_costs self)
  /\ P (calculate_config_costs self)
  /\ P (calculate_transit_gateway_costs self)
  /\ P (calculate_cloudtrail_costs self)
  /\ P (calculate_cloudwatch_costs self)
  /\ P (calculate_security_hub_costs self)
  /\ P (calculate_backup_costs self).

(** Every calculator returns. *)
Definition calculators_return (p : OrganizationProfile F) : Prop :=
  calculators_satisfy (fun c => returns c) p.

Definition no_division_fault {A : Type} (c : result A) : Prop :=
  c <> Raise ZeroDivisionError.

(** Every exception that [c] raises is one of the [allowed] ones. *)
Definition raises_only {A : Type} (allowed : exception -> Prop) (c : result A) : Prop :=
  forall e, c = Raise e -> allowed e.

(** *** Profiles used as examples *)

(** The profile of the end-to-end example. *)
Definition example_profile : OrganizationProfile F :=
  {| name := "Enterprise Organization";
     accounts_count := 10;
     employees := 500;
     regions := ["us-east-1"];
     compliance_requirements := ["sox"; "pci-dss"];
     expected_data_gb_monthly := 1000;
     business_hours_only := false;
     development_accounts_ratio := float_lit 0.3 |}.

Definition with_accounts (n : Z) (p : OrganizationProfile F) : OrganizationProfile F :=
  {| name := name p;
     accounts_count := n;
     employees := employees p;
     regions := regions p;
     compliance_requirements := compliance_requirements p;
     expected_data_gb_monthly := expected_data_gb_monthly p;
     business_hours_only := business_hours_only p;
     development_accounts_ratio := development_accounts_ratio p |}.

Definition with_data (d : Z) (p : OrganizationProfile F) : OrganizationProfile F :=
  {| name := name p;
     accounts_count := accounts_count p;
     employees := employees p;
     regions := regions p;
     compliance_requirements := compliance_requirements p;
     expected_data_gb_monthly := d;
     business_hours_only := business_hours_only p;
     development_accounts_ratio := development_accounts_ratio p |}.

Definition with_regions (rs : list string) (p : OrganizationProfile F) : OrganizationProfile F :=
  {| name := name p;
     accounts_count := accounts_count p;
     employees := employees p;
     regions := rs;
     compliance_requirements := compliance_requirements p;
     expected_data_gb_monthly := expected_data_gb_monthly p;
     business_hours_only := business_hours_only p;
     development_accounts_ratio := development_accounts_ratio p |}.

Definition with_frameworks (fs : list string) (p : OrganizationProfile F) : OrganizationProfile F :=
  {| name := name p;
     accounts_count := accounts_count p;
     employees := employees p;
     regions := regions p;
     compliance_requirements := fs;
     expected_data_gb_monthly := expected_data_gb_monthly p;
     business_hours_only := business_hours_only p;
     development_accounts_ratio := development_accounts_ratio p |}.

Definition with_ratio (r : F) (p : OrganizationProfile F) : OrganizationProfile F :=
  {| name := name p;
     accounts_count := accounts_count p;
     employees := employees p;
     regions := regions p;
     compliance_requirements := compliance_requirements p;
     expected_data_gb_monthly := expected_data_gb_monthly p;
     business_hours_only := business_hours_only p;
     development_accounts_ratio := r |}.

End Claims.

(** ** The cost terms that depend on the data volume or on the frameworks

    These are local variables of the calculators, each as a function of
    the calculator object; the lemmas below put the monthly costs back
    together from them.  The GuardDuty and CloudTrail calculators convert
    one more int when they build their cost drivers, so their lemmas are
    about the service they return. *)

Section Terms.
Context {F : Type} {FO : PyFloat F}.
Variable self : LandingZoneCostCalculator F.

(** [cloudtrail_events_cost] and [dns_logs_cost] of the GuardDuty calculator *)
Definition guardduty_cloudtrail_events_cost : result F :=
  events_100k <- int_truediv (expected_data_gb_monthly (org_profile self) * 100) 100000 ;;
  Ok (events_100k * GUARDDUTY_CLOUDTRAIL_PER_100K_EVENTS (pricing self))%py.

Definition guardduty_dns_logs_cost : result F :=
  int_fmul (expected_data_gb_monthly (org_profile self)) (GUARDDUTY_DNS_PER_GB (pricing self)).

(** [data_processing_cost] of the Transit Gateway calculator *)
Definition transit_data_processing_cost : result F :=
  tgw_data_gb <- int_fmul (expected_data_gb_monthly (org_profile self)) (float_lit 0.7) ;;
  Ok (tgw_data_gb * TGW_DATA_PROCESSING_PER_GB (pricing self))%py.

(** [data_events_cost] and [insights_cost] of the CloudTrail calculator *)
Definition cloudtrail_data_events_cost : result F :=
  data_events_100k <-
    int_truediv (expected_data_gb_monthly (org_profile self) * 50) 100000 ;;
  Ok (data_events_100k * CLOUDTRAIL_DATA_EVENTS_PER_100K (pricing self))%py.

Definition cloudtrail_insights_cost : result F :=
  insights_100k <-
    int_truediv (expected_data_gb_monthly (org_profile self) * 50) 100000 ;;
  Ok (insights_100k * CLOUDTRAIL_INSIGHTS_PER_100K (pricing self) * float_lit 0.1)%py.

(** [ingestion_cost] and [storage_cost] of the CloudWatch calculator *)
Definition cloudwatch_ingestion_cost : result F :=
  log_ingestion_gb <-
    int_fmul (expected_data_gb_monthly (org_profile self)) (float_lit 0.3) ;;
  Ok (log_ingestion_gb * CLOUDWATCH_LOG_INGESTION_PER_GB (pricing self))%py.

Definition cloudwatch_storage_cost : result F :=
  log_ingestion_gb <-
    int_fmul (expected_data_gb_monthly (org_profile self)) (float_lit 0.3) ;;
  retained_gb <- fmul_int log_ingestion_gb 6 ;;
  Ok (retained_gb * CLOUDWATCH_LOG_STORAGE_PER_GB_MONTH (pricing self))%py.

(** [ingestion_cost] and [compliance_cost] of the Security Hub calculator *)
Definition security_hub_ingestion_cost : result F :=
  findings_100k <- int_truediv (accounts_count (org_profile self) * 10000) 100000 ;;
  Ok (findings_100k * SECURITY_HUB_FINDING_INGESTION_PER_100K (pricing self))%py.

Definition security_hub_compliance_cost : result F :=
  checks_100k <-
    int_truediv (accounts_count (org_profile self)
                 * len (compliance_requirements (org_profile self)) * 1000) 100000 ;;
  Ok (checks_100k * SECURITY_HUB_COMPLIANCE_CHECKS_PER_100K (pricing self))%py.

(** The seven terms that scale with the data volume satisfy [P]. *)
Definition data_terms (P : result F -> Prop) : Prop :=
  P guardduty_cloudtrail_events_cost
  /\ P guardduty_dns_logs_cost
  /\ P transit_data_processing_cost
  /\ P cloudtrail_data_events_cost
  /\ P cloudtrail_insights_cost
  /\ P cloudwatch_ingestion_cost
  /\ P cloudwatch_storage_cost.

Lemma guardduty_monthly_terms (service : ServiceCost F) :
  calculate_guardduty_costs self = Ok service ->
  (base_monthly <- fmul_int (GUARDDUTY_BASE_PER_ACCOUNT (pricing self))
                            (accounts_count (org_profile self)) ;;
   cloudtrail_events_cost <- guardduty_cloudtrail_events_cost ;;
   dns_logs_cost <- guardduty_dns_logs_cost ;;
   Ok (base_monthly + cloudtrail_events_cost + dns_logs_cost)%py)
  = Ok (monthly_cost service).
Proof.
  unfold calculate_guardduty_costs, guardduty_cloudtrail_events_cost,
    guardduty_dns_logs_cost, fmul_int, int_fmul.
  destruct (float_of_int (accounts_count (org_profile self))); [| discriminate].
  cbn [bind]. destruct (int_truediv _ _); [| discriminate].
  cbn [bind].
  destruct (float_of_int (expected_data_gb_monthly (org_profile self))); [| discriminate].
  cbn [bind]. destruct (float_of_int _); [| discriminate].
  cbn [bind]. intros E. apply Ok_inj in E. subst service. reflexivity.
Qed.

Lemma transit_gateway_monthly_terms :
  monthly_of (calculate_transit_gateway_costs self)
  = (attachments_hourly <-
       int_fmul (accounts_count (org_profile self) * 2 * len (regions (org_profile self)))
                (TGW_ATTACHMENT_HOURLY (pricing self)) ;;
     attachment_cost <- fmul_int attachments_hourly (24 * 30) ;;
     data_processing_cost <- transit_data_processing_cost ;;
     Ok (attachment_cost + data_processing_cost)%py).
Proof.
  unfold monthly_of, calculate_transit_gateway_costs, transit_data_processing_cost,
    fmul_int, int_fmul.
  destruct (float_of_int (_ * _ * _)); [| reflexivity].
  cbn [bind]. destruct (float_of_int (24 * 30)); [| reflexivity].
  cbn [bind]. destruct (float_of_int _); reflexivity.
Qed.

Lemma cloudtrail_monthly_terms (service : ServiceCost F) :
  calculate_cloudtrail_costs self = Ok service ->
  (data_events_cost <- cloudtrail_data_events_cost ;;
   insights_cost <- cloudtrail_insights_cost ;;
   Ok (CLOUDTRAIL_TYPICAL_MONTHLY (pricing self) + data_events_cost + insights_cost)%py)
  = Ok (monthly_cost service).
Proof.
  unfold calculate_cloudtrail_costs, cloudtrail_data_events_cost,
    cloudtrail_insights_cost.
  destruct (int_truediv _ _); [| discriminate].
  cbn [bind]. destruct (float_of_int _); [| discriminate].
  cbn [bind]. intros E. apply Ok_inj in E. subst service. reflexivity.
Qed.

Lemma cloudwatch_monthly_terms :
  monthly_of (calculate_cloudwatch_costs self)
  = (base_cost <- fmul_int (CLOUDWATCH_TYPICAL_PER_ACCOUNT (pricing self))
                           (accounts_count (org_profile self)) ;;
     ingestion_cost <- cloudwatch_ingestion_cost ;;
     storage_cost <- cloudwatch_storage_cost ;;
     Ok (base_cost + ingestion_cost + storage_cost)%py).
Proof.
  unfold monthly_of, calculate_cloudwatch_costs, cloudwatch_ingestion_cost,
    cloudwatch_storage_cost, fmul_int, int_fmul.
  destruct (float_of_int (accounts_count (org_profile self))); [| reflexivity].
  cbn [bind].
  destruct (float_of_int (expected_data_gb_monthly (org_profile self))); [| reflexivity].
  cbn [bind]. destruct (float_of_int 6); reflexivity.
Qed.

Lemma security_hub_monthly_terms :
  monthly_of (calculate_security_hub_costs self)
  = (ingestion_cost <- security_hub_ingestion_cost ;;
     compliance_cost <- security_hub_compliance_cost ;;
     Ok (ingestion_cost + compliance_cost)%py).
Proof.
  unfold monthly_of, calculate_security_hub_costs, security_hub_ingestion_cost,
    security_hub_compliance_cost.
  destruct (int_truediv (_ * 10000) _); [| reflexivity].
  cbn [bind]. destruct (int_truediv _ _); reflexivity.
Qed.

(** *** The conversions each calculator makes

    The ints a calculator converts to a float and the ints it divides
    into one, for its cost terms and for its cost drivers.  Nothing else
    in these six calculators can raise. *)

Definition guardduty_conversions : list (result F) :=
  [float_of_int (accounts_count (org_profile self));
   int_truediv (expected_data_gb_monthly (org_profile self) * 100) 100000;
   float_of_int (expected_data_gb_monthly (org_profile self));
   float_of_int (expected_data_gb_monthly (org_profile self) * 100)].

Definition config_conversions : list (result F) :=
  [float_of_int (500 * accounts_count (org_profile self));
   float_of_int (accounts_count (org_profile self) * 50 * 4 * 30)].

Definition transit_gateway_conversions : list (result F) :=
  [float_of_int (accounts_count (org_profile self) * 2 * len (regions (org_profile self)));
   float_of_int (24 * 30);
   float_of_int (expected_data_gb_monthly (org_profile self))].

Definition cloudtrail_conversions : list (result F) :=
  [int_truediv (expected_data_gb_monthly (org_profile self) * 50) 100000;
   float_of_int (expected_data_gb_monthly (org_profile self) * 50)].

Definition cloudwatch_conversions : list (result F) :=
  [float_of_int (accounts_count (org_profile self));
   float_of_int (expected_data_gb_monthly (org_profile self));
   float_of_int 6].

Definition security_hub_conversions : list (result F) :=
  [int_truediv (accounts_count (org_profile self) * 10000) 100000;
   int_truediv (accounts_count (org_profile self)
                * len (compliance_requirements (org_profile self)) * 1000) 100000].

(** Each of the six calculators returns exactly when all its conversions
    do. *)
Definition conversions_decide : Prop :=
  (returns (calculate_guardduty_costs self) <-> Forall returns guardduty_conversions)
  /\ (returns (calculate_config_costs self) <-> Forall returns config_conversions)
  /\ (returns (calculate_transit_gateway_costs self)
      <-> Forall returns transit_gateway_conversions)
  /\ (returns (calculate_cloudtrail_costs self) <-> Forall returns cloudtrail_conversions)
  /\ (returns (calculate_cloudwatch_costs self) <-> Forall returns cloudwatch_conversions)
  /\ (returns (calculate_security_hub_costs self)
      <-> Forall returns security_hub_conversions).

Ltac decided :=
  cbn [bind]; split; intros H;
  [ first
      [ destruct H as [? H]; discriminate H
      | repeat (apply Forall_cons; [eexists; reflexivity |]); apply Forall_nil ]
  | first
      [ eexists; reflexivity
      | repeat match goal with
               | H : Forall _ (_ :: _) |- _ => inversion H; clear H; subst
               end;
        match goal with
        | H : returns (Raise _) |- _ => destruct H as [? H]; discriminate H
        end ] ].

Lemma calculators_return_iff_conversions_do : conversions_decide.
Proof.
  unfold conversions_decide, guardduty_conversions, config_conversions,
    transit_gateway_conversions, cloudtrail_conversions, cloudwatch_conversions,
    security_hub_conversions, calculate_guardduty_costs, calculate_config_costs,
    calculate_transit_gateway_costs, calculate_cloudtrail_costs,
    calculate_cloudwatch_costs, calculate_security_hub_costs, fmul_int, int_fmul.
  repeat match goal with |- _ /\ _ => split end.
  - destruct (float_of_int (accounts_count (org_profile self)));
      destruct (int_truediv (expected_data_gb_monthly (org_profile self) * 100) 100000);
      destruct (float_of_int (expected_data_gb_monthly (org_profile self)));
      destruct (float_of_int (expected_data_gb_monthly (org_profile self) * 100));
      decided.
  - destruct (float_of_int (500 * accounts_count (org_profile self)));
      destruct (float_of_int (accounts_count (org_profile self) * 50 * 4 * 30));
      decided.
  - destruct (float_of_int (accounts_count (org_profile self) * 2
                            * len (regions (org_profile self))));
      destruct (float_of_int (24 * 30));
      destruct (float_of_int (expected_data_gb_monthly (org_profile self)));
      decided.
  - destruct (int_truediv (expected_data_gb_monthly (org_profile self) * 50) 100000);
      destruct (float_of_int (expected_data_gb_monthly (org_profile self) * 50));
      decided.
  - destruct (float_of_int (accounts_count (org_profile self)));
      destruct (float_of_int (expected_data_gb_monthly (org_profile self)));
      destruct (float_of_int 6);
      decided.
  - destruct (int_truediv (accounts_count (org_profile self) * 10000) 100000);
      destruct (int_truediv (accounts_count (org_profile self)
                             * len (compliance_requirements (org_profile self)) * 1000)
                            100000);
      decided.
Qed.

End Terms.

(** ** Binary64: the script on concrete profiles *)

Section OnBinary64.
#[local] Existing Instance B64.ops.

Lemma float_neq (x y : float) : Prim2SF x <> Prim2SF y -> x <> y.
Proof. intros N E. apply N. rewrite E. reflexivity. Qed.

Lemma example_profile_valid : valid_profile example_profile.
Proof.
  unfold valid_profile. cbn [accounts_count employees regions expected_data_gb_monthly
    development_accounts_ratio example_profile].
  repeat split; try lia; try discriminate; vm_compute; reflexivity.
Qed.

(** The literals of the script denote the doubles CPython reads them as. *)
Lemma literals_are_nearest_doubles :
  float_lit 89.10 = 89.10%float
  /\ float_lit 1069.20 = 1069.20%float
  /\ float_lit 15.60 = 15.60%float
  /\ float_lit 0.003 = 0.003%float
  /\ float_lit 0.7 = 0.7%float
  /\ float_lit 12 = 12%float
  /\ float_lit 2000 = 2000%float.
Proof. repeat split; vm_compute; reflexivity. Qed.

(** [round(x, 2)] on a few doubles: 2.675 is read below the tie, 0.125 is
    a tie and goes to the even digit, and a negative value that rounds to
    zero gives [-0.0]. *)
Lemma round_examples :
  float_round 1069.1999999999998%float 2 = 1069.2%float
  /\ float_round 2.675%float 2 = 2.67%float
  /\ float_round 0.125%float 2 = 0.12%float
  /\ float_round (-0.001)%float 2 = (-0.0)%float
  /\ float_round 0.001%float 2 = 0.0%float
  /\ float_round infinity 2 = infinity.
Proof. repeat split; vm_compute; reflexivity. Qed.

(** C1 as stated: the Control Tower calculator returns 89.10 and 1069.20,
    and the report lists 8 services. *)
Definition control_tower_example_claim (p : OrganizationProfile float) : Prop :=
  exists service report,
    calculate_control_tower_costs (LandingZoneCostCalculator_new p) = Ok service
    /\ generate_cost_report (LandingZoneCostCalculator_new p) = Ok report
    /\ monthly_cost service = float_lit 89.10
    /\ annual_cost service = float_lit 1069.20
    /\ List.length (cost_breakdown_services report) = 8%nat.

(** C1, counterexample: in binary64 the calculator's annual cost,
    [89.10 * 12], is the double just below 1069.20. *)
Lemma control_tower_annual_is_not_1069_20 :
  ~ control_tower_example_claim example_profile.
Proof.
  intros (service & report & Hs & _ & _ & Ha & _).
  vm_compute in Hs. injection Hs as <-.
  revert Ha. apply float_neq. vm_compute. discriminate.
Qed.

(** C1, amended: the calculator returns monthly 89.10 and annual
    [89.10 * 12], which in binary64 is 1069.1999999999998; the report
    lists 8 services, and its Control Tower entry, rounded to two
    decimals, reads exactly 89.10 and 1069.20. *)
Theorem control_tower_example :
  exists service report entry,
    calculate_control_tower_costs (LandingZoneCostCalculator_new example_profile) = Ok service
    /\ generate_cost_report (LandingZoneCostCalculator_new example_profile) = Ok report
    /\ monthly_cost service = float_lit 89.10
    /\ annual_cost service = (float_lit 89.10 * float_lit 12)%py
    /\ annual_cost service = 1069.1999999999998%float
    /\ List.length (cost_breakdown_services report) = 8%nat
    /\ nth_error (cost_breakdown_services report) 0 = Some entry
    /\ entry_name entry = "AWS Control Tower"
    /\ entry_monthly_cost entry = float_lit 89.10
    /\ entry_annual_cost entry = float_lit 1069.20.
Proof.
  eexists. eexists. eexists.
  split; [vm_compute; reflexivity |].
  split; [vm_compute; reflexivity |].
  repeat split; vm_compute; reflexivity.
Qed.

Ltac valid_b64 :=
  unfold valid_profile;
  cbn [accounts_count employees regions expected_data_gb_monthly
       development_accounts_ratio example_profile with_accounts with_data
       with_regions with_ratio with_frameworks];
  repeat split; try lia; try discriminate; vm_compute; reflexivity.

(** C3 as stated, with Python's [<=] and [==] on floats. *)
Definition optimization_claim (services : list (ServiceCost float)) : Prop :=
  fle (optimized_monthly_of services) (total_monthly_of services) = true
  /\ (PrimFloat.eqb (optimized_monthly_of services) (total_monthly_of services) = true
      <-> forallb (fun s => PrimFloat.eqb (optimization_potential s) 0%float) services
          = true).

(** A profile whose Transit Gateway cost overflows: 2 * 10^304 accounts in
    1000 regions. *)
Definition overflowing_profile : OrganizationProfile float :=
  with_regions (repeat "us-east-1" 1000) (with_accounts (2 * 10 ^ 304) example_profile).

(** C3, counterexample: every calculator returns, the monthly total and
    the optimized total are both [inf], hence equal, and seven potentials
    are not zero. *)
Lemma optimized_equals_total_on_overflow :
  valid_profile overflowing_profile
  /\ exists services,
       services_of (LandingZoneCostCalculator_new overflowing_profile) = Ok services
       /\ total_monthly_of services = infinity
       /\ optimized_monthly_of services = infinity
       /\ ~ optimization_claim services.
Proof.
  split; [unfold overflowing_profile; valid_b64 |].
  eexists. split; [vm_compute; reflexivity |].
  split; [vm_compute; reflexivity |].
  split; [vm_compute; reflexivity |].
  intros [_ [H _]].
  assert (E : PrimFloat.eqb infinity infinity = true) by reflexivity.
  vm_compute in H. specialize (H E). discriminate H.
Qed.

(** C4 as stated: the backup cost follows the formula with [round]. *)
Definition backup_claim (p : OrganizationProfile float) : Prop :=
  monthly_of (calculate_backup_costs (LandingZoneCostCalculator_new p))
  = backup_monthly_claimed (LandingZoneCostCalculator_new p).

(** C4, counterexample: with 4 accounts and the default ratio 0.3 the
    script has [int(2.8) = 2] production accounts, 260 GB and 15.6 a
    month; [round(2.8) = 3] would give 330 GB and 19.8. *)
Lemma backup_truncates_four_accounts :
  valid_profile (with_accounts 4 example_profile)
  /\ monthly_of (calculate_backup_costs
                   (LandingZoneCostCalculator_new (with_accounts 4 example_profile)))
     = Ok 15.6%float
  /\ backup_monthly_claimed (LandingZoneCostCalculator_new (with_accounts 4 example_profile))
     = Ok 19.8%float
  /\ ~ backup_claim (with_accounts 4 example_profile).
Proof.
  split; [valid_b64 |].
  split; [vm_compute; reflexivity |].
  split; [vm_compute; reflexivity |].
  unfold backup_claim. intros E. vm_compute in E.
  apply Ok_inj in E. revert E. apply float_neq. vm_compute. discriminate.
Qed.

(** A profile with one account and 10^18 GB a month. *)
Definition data_heavy_profile : OrganizationProfile float :=
  with_data (10 ^ 18) (with_accounts 1 example_profile).

(** C5, counterexample: with 10^18 GB a month the GuardDuty cost is the
    same double, 5.001e17, for one account and for two: the 15.6 of the
    second account is below half an ulp of the data terms. *)
Lemma guardduty_flat_under_heavy_data :
  valid_profile data_heavy_profile
  /\ monthly_of (calculate_guardduty_costs (LandingZoneCostCalculator_new data_heavy_profile))
     = Ok 5.001e17%float
  /\ monthly_of (calculate_guardduty_costs
                   (LandingZoneCostCalculator_new (doubled data_heavy_profile)))
     = Ok 5.001e17%float
  /\ ~ scaling_property data_heavy_profile.
Proof.
  split; [unfold data_heavy_profile; valid_b64 |].
  split; [vm_compute; reflexivity |].
  split; [vm_compute; reflexivity |].
  intros [(m & m' & H1 & H2 & Hgt) _].
  vm_compute in H1. vm_compute in H2.
  apply Ok_inj in H1, H2. subst m m'.
  vm_compute in Hgt. discriminate Hgt.
Qed.

(** A profile with 2^1024 accounts. *)
Definition huge_profile : OrganizationProfile float :=
  with_accounts (2 ^ 1024) example_profile.

(** C8, counterexample: 2^1024 accounts do not fit a float, and the first
    [float * int] of the GuardDuty calculator raises [OverflowError]. *)
Lemma guardduty_overflows_on_huge_accounts :
  valid_profile huge_profile
  /\ calculate_guardduty_costs (LandingZoneCostCalculator_new huge_profile)
     = Raise OverflowError
  /\ generate_cost_report (LandingZoneCostCalculator_new huge_profile)
     = Raise OverflowError
  /\ ~ calculators_return huge_profile.
Proof.
  split; [unfold huge_profile; valid_b64 |].
  split; [vm_compute; reflexivity |].
  split; [vm_compute; reflexivity |].
  intros (_ & [s Hs] & _). vm_compute in Hs. discriminate Hs.
Qed.

(** A profile with 60 accounts in three regions. *)
Definition sprawling_profile : OrganizationProfile float :=
  with_regions ["us-east-1"; "us-west-2"; "eu-west-1"] (with_accounts 60 example_profile).

(** *** Zero data, zero frameworks, and division faults, in binary64 *)

Lemma zero_data_terms_b64 (p : OrganizationProfile float) :
  expected_data_gb_monthly p = 0%Z ->
  data_terms (LandingZoneCostCalculator_new p) (fun c => c = Ok 0%float).
Proof.
  intros E. unfold data_terms.
  unfold guardduty_cloudtrail_events_cost, guardduty_dns_logs_cost,
    transit_data_processing_cost, cloudtrail_data_events_cost, cloudtrail_insights_cost,
    cloudwatch_ingestion_cost, cloudwatch_storage_cost.
  cbn [org_profile pricing LandingZoneCostCalculator_new]. rewrite E.
  repeat split; vm_compute; reflexivity.
Qed.

Lemma zero_frameworks_term_b64 (p : OrganizationProfile float) :
  compliance_requirements p = [] ->
  security_hub_compliance_cost (LandingZoneCostCalculator_new p) = Ok 0%float.
Proof.
  intros E. unfold security_hub_compliance_cost.
  cbn [org_profile pricing LandingZoneCostCalculator_new]. rewrite E.
  change (len []) with 0%Z. rewrite Z.mul_0_r, Z.mul_0_l.
  vm_compute. reflexivity.
Qed.

Lemma no_fault_bind {A B : Type} (c : result A) (k : A -> result B) :
  no_division_fault c -> (forall a, no_division_fault (k a)) ->
  no_division_fault (bind c k).
Proof.
  unfold no_division_fault. intros Hc Hk. destruct c as [a | e]; cbn [bind].
  - apply Hk.
  - intros E. apply Hc. injection E as ->. reflexivity.
Qed.

Lemma no_fault_ok {A : Type} (a : A) : no_division_fault (Ok a).
Proof. discriminate. Qed.

Lemma no_fault_of_int (z : Z) : no_division_fault (float_of_int z).
Proof.
  change (float_of_int z) with (B64.of_int z). unfold B64.of_int, no_division_fault.
  destruct (binary_normalize prec emax z 0 false); discriminate.
Qed.

Lemma no_fault_int_div (a : Z) (d : positive) : no_division_fault (int_truediv a (Zpos d)).
Proof.
  change (int_truediv a (Zpos d)) with (B64.int_div a (Zpos d)).
  unfold B64.int_div, no_division_fault.
  destruct (B64.nearest a d); discriminate.
Qed.

Lemma no_fault_to_int (x : float) : no_division_fault (float_to_int x).
Proof.
  change (float_to_int x) with (B64.to_int x). unfold B64.to_int, no_division_fault.
  destruct (Prim2SF x); discriminate.
Qed.

Lemma no_fault_int_str (n : Z) : no_division_fault (int_str n).
Proof.
  change (int_str n) with (B64.str_of_int n). unfold B64.str_of_int, no_division_fault.
  destruct (Z.abs n <? 10 ^ B64.max_str_digits)%Z; discriminate.
Qed.

Ltac no_fault :=
  unfold fmul_int, int_fmul;
  repeat first
    [ apply no_fault_ok
    | apply no_fault_of_int
    | apply no_fault_int_str
    | apply no_fault_int_div
    | apply no_fault_to_int
    | apply no_fault_bind; [| intros ?] ].

(** No calculator divides by zero, whatever the profile: the only
    divisions are by the constant 100000. *)
Lemma calculators_never_divide_by_zero (p : OrganizationProfile float) :
  calculators_satisfy (fun c => no_division_fault c) p.
Proof.
  unfold calculators_satisfy. cbv zeta.
  unfold calculate_control_tower_costs, calculate_guardduty_costs, calculate_config_costs,
    calculate_transit_gateway_costs, calculate_cloudtrail_costs, calculate_cloudwatch_costs,
    calculate_security_hub_costs, calculate_backup_costs.
  repeat split; no_fault.
Qed.

(** *** The exceptions a calculator can raise, in binary64 *)

Lemma raises_only_bind {A B : Type} (allowed : exception -> Prop)
    (c : result A) (k : A -> result B) :
  raises_only allowed c -> (forall a, raises_only allowed (k a)) ->
  raises_only allowed (bind c k).
Proof.
  unfold raises_only. intros Hc Hk e. destruct c as [a | e']; cbn [bind].
  - apply Hk.
  - intros E. apply Hc.
    apply (f_equal (fun r => match r with Raise x => x | Ok _ => e end)) in E.
    rewrite E. reflexivity.
Qed.

Lemma raises_only_ok {A : Type} (allowed : exception -> Prop) (a : A) :
  raises_only allowed (Ok a).
Proof. intros e E. discriminate E. Qed.

Lemma of_int_raises_only (allowed : exception -> Prop) (z : Z) :
  allowed OverflowError -> raises_only allowed (float_of_int z).
Proof.
  intros H e. change (float_of_int z) with (B64.of_int z). unfold B64.of_int.
  destruct (binary_normalize prec emax z 0 false); intros E;
    try discriminate E.
  apply (f_equal (fun r => match r with Raise x => x | Ok _ => e end)) in E.
  subst e. exact H.
Qed.

Lemma int_div_raises_only (allowed : exception -> Prop) (a : Z) (d : positive) :
  allowed OverflowError -> raises_only allowed (int_truediv a (Zpos d)).
Proof.
  intros H e. change (int_truediv a (Zpos d)) with (B64.int_div a (Zpos d)).
  unfold B64.int_div.
  destruct (B64.nearest a d); intros E; try discriminate E.
  apply (f_equal (fun r => match r with Raise x => x | Ok _ => e end)) in E.
  subst e. exact H.
Qed.

Lemma to_int_raises_only (allowed : exception -> Prop) (x : float) :
  allowed OverflowError -> allowed ValueError -> raises_only allowed (float_to_int x).
Proof.
  intros H1 H2 e. change (float_to_int x) with (B64.to_int x). unfold B64.to_int.
  destruct (Prim2SF x); intros E; try discriminate E;
    apply (f_equal (fun r => match r with Raise x => x | Ok _ => e end)) in E;
    subst e; assumption.
Qed.

Lemma int_str_raises_only (allowed : exception -> Prop) (n : Z) :
  allowed ValueError -> raises_only allowed (int_str n).
Proof.
  intros H e. change (int_str n) with (B64.str_of_int n). unfold B64.str_of_int.
  destruct (Z.abs n <? 10 ^ B64.max_str_digits)%Z; intros E; [discriminate E |].
  apply (f_equal (fun r => match r with Raise x => x | Ok _ => e end)) in E.
  subst e. exact H.
Qed.

Ltac raises_only :=
  unfold fmul_int, int_fmul;
  repeat first
    [ apply raises_only_ok
    | apply of_int_raises_only; auto
    | apply int_div_raises_only; auto
    | apply to_int_raises_only; auto
    | apply int_str_raises_only; auto
    | apply raises_only_bind; [| intros ?] ].

(** Control Tower raises nothing but [ValueError], and raises it exactly
    when [accounts_count] has more than 4300 digits; Backup raises nothing
    but [OverflowError] and [ValueError]; the six others raise nothing but
    [OverflowError]. *)
Definition calculator_exceptions (p : OrganizationProfile float) : Prop :=
  let self := LandingZoneCostCalculator_new p in
  raises_only (fun e => e = ValueError) (calculate_control_tower_costs self)
  /\ (calculate_control_tower_costs self = Raise ValueError
      <-> (10 ^ 4300 <= Z.abs (accounts_count p))%Z)
  /\ raises_only (fun e => e = OverflowError) (calculate_guardduty_costs self)
  /\ raises_only (fun e => e = OverflowError) (calculate_config_costs self)
  /\ raises_only (fun e => e = OverflowError) (calculate_transit_gateway_costs self)
  /\ raises_only (fun e => e = OverflowError) (calculate_cloudtrail_costs self)
  /\ raises_only (fun e => e = OverflowError) (calculate_cloudwatch_costs self)
  /\ raises_only (fun e => e = OverflowError) (calculate_security_hub_costs self)
  /\ raises_only (fun e => e = OverflowError \/ e = ValueError) (calculate_backup_costs self).

Lemma calculators_raise_only (p : OrganizationProfile float) : calculator_exceptions p.
Proof.
  unfold calculator_exceptions. cbv zeta.
  unfold calculate_control_tower_costs, calculate_guardduty_costs, calculate_config_costs,
    calculate_transit_gateway_costs, calculate_cloudtrail_costs, calculate_cloudwatch_costs,
    calculate_security_hub_costs, calculate_backup_costs.
  split; [raises_only |].
  split; [| repeat split; raises_only].
  cbn [org_profile LandingZoneCostCalculator_new].
  change (int_str (accounts_count p)) with (B64.str_of_int (accounts_count p)).
  unfold B64.str_of_int.
  change (10 ^ B64.max_str_digits)%Z with (10 ^ 4300)%Z.
  set (limit := (10 ^ 4300)%Z). clearbody limit.
  destruct (Z.ltb_spec (Z.abs (accounts_count p)) limit) as [L | L]; cbn [bind].
  - split; [discriminate | lia].
  - split; [intros _; exact L | reflexivity].
Qed.

(** A profile with 10^307 GB a month. *)
Definition data_laden_profile : OrganizationProfile float :=
  with_data (10 ^ 307) example_profile.

(** With 10^307 GB a month every cost term of GuardDuty and of CloudTrail
    is finite, and both calculators raise [OverflowError] when they build
    their cost drivers: the event counts, 10^309 and 5 * 10^308, are
    formatted with [,.0f] and do not fit a float. *)
Definition heavy_data_example : Prop :=
  let self := LandingZoneCostCalculator_new data_laden_profile in
  valid_profile data_laden_profile
  /\ guardduty_cloudtrail_events_cost self = Ok 1e303%float
  /\ guardduty_dns_logs_cost self = Ok 5e306%float
  /\ float_of_int (expected_data_gb_monthly data_laden_profile * 100) = Raise OverflowError
  /\ calculate_guardduty_costs self = Raise OverflowError
  /\ cloudtrail_data_events_cost self = Ok 5e302%float
  /\ cloudtrail_insights_cost self = Ok 1.75e302%float
  /\ float_of_int (expected_data_gb_monthly data_laden_profile * 50) = Raise OverflowError
  /\ calculate_cloudtrail_costs self = Raise OverflowError.

Lemma cost_drivers_overflow_under_heavy_data : heavy_data_example.
Proof.
  unfold heavy_data_example. cbv zeta. split; [unfold data_laden_profile; valid_b64 |].
  repeat split; vm_compute; reflexivity.
Qed.

(** A profile whose [accounts_count] has 4301 digits. *)
Definition long_profile : OrganizationProfile float :=
  with_accounts (10 ^ 4300) example_profile.

(** With such an [accounts_count] the first calculator, and with it the
    report, raises [ValueError]. *)
Definition long_accounts_example : Prop :=
  valid_profile long_profile
  /\ calculate_control_tower_costs (LandingZoneCostCalculator_new long_profile)
     = Raise ValueError
  /\ generate_cost_report (LandingZoneCostCalculator_new long_profile) = Raise ValueError.

Lemma control_tower_refuses_long_accounts : long_accounts_example.
Proof.
  unfold long_accounts_example. split; [unfold long_profile; valid_b64 |].
  split; vm_compute; reflexivity.
Qed.

(** *** The totals at the edge of the float range *)

(** C2 as stated, with Python's [abs] and [<=] on floats. *)
Definition annual_claim (services : list (ServiceCost float)) : Prop :=
  let total_monthly := total_monthly_of services in
  let total_annual := total_annual_of services in
  fle (PrimFloat.abs (total_annual - total_monthly * float_lit 12)%py)
      (float_lit 0.000001 * PrimFloat.abs (total_monthly * float_lit 12)%py)%py = true.

(** A profile with 19899545872655655 * 10^288 accounts in ten regions, no
    compliance framework and development accounts only. *)
Definition brimming_profile : OrganizationProfile float :=
  with_frameworks []
    (with_ratio (float_lit 1)
       (with_regions (repeat "us-east-1" 10)
          (with_accounts (19899545872655655 * 10 ^ 288) example_profile))).

(** C2, counterexample: every calculator returns and so does the report;
    the monthly total is 1.498077612385263e307 and twelve times it is the
    double just below the largest one, but the annual total, the sum of
    the eight annual costs, is [inf]. *)
Lemma annual_total_overflows_before_monthly_total :
  valid_profile brimming_profile
  /\ returns (generate_cost_report (LandingZoneCostCalculator_new brimming_profile))
  /\ exists services,
       services_of (LandingZoneCostCalculator_new brimming_profile) = Ok services
       /\ total_monthly_of services = 1.498077612385263e307%float
       /\ (total_monthly_of services * float_lit 12)%py = 1.7976931348623155e308%float
       /\ total_annual_of services = infinity
       /\ ~ annual_claim services.
Proof.
  split; [unfold brimming_profile; valid_b64 |].
  split; [eexists; vm_compute; reflexivity |].
  eexists. split; [vm_compute; reflexivity |].
  split; [vm_compute; reflexivity |].
  split; [vm_compute; reflexivity |].
  split; [vm_compute; reflexivity |].
  unfold annual_claim. cbv zeta. intros H. vm_compute in H. discriminate H.
Qed.

(** C9 as stated, with Python's comparisons on floats: the monthly total
    of the profile is at least 89.10 and positive, and no division by
    the monthly or the annual total fails. *)
Definition positive_total_claim (p : OrganizationProfile float) : Prop :=
  exists services,
    services_of (LandingZoneCostCalculator_new p) = Ok services
    /\ fle (float_lit 89.10) (total_monthly_of services) = true
    /\ fgt (total_monthly_of services) (float_lit 0) = true
    /\ (forall x, no_division_fault (ftruediv x (total_monthly_of services)))
    /\ (forall x, no_division_fault (ftruediv x (total_annual_of services))).


(** Where the totals overflow to [inf], as on [overflowing_profile], the
    claim of C9 holds: [inf] is above 89.10 and no division by it fails. *)
Lemma infinite_total_is_positive :
  positive_total_claim overflowing_profile
  /\ returns (generate_cost_report (LandingZoneCostCalculator_new overflowing_profile)).
Proof.
  split; [| eexists; vm_compute; reflexivity].
  eexists. split; [vm_compute; reflexivity |].
  split; [vm_compute; reflexivity |].
  split; [vm_compute; reflexivity |].
  split; intros x; unfold no_division_fault;
    match goal with
    | |- ftruediv x ?t <> _ =>
        let v := eval vm_compute in t in change t with v
    end;
    change (ftruediv x infinity) with (B64.truediv x infinity);
    unfold B64.truediv; discriminate.
Qed.

End OnBinary64.

(** ** The standard model: bounds *)

Definition lo : Q := 1 - u.
Definition hi : Q := 1 + u.

Fixpoint qpow (b : Q) (n : nat) : Q :=
  match n with
  | O => 1
  | S n' => b * qpow b n'
  end.

Definition qsum (xs : list Q) : Q := fold_right Qplus 0 xs.

Section StandardModel.
Variable R : Rounding.
#[local] Hint Extern 0 (PyFloat Q) => exact (Std.ops R) : typeclass_instances.

Lemma rnd_bounds (x : Q) : 0 <= x -> lo * x <= R x /\ R x <= hi * x.
Proof.
  intros Hx. pose proof (rnd_err R x) as E.
  rewrite (Qabs_pos x Hx) in E.
  apply Qabs_Qle_condition in E. destruct E as [E1 E2].
  unfold lo, hi, u in *. split; lra.
Qed.

Lemma lo_times_nonneg (x : Q) : 0 <= x -> 0 <= lo * x.
Proof. intros Hx. apply Qmult_le_0_compat; [unfold lo, u; lra | exact Hx]. Qed.

Lemma rnd_nonneg (x : Q) : 0 <= x -> 0 <= R x.
Proof.
  intros Hx. destruct (rnd_bounds x Hx) as [L _].
  pose proof (lo_times_nonneg x Hx). lra.
Qed.

Lemma rnd_zero (x : Q) : x == 0 -> R x == 0.
Proof.
  intros Hx. pose proof (rnd_err R x) as E.
  assert (A0 : Qabs x == 0) by (rewrite Hx; reflexivity).
  rewrite A0 in E. apply Qabs_Qle_condition in E. lra.
Qed.

Lemma rnd_pos (x : Q) : 0 < x -> 0 < R x.
Proof.
  intros Hx. destruct (rnd_bounds x (Qlt_le_weak _ _ Hx)) as [L _].
  assert (0 < lo * x) by (apply Qmult_lt_0_compat; [unfold lo, u; lra | exact Hx]).
  lra.
Qed.

Lemma mul_le_mono (x xh y yh : Q) : 0 <= x -> x <= xh -> 0 <= y -> y <= yh -> x * y <= xh * yh.
Proof.
  intros Hx Hxh Hy Hyh.
  apply Qle_trans with (xh * y).
  - apply Qmult_le_compat_r; assumption.
  - rewrite (Qmult_comm xh y), (Qmult_comm xh yh).
    apply Qmult_le_compat_r; [assumption | lra].
Qed.

Lemma rnd_mul_lo (x xl y yl : Q) :
  0 <= xl -> xl <= x -> 0 <= yl -> yl <= y -> lo * (xl * yl) <= R (x * y).
Proof.
  intros Hxl Hx Hyl Hy.
  assert (P : xl * yl <= x * y) by (apply mul_le_mono; assumption).
  assert (N : 0 <= x * y) by (apply Qmult_le_0_compat; lra).
  destruct (rnd_bounds _ N) as [L _].
  unfold lo, u in *. lra.
Qed.

Lemma rnd_mul_hi (x xh y yh : Q) :
  0 <= x -> x <= xh -> 0 <= y -> y <= yh -> R (x * y) <= hi * (xh * yh).
Proof.
  intros Hx Hxh Hy Hyh.
  assert (P : x * y <= xh * yh) by (apply mul_le_mono; assumption).
  assert (N : 0 <= x * y) by (apply Qmult_le_0_compat; lra).
  destruct (rnd_bounds _ N) as [_ U].
  unfold hi, u in *. lra.
Qed.

Lemma rnd_mul_nonneg (x y : Q) : 0 <= x -> 0 <= y -> 0 <= R (x * y).
Proof. intros. apply rnd_nonneg, Qmult_le_0_compat; assumption. Qed.

Lemma rnd_add_nonneg (x y : Q) : 0 <= x -> 0 <= y -> 0 <= R (x + y).
Proof. intros. apply rnd_nonneg. lra. Qed.

Lemma rnd_lit_bounds (c : Q) : 0 <= c -> lo * c <= R c /\ R c <= hi * c /\ 0 <= R c.
Proof.
  intros Hc. destruct (rnd_bounds c Hc). auto using rnd_nonneg.
Qed.

Lemma add_nonneg (x y : Q) : 0 <= x -> 0 <= y -> 0 <= x + y.
Proof. intros. lra. Qed.

Lemma div_nonneg (x y : Q) : 0 <= x -> 0 < y -> 0 <= x / y.
Proof.
  intros Hx Hy. unfold Qdiv. apply Qmult_le_0_compat; [exact Hx |].
  apply Qlt_le_weak, Qinv_lt_0_compat, Hy.
Qed.

Lemma Qtrunc_nonneg (q : Q) : 0 <= q -> (0 <= Qtrunc q)%Z.
Proof.
  intros Hq. unfold Qtrunc. apply Z.quot_pos; [| lia].
  unfold Qle in Hq. simpl in Hq. lia.
Qed.

Lemma inject_Z_nonneg (z : Z) : (0 <= z)%Z -> 0 <= inject_Z z.
Proof. intros Hz. change 0 with (inject_Z 0). rewrite <- Zle_Qle. exact Hz. Qed.

Lemma qpow_pos (b : Q) (n : nat) : 0 < b -> 0 < qpow b n.
Proof.
  intros Hb. induction n as [| n IH]; simpl; [reflexivity |].
  apply Qmult_lt_0_compat; assumption.
Qed.

Lemma qsum_nonneg (xs : list Q) : Forall (Qle 0) xs -> 0 <= qsum xs.
Proof.
  induction 1 as [| x xs Hx _ IH]; simpl; [apply Qle_refl | lra].
Qed.

(** A sum of non-negative floats, added from left to right, is within
    [(1 ± u)^n] of the exact sum. *)
Lemma fold_fadd_bounds (xs : list Q) :
  Forall (Qle 0) xs ->
  forall acc : Q, 0 <= acc ->
  qpow lo (List.length xs) * (acc + qsum xs) <= fold_left fadd xs acc
  /\ fold_left fadd xs acc <= qpow hi (List.length xs) * (acc + qsum xs)
  /\ 0 <= fold_left fadd xs acc.
Proof.
  induction 1 as [| x xs Hx Hxs IH]; intros acc Hacc.
  - simpl. repeat split; lra.
  - cbn [fold_left List.length qpow qsum fold_right].
    change (fadd acc x) with (R (acc + x)).
    assert (N : 0 <= acc + x) by lra.
    destruct (rnd_bounds _ N) as [L U].
    destruct (IH (R (acc + x)) (rnd_nonneg _ N)) as (IL & IU & I0).
    pose proof (qsum_nonneg xs Hxs) as S0. fold (qsum xs).
    assert (Plo : 0 < qpow lo (List.length xs)) by (apply qpow_pos; unfold lo, u; lra).
    assert (Phi : 0 < qpow hi (List.length xs)) by (apply qpow_pos; unfold hi, u; lra).
    split; [| split; [| exact I0]].
    + eapply Qle_trans; [| exact IL].
      setoid_replace (lo * qpow lo (List.length xs) * (acc + (x + qsum xs)))
        with (qpow lo (List.length xs) * (lo * (acc + x) + lo * qsum xs)) by ring.
      apply Qmult_le_l; [exact Plo |].
      pose proof (lo_times_nonneg _ S0). unfold lo, u in *. lra.
    + eapply Qle_trans; [exact IU |].
      setoid_replace (hi * qpow hi (List.length xs) * (acc + (x + qsum xs)))
        with (qpow hi (List.length xs) * (hi * (acc + x) + hi * qsum xs)) by ring.
      apply Qmult_le_l; [exact Phi |].
      unfold hi, u in *. lra.
Qed.

Lemma py_sum_bounds (xs : list Q) :
  Forall (Qle 0) xs ->
  qpow lo (List.length xs) * qsum xs <= py_sum xs
  /\ py_sum xs <= qpow hi (List.length xs) * qsum xs
  /\ 0 <= py_sum xs.
Proof.
  intros Hxs. unfold py_sum.
  assert (Z0 : R 0 == 0) by (apply rnd_zero; reflexivity).
  change (float_lit 0) with (R 0).
  destruct (fold_fadd_bounds xs Hxs (R 0)) as (L & U & N); [lra |].
  repeat split; [| | exact N].
  - eapply Qle_trans; [| exact L]. rewrite Z0. lra.
  - eapply Qle_trans; [exact U |]. rewrite Z0. lra.
Qed.


Ltac nonneg :=
  repeat first
    [ assumption
    | apply rnd_nonneg
    | apply Qmult_le_0_compat
    | apply add_nonneg
    | apply div_nonneg
    | apply inject_Z_nonneg
    | apply Qtrunc_nonneg
    | reflexivity
    | discriminate
    | nia ].

(** *** The eight services of a valid profile *)

Definition service (service_name : string) (monthly : Q) (potential : Q) (tier : string)
    (drivers : list (line Q)) : ServiceCost Q :=
  {| service_name := service_name;
     monthly_cost := monthly;
     annual_cost := R (monthly * R 12);
     cost_drivers := drivers;
     optimization_potential := R potential;
     cost_tier := tier |}.

Lemma valid_profile_std (p : OrganizationProfile Q) :
  valid_profile p ->
  1 <= inject_Z (accounts_count p)
  /\ 1 <= inject_Z (employees p)
  /\ 1 <= inject_Z (len (regions p))
  /\ 0 <= inject_Z (expected_data_gb_monthly p)
  /\ 0 <= development_accounts_ratio p
  /\ development_accounts_ratio p <= 1.
Proof.
  intros (Ha & He & Hr & Hd & H0 & H1).
  change (fle (float_lit 0) (development_accounts_ratio p))
    with (Qle_bool (R 0) (development_accounts_ratio p)) in H0.
  change (fle (development_accounts_ratio p) (float_lit 1))
    with (Qle_bool (development_accounts_ratio p) (R 1)) in H1.
  apply Qle_bool_iff in H0, H1.
  rewrite (rnd_zero 0 (Qeq_refl 0)) in H0. rewrite (rnd_one R) in H1.
  assert (Hl : (1 <= len (regions p))%Z).
  { unfold len. destruct (regions p); [congruence | cbn [List.length]; lia]. }
  repeat split; try assumption.
  - change 1 with (inject_Z 1). rewrite <- Zle_Qle. exact Ha.
  - change 1 with (inject_Z 1). rewrite <- Zle_Qle. exact He.
  - change 1 with (inject_Z 1). rewrite <- Zle_Qle. exact Hl.
  - apply inject_Z_nonneg. exact Hd.
Qed.

Lemma services_std (p : OrganizationProfile Q) :
  valid_profile p ->
  exists m2 m3 m4 m5 m6 m7 m8 d1 d2 d3 d4 d5 d6 d7 d8,
    services_of (LandingZoneCostCalculator_new p)
    = Ok [service "AWS Control Tower" (R 89.10) 0.0 "enterprise" d1;
          service "Amazon GuardDuty" m2 0.20 "premium" d2;
          service "AWS Config" m3 0.25 "standard" d3;
          service "AWS Transit Gateway" m4 0.30 "standard" d4;
          service "AWS CloudTrail" m5 0.15 "standard" d5;
          service "Amazon CloudWatch" m6 0.40 "standard" d6;
          service "AWS Security Hub" m7 0.10 "premium" d7;
          service "AWS Backup" m8 0.25 "standard" d8]
    /\ 0 <= m2 /\ 0 <= m3 /\ 71 <= m4 /\ 0 <= m5 /\ 0 <= m6 /\ 0 <= m7 /\ 0 <= m8.
Proof.
  intros V. destruct (valid_profile_std p V) as (Ha & He & Hr & Hd & H0 & H1).
  do 15 eexists. split; [reflexivity |].
  cbn -[Z.mul Z.add Z.sub Qtrunc].
  destruct V as (Za & Ze & Zr & Zd & _).
  assert (Zl : (1 <= len (regions p))%Z).
  { unfold len. destruct (regions p); [congruence | cbn [List.length]; lia]. }
  assert (Zc : (0 <= len (compliance_requirements p))%Z) by (unfold len; lia).
  assert (S1 : 0 <= 1 - development_accounts_ratio p) by lra.
  assert (S2 : 0 <= R 1 - development_accounts_ratio p) by (rewrite (rnd_one R); exact S1).
  assert (P0 : (0 <= Qtrunc (R (R (inject_Z (accounts_count p))
                                   * R (R 1 - development_accounts_ratio p))%Q))%Z)
    by (apply Qtrunc_nonneg; nonneg).
  repeat split; try nonneg.
  change (inject_Z (24 * 30)) with 720.
  assert (T2 : 2 <= inject_Z (accounts_count p * 2 * len (regions p))).
  { change 2 with (inject_Z 2). rewrite <- Zle_Qle. nia. }
  destruct (rnd_bounds (inject_Z (accounts_count p * 2 * len (regions p)))) as [B1 _];
    [lra |].
  destruct (rnd_lit_bounds 0.05) as (C1 & _ & _); [lra |].
  destruct (rnd_lit_bounds 720) as (C2 & _ & _); [lra |].
  pose proof (rnd_mul_lo (R (inject_Z (accounts_count p * 2 * len (regions p)))) (lo * 2)
                         (R 0.05) (lo * 0.05)) as B2.
  pose proof (rnd_mul_lo
                (R (R (inject_Z (accounts_count p * 2 * len (regions p))) * R 0.05))
                (lo * (lo * 2 * (lo * 0.05))) (R 720) (lo * 720)) as B3.
  unfold lo, u in *.
  assert (B2' := B2 ltac:(lra) ltac:(lra) ltac:(lra) ltac:(lra)).
  assert (B3' := B3 ltac:(lra) ltac:(lra) ltac:(lra) ltac:(lra)).
  assert (D0 : 0 <= R (R (R (inject_Z (expected_data_gb_monthly p)) * R 0.7) * R 0.02))
    by nonneg.
  destruct (rnd_bounds
    (R (R (R (inject_Z (accounts_count p * 2 * len (regions p))) * R 0.05) * R 720)
     + R (R (R (inject_Z (expected_data_gb_monthly p)) * R 0.7) * R 0.02))) as [B4 _];
    [lra |].
  unfold lo, u in *. lra.
Qed.

(** *** Totals of a valid profile *)

Lemma truediv_ok (x y : Q) : 0 < y -> ftruediv x y = Ok (R (x / y)).
Proof.
  intros Hy. change (ftruediv x y) with (Std.truediv R x y). unfold Std.truediv.
  destruct (Qeq_bool y 0) eqn:E; [| reflexivity].
  apply Qeq_bool_iff in E. lra.
Qed.

Lemma ftruediv_int_ok (x : Q) (n : Z) :
  (1 <= n)%Z -> ftruediv_int x n = Ok (R (x / R (inject_Z n))).
Proof.
  intros Hn. unfold ftruediv_int.
  change (float_of_int n) with (Ok (A := Q) (R (inject_Z n))). cbn [bind].
  apply truediv_ok, rnd_pos.
  change 0 with (inject_Z 0). rewrite <- Zlt_Qlt. lia.
Qed.

Lemma map_result_returns {A B : Type} (f : A -> result B) (xs : list A) :
  Forall (fun x => returns (f x)) xs -> returns (map_result f xs).
Proof.
  induction 1 as [| x xs [y Hy] _ [ys Hys]]; simpl.
  - exists []. reflexivity.
  - rewrite Hy. simpl. rewrite Hys. simpl. exists (y :: ys). reflexivity.
Qed.

(** The report is produced as soon as the services are and the divisors
    are positive. *)
Lemma generate_cost_report_returns (self : LandingZoneCostCalculator Q)
    (services : list (ServiceCost Q)) :
  services_of self = Ok services ->
  0 < total_monthly_of services ->
  0 < total_annual_of services ->
  (1 <= employees (org_profile self))%Z ->
  (1 <= accounts_count (org_profile self))%Z ->
  returns (generate_cost_report self).
Proof.
  intros Hs Hm Ha He Hc. unfold generate_cost_report.
  rewrite Hs. cbn [bind].
  rewrite !ftruediv_int_ok by assumption. cbn [bind].
  destruct (map_result_returns (service_entry (total_monthly_of services)) services)
    as [entries Hentries].
  { apply Forall_forall. intros s _. unfold service_entry.
    rewrite truediv_ok by assumption. cbn [bind]. eexists. reflexivity. }
  rewrite Hentries. cbn [bind].
  rewrite truediv_ok by assumption. cbn [bind].
  eexists. reflexivity.
Qed.

Lemma annual_term_bounds (m : Q) :
  0 <= m ->
  0 <= R (m * R 12)
  /\ lo * (m * (lo * 12)) <= R (m * R 12)
  /\ R (m * R 12) <= hi * (m * (hi * 12)).
Proof.
  intros Hm. destruct (rnd_lit_bounds 12) as (L & U & N); [lra |].
  split; [apply rnd_mul_nonneg; assumption |].
  split.
  - apply rnd_mul_lo; try lra. apply lo_times_nonneg. lra.
  - apply rnd_mul_hi; lra.
Qed.

Lemma discount_bounds (c : Q) :
  0 <= c -> c <= 1 # 2 ->
  0 <= R (R 1 - R c) /\ R (R 1 - R c) <= hi * (1 - lo * c).
Proof.
  intros H0 H1. destruct (rnd_lit_bounds c H0) as (L & U & N).
  assert (T : 0 <= R 1 - R c).
  { rewrite (rnd_one R). unfold hi, u in U. lra. }
  destruct (rnd_bounds _ T) as [_ U'].
  split; [apply rnd_nonneg, T |].
  eapply Qle_trans; [exact U' |].
  apply Qmult_le_l; [unfold hi, u; lra |].
  rewrite (rnd_one R). lra.
Qed.

Lemma optimized_term_bounds (m c : Q) :
  0 <= m -> 0 <= c -> c <= 1 # 2 ->
  0 <= R (m * R (R 1 - R c))
  /\ R (m * R (R 1 - R c)) <= hi * (m * (hi * (1 - lo * c))).
Proof.
  intros Hm H0 H1. destruct (discount_bounds c H0 H1) as [N U].
  split; [apply rnd_mul_nonneg; assumption |].
  apply rnd_mul_hi; try assumption. apply Qle_refl.
Qed.

(** What the aggregator computes for a valid profile. *)
Lemma totals_std (p : OrganizationProfile Q) :
  valid_profile p ->
  exists services,
    services_of (LandingZoneCostCalculator_new p) = Ok services
    /\ List.length services = 8%nat
    /\ 89.10 <= total_monthly_of services
    /\ CONTROL_TOWER_BASE AWSPricing_new <= total_monthly_of services
    /\ 0 < total_annual_of services
    /\ optimized_monthly_of services < total_monthly_of services
    /\ Qabs (total_annual_of services - total_monthly_of services * 12)
       <= (1 # 1000000) * Qabs (total_monthly_of services * 12)
    /\ ~ Forall (fun s => optimization_potential s == 0) services.
Proof.
  intros V.
  destruct (services_std p V)
    as (m2 & m3 & m4 & m5 & m6 & m7 & m8 & d1 & d2 & d3 & d4 & d5 & d6 & d7 & d8
        & Hs & H2 & H3 & H4 & H5 & H6 & H7 & H8).
  eexists. split; [exact Hs |]. split; [reflexivity |].
  unfold total_monthly_of, total_annual_of, optimized_monthly_of.
  cbn [map monthly_cost annual_cost optimization_potential service].
  change (CONTROL_TOWER_BASE AWSPricing_new) with (R 89.10).
  change (float_lit 1) with (R 1).
  destruct (rnd_lit_bounds 89.10) as (L1 & U1 & N1); [lra |].
  assert (H4' : 0 <= m4) by lra.
  destruct (annual_term_bounds (R 89.10) N1) as (A1n & A1l & A1u).
  destruct (annual_term_bounds m2 H2) as (A2n & A2l & A2u).
  destruct (annual_term_bounds m3 H3) as (A3n & A3l & A3u).
  destruct (annual_term_bounds m4 H4') as (A4n & A4l & A4u).
  destruct (annual_term_bounds m5 H5) as (A5n & A5l & A5u).
  destruct (annual_term_bounds m6 H6) as (A6n & A6l & A6u).
  destruct (annual_term_bounds m7 H7) as (A7n & A7l & A7u).
  destruct (annual_term_bounds m8 H8) as (A8n & A8l & A8u).
  destruct (optimized_term_bounds (R 89.10) 0.0 N1) as (O1n & O1u); [lra | lra |].
  destruct (optimized_term_bounds m2 0.20 H2) as (O2n & O2u); [lra | lra |].
  destruct (optimized_term_bounds m3 0.25 H3) as (O3n & O3u); [lra | lra |].
  destruct (optimized_term_bounds m4 0.30 H4') as (O4n & O4u); [lra | lra |].
  destruct (optimized_term_bounds m5 0.15 H5) as (O5n & O5u); [lra | lra |].
  destruct (optimized_term_bounds m6 0.40 H6) as (O6n & O6u); [lra | lra |].
  destruct (optimized_term_bounds m7 0.10 H7) as (O7n & O7u); [lra | lra |].
  destruct (optimized_term_bounds m8 0.25 H8) as (O8n & O8u); [lra | lra |].
  match goal with |- context [py_sum ?l * 12] =>
    pose proof (py_sum_bounds l) as HM; set (tm := py_sum l) in * end.
  match goal with |- context [0 < py_sum ?l] =>
    pose proof (py_sum_bounds l) as HA; set (ta := py_sum l) in * end.
  match goal with |- context [py_sum ?l < _] =>
    pose proof (py_sum_bounds l) as HO; set (om := py_sum l) in * end.
  clearbody tm ta om.
  cbn [List.length qpow qsum fold_right] in HM, HA, HO.
  destruct HM as (ML & MU & MN); [repeat constructor; assumption |].
  destruct HA as (AL & AU & AN); [repeat constructor; assumption |].
  destruct HO as (OL & OU & ON); [repeat constructor; assumption |].
  cbn [fmul fsub Std.ops] in OL, OU.
  destruct (rnd_lit_bounds 0.20) as (P2 & _ & _); [lra |].
  unfold lo, hi, u in *.
  split; [lra |]. split; [lra |]. split; [lra |]. split; [lra |].
  split.
  - assert (T0 : 0 <= tm * 12) by lra.
    rewrite (Qabs_pos (tm * 12) T0).
    apply Qabs_Qle_condition. split; lra.
  - intros Hall. inversion Hall as [| s1 l1 _ Hrest]; subst.
    inversion Hrest as [| s2 l2 Hz _]; subst.
    cbn [optimization_potential service] in Hz. lra.
Qed.

(** C2, amended: without overflow, each annual cost is its monthly cost
    times 12, the monthly and the annual total are the sums of the eight
    monthly and annual costs up to the rounding of seven additions, the
    monthly total is at least 89.10, and the annual total is within a
    relative 1e-6 of twelve times the monthly total, whatever the rounding
    of each operation. *)
Theorem annual_total_is_twelve_monthly_totals (p : OrganizationProfile Q) :
  valid_profile p ->
  exists services,
    services_of (LandingZoneCostCalculator_new p) = Ok services
    /\ List.length services = 8%nat
    /\ Forall (fun s => 0 <= monthly_cost s
                        /\ annual_cost s = (monthly_cost s * float_lit 12)%py) services
    /\ qpow lo 8 * qsum (map monthly_cost services) <= total_monthly_of services
    /\ total_monthly_of services <= qpow hi 8 * qsum (map monthly_cost services)
    /\ qpow lo 8 * qsum (map annual_cost services) <= total_annual_of services
    /\ total_annual_of services <= qpow hi 8 * qsum (map annual_cost services)
    /\ 89.10 <= total_monthly_of services
    /\ Qabs (total_annual_of services - total_monthly_of services * 12)
       <= (1 # 1000000) * Qabs (total_monthly_of services * 12).
Proof.
  intros V.
  destruct (totals_std p V) as (services & Hs & Hlen & H89 & _ & _ & _ & Htol & _).
  destruct (services_std p V)
    as (m2 & m3 & m4 & m5 & m6 & m7 & m8 & d1 & d2 & d3 & d4 & d5 & d6 & d7 & d8
        & Hs' & H2 & H3 & H4 & H5 & H6 & H7 & H8).
  rewrite Hs in Hs'. apply Ok_inj in Hs'.
  exists services. split; [exact Hs |]. split; [exact Hlen |].
  destruct (rnd_lit_bounds 89.10) as (_ & _ & N1); [lra |].
  assert (H4' : 0 <= m4) by lra.
  assert (Hall : Forall (fun s => 0 <= monthly_cost s
                                  /\ annual_cost s = (monthly_cost s * float_lit 12)%py)
                        services).
  { rewrite Hs'.
    repeat (apply Forall_cons; [split; [assumption | reflexivity] |]).
    apply Forall_nil. }
  split; [exact Hall |].
  assert (Hm : Forall (Qle 0) (map monthly_cost services)).
  { apply Forall_map. apply (Forall_impl _ (P := fun s => 0 <= monthly_cost s
                                  /\ annual_cost s = (monthly_cost s * float_lit 12)%py));
      [| exact Hall].
    intros s [H _]. exact H. }
  assert (Ha : Forall (Qle 0) (map annual_cost services)).
  { apply Forall_map. apply (Forall_impl _ (P := fun s => 0 <= monthly_cost s
                                  /\ annual_cost s = (monthly_cost s * float_lit 12)%py));
      [| exact Hall].
    intros s [H E]. rewrite E.
    destruct (annual_term_bounds (monthly_cost s) H) as (N & _). exact N. }
  destruct (py_sum_bounds _ Hm) as (ML & MU & _).
  destruct (py_sum_bounds _ Ha) as (AL & AU & _).
  rewrite length_map, Hlen in ML, MU, AL, AU.
  repeat split; assumption.
Qed.

(** C3, amended: without overflow the optimized monthly total is strictly
    below the monthly total; the services' potentials are never all zero,
    so the two totals are never equal. *)
Theorem optimized_monthly_below_total (p : OrganizationProfile Q) :
  valid_profile p ->
  exists services,
    services_of (LandingZoneCostCalculator_new p) = Ok services
    /\ optimized_monthly_of services <= total_monthly_of services
    /\ optimized_monthly_of services < total_monthly_of services
    /\ (optimized_monthly_of services == total_monthly_of services
        <-> Forall (fun s => optimization_potential s == 0) services).
Proof.
  intros V.
  destruct (totals_std p V) as (services & Hs & _ & _ & _ & _ & Hlt & _ & Hpot).
  exists services. split; [exact Hs |].
  split; [apply Qlt_le_weak, Hlt |]. split; [exact Hlt |].
  split.
  - intros E. rewrite E in Hlt. exfalso. exact (Qlt_irrefl _ Hlt).
  - intros Hall. exfalso. exact (Hpot Hall).
Qed.


(** *** No exception without overflow *)

Lemma calculators_return_std (p : OrganizationProfile Q) : calculators_return p.
Proof.
  unfold calculators_return, calculators_satisfy. cbv zeta.
  repeat split; eexists; reflexivity.
Qed.

Definition zero_valued (c : result Q) : Prop := exists x, c = Ok x /\ x == 0.

Lemma zero_times_price (x c : Q) : x == 0 -> R (x * c) == 0.
Proof. intros E. apply rnd_zero. rewrite E. ring. Qed.

Lemma zero_count (n : Z) : n = 0%Z -> R (inject_Z n) == 0.
Proof. intros ->. apply rnd_zero. reflexivity. Qed.

Lemma zero_per_100k (n : Z) : n = 0%Z -> R (inject_Z n / inject_Z 100000) == 0.
Proof. intros ->. apply rnd_zero. reflexivity. Qed.

Lemma zero_data_terms_std (p : OrganizationProfile Q) :
  expected_data_gb_monthly p = 0%Z ->
  data_terms (LandingZoneCostCalculator_new p) zero_valued.
Proof.
  intros E. unfold data_terms, zero_valued.
  repeat split; eexists; (split; [reflexivity |]);
    cbn -[Z.mul Z.add Z.sub Qtrunc]; rewrite E;
    repeat first
      [ apply zero_count; reflexivity
      | apply zero_per_100k; reflexivity
      | apply zero_times_price ].
Qed.

Lemma zero_frameworks_term_std (p : OrganizationProfile Q) :
  compliance_requirements p = [] ->
  zero_valued (security_hub_compliance_cost (LandingZoneCostCalculator_new p)).
Proof.
  intros E. unfold zero_valued. eexists. split; [reflexivity |].
  cbn -[Z.mul Z.add Z.sub Qtrunc]. rewrite E.
  apply zero_times_price, zero_per_100k.
  change (len []) with 0%Z. lia.
Qed.

Lemma report_returns_std (p : OrganizationProfile Q) :
  valid_profile p -> returns (generate_cost_report (LandingZoneCostCalculator_new p)).
Proof.
  intros V.
  destruct (totals_std p V) as (services & Hs & _ & H89 & _ & Hann & _).
  apply (generate_cost_report_returns _ services); try assumption.
  - lra.
  - destruct V as (_ & He & _). exact He.
  - destruct V as (Ha & _). exact Ha.
Qed.

(** *** Doubling the accounts *)

Lemma fgt_lt (x y : Q) : y < x -> fgt x y = true.
Proof.
  intros H. change (fgt x y) with (negb (Qle_bool x y)).
  destruct (Qle_bool x y) eqn:E; [| reflexivity].
  apply Qle_bool_iff in E. lra.
Qed.

Lemma Qtrunc_floor (q : Q) : 0 <= q -> Qtrunc q = Qfloor q.
Proof.
  intros Hq. destruct q as [n d]. unfold Qtrunc, Qfloor. cbn [Qnum Qden].
  apply Z.quot_div_nonneg; [| lia].
  unfold Qle in Hq. cbn in Hq. lia.
Qed.

Lemma Qtrunc_le (q : Q) : 0 <= q -> inject_Z (Qtrunc q) <= q.
Proof. intros Hq. rewrite (Qtrunc_floor q Hq). apply Qfloor_le. Qed.

Lemma Qtrunc_mono (q q' : Q) : 0 <= q -> q <= q' -> (Qtrunc q <= Qtrunc q')%Z.
Proof.
  intros Hq Hle. rewrite (Qtrunc_floor q Hq), (Qtrunc_floor q') by lra.
  apply Qfloor_resp_le, Hle.
Qed.

(** Two-term and three-term costs whose leading term grows. *)
Lemma sum2_lt (x x' y : Q) :
  0 <= x -> 0 <= x' -> 0 <= y ->
  hi * x + 2 * u * y < lo * x' ->
  R (x + y) < R (x' + y).
Proof.
  intros Hx Hx' Hy Hm.
  destruct (rnd_bounds (x + y)) as [_ U]; [lra |].
  destruct (rnd_bounds (x' + y)) as [L _]; [lra |].
  unfold lo, hi, u in *. lra.
Qed.

Lemma sum3_lt (x x' y z : Q) :
  0 <= x -> 0 <= x' -> 0 <= y -> 0 <= z ->
  hi * hi * x + 5 * u * y + 2 * u * z < lo * lo * x' ->
  R (R (x + y) + z) < R (R (x' + y) + z).
Proof.
  intros Hx Hx' Hy Hz Hm.
  destruct (rnd_bounds (x + y)) as [_ U1]; [lra |].
  destruct (rnd_bounds (x' + y)) as [L1 _]; [lra |].
  assert (N1 : 0 <= R (x + y)) by (apply rnd_nonneg; lra).
  assert (N1' : 0 <= R (x' + y)) by (apply rnd_nonneg; lra).
  destruct (rnd_bounds (R (x + y) + z)) as [_ U2]; [lra |].
  destruct (rnd_bounds (R (x' + y) + z)) as [L2 _]; [lra |].
  unfold lo, hi, u in *. lra.
Qed.

Lemma rnd_lt (s s' : Q) : 0 <= s -> 0 <= s' -> hi * s < lo * s' -> R s < R s'.
Proof.
  intros Hs Hs' Hm.
  destruct (rnd_bounds s Hs) as [_ U]. destruct (rnd_bounds s' Hs') as [L _]. lra.
Qed.

Lemma doubled_accounts (z : Z) : inject_Z (2 * z) == 2 * inject_Z z.
Proof. rewrite inject_Z_mult. reflexivity. Qed.

(** A price times a count, and a count times a price. *)
Lemma price_times_count (c : Q) (n : Z) :
  0 <= c -> (0 <= n)%Z ->
  0 <= R (R c * R (inject_Z n))
  /\ lo * (lo * c * (lo * inject_Z n)) <= R (R c * R (inject_Z n))
  /\ R (R c * R (inject_Z n)) <= hi * (hi * c * (hi * inject_Z n)).
Proof.
  intros Hc Hn. pose proof (inject_Z_nonneg n Hn) as Hq.
  destruct (rnd_lit_bounds c Hc) as (Lc & Uc & Nc).
  destruct (rnd_lit_bounds (inject_Z n) Hq) as (Ln & Un & Nn).
  pose proof (lo_times_nonneg c Hc). pose proof (lo_times_nonneg _ Hq).
  split; [apply rnd_mul_nonneg; assumption |].
  split; [apply rnd_mul_lo | apply rnd_mul_hi]; assumption.
Qed.

Lemma count_times_price (n : Z) (c : Q) :
  0 <= c -> (0 <= n)%Z ->
  0 <= R (R (inject_Z n) * R c)
  /\ lo * (lo * inject_Z n * (lo * c)) <= R (R (inject_Z n) * R c)
  /\ R (R (inject_Z n) * R c) <= hi * (hi * inject_Z n * (hi * c)).
Proof.
  intros Hc Hn. pose proof (inject_Z_nonneg n Hn) as Hq.
  destruct (rnd_lit_bounds c Hc) as (Lc & Uc & Nc).
  destruct (rnd_lit_bounds (inject_Z n) Hq) as (Ln & Un & Nn).
  pose proof (lo_times_nonneg c Hc). pose proof (lo_times_nonneg _ Hq).
  split; [apply rnd_mul_nonneg; assumption |].
  split; [apply rnd_mul_lo | apply rnd_mul_hi]; assumption.
Qed.

(** A non-negative value times a price. *)
Lemma value_times_price (x xh c : Q) :
  0 <= x -> x <= xh -> 0 <= c ->
  0 <= R (x * R c) /\ R (x * R c) <= hi * (xh * (hi * c)).
Proof.
  intros Hx Hxh Hc.
  destruct (rnd_lit_bounds c Hc) as (Lc & Uc & Nc).
  split; [apply rnd_mul_nonneg; assumption |].
  apply rnd_mul_hi; assumption.
Qed.

Lemma value_times_price_lo (x xl c : Q) :
  0 <= xl -> xl <= x -> 0 <= c -> lo * (xl * (lo * c)) <= R (x * R c).
Proof.
  intros Hxl Hx Hc.
  destruct (rnd_lit_bounds c Hc) as (Lc & Uc & Nc).
  apply rnd_mul_lo; try assumption. apply lo_times_nonneg, Hc.
Qed.

(** A count per 100 000. *)
Lemma per_100k (n : Z) :
  (0 <= n)%Z ->
  0 <= R (inject_Z n / inject_Z 100000)
  /\ lo * (inject_Z n * (1 # 100000)) <= R (inject_Z n / inject_Z 100000)
  /\ R (inject_Z n / inject_Z 100000) <= hi * (inject_Z n * (1 # 100000)).
Proof.
  intros Hn. pose proof (inject_Z_nonneg n Hn) as Hq.
  assert (E : inject_Z n / inject_Z 100000 == inject_Z n * (1 # 100000)) by reflexivity.
  assert (N : 0 <= inject_Z n / inject_Z 100000) by (rewrite E; lra).
  destruct (rnd_bounds _ N) as [L U].
  split; [apply rnd_nonneg, N |].
  rewrite <- E. split; assumption.
Qed.

Section Doubling.
Variable p : OrganizationProfile Q.
Hypothesis valid : valid_profile p.
Hypothesis bounded_data :
  (expected_data_gb_monthly p <= 10 ^ 16 * accounts_count p)%Z.

Lemma data_bound_Q :
  inject_Z (expected_data_gb_monthly p) <= 10000000000000000 * inject_Z (accounts_count p).
Proof.
  change 10000000000000000 with (inject_Z (10 ^ 16)).
  rewrite <- inject_Z_mult, <- Zle_Qle. exact bounded_data.
Qed.

Lemma guardduty_doubling : increases_on_doubling calculate_guardduty_costs p.
Proof.
  destruct (valid_profile_std p valid) as (Ha & _ & _ & Hd & _).
  destruct valid as (Za & _ & _ & Zd & _).
  pose proof data_bound_Q as Hb.
  unfold increases_on_doubling. eexists. eexists.
  split; [reflexivity |]. split; [reflexivity |].
  apply fgt_lt. cbn -[Z.mul Z.add Z.sub Qtrunc].
  pose proof (doubled_accounts (accounts_count p)) as E2.
  destruct (price_times_count 15.60 (accounts_count p)) as (B0 & _ & BU); [lra | lia |].
  destruct (price_times_count 15.60 (2 * accounts_count p)) as (B0' & BL' & _); [lra | lia |].
  destruct (per_100k (expected_data_gb_monthly p * 100)) as (Q0 & _ & QU); [lia |].
  destruct (value_times_price _ _ 0.10 Q0 QU) as (E0 & EU); [lra |].
  destruct (count_times_price (expected_data_gb_monthly p) 0.50) as (D0 & _ & DU);
    [lra | lia |].
  assert (E100 : inject_Z (expected_data_gb_monthly p * 100)
                 == 100 * inject_Z (expected_data_gb_monthly p))
    by (rewrite inject_Z_mult; ring).
  apply sum3_lt; try assumption.
  unfold lo, hi, u in *. lra.
Qed.

Lemma config_doubling : increases_on_doubling calculate_config_costs p.
Proof.
  destruct (valid_profile_std p valid) as (Ha & _).
  destruct valid as (Za & _).
  unfold increases_on_doubling. eexists. eexists.
  split; [reflexivity |]. split; [reflexivity |].
  apply fgt_lt. cbn -[Z.mul Z.add Z.sub Qtrunc].
  destruct (count_times_price (500 * accounts_count p) 0.003) as (X0 & _ & XU);
    [lra | lia |].
  destruct (count_times_price (accounts_count p * 50 * 4 * 30) 0.001) as (Y0 & _ & YU);
    [lra | lia |].
  destruct (count_times_price (500 * (2 * accounts_count p)) 0.003) as (X0' & XL' & _);
    [lra | lia |].
  destruct (count_times_price (2 * accounts_count p * 50 * 4 * 30) 0.001)
    as (Y0' & YL' & _); [lra | lia |].
  assert (E1 : inject_Z (500 * accounts_count p) == 500 * inject_Z (accounts_count p))
    by (rewrite inject_Z_mult; reflexivity).
  assert (E2 : inject_Z (accounts_count p * 50 * 4 * 30)
               == 6000 * inject_Z (accounts_count p))
    by (rewrite !inject_Z_mult; ring).
  assert (E3 : inject_Z (500 * (2 * accounts_count p))
               == 1000 * inject_Z (accounts_count p))
    by (rewrite !inject_Z_mult; ring).
  assert (E4 : inject_Z (2 * accounts_count p * 50 * 4 * 30)
               == 12000 * inject_Z (accounts_count p))
    by (rewrite !inject_Z_mult; ring).
  apply rnd_lt; [lra | lra |].
  unfold lo, hi, u in *. lra.
Qed.

Lemma transit_gateway_doubling : increases_on_doubling calculate_transit_gateway_costs p.
Proof.
  destruct (valid_profile_std p valid) as (Ha & _ & Hr & Hd & _).
  destruct valid as (Za & _ & Zr & Zd & _).
  pose proof data_bound_Q as Hb.
  assert (Zl : (1 <= len (regions p))%Z).
  { unfold len. destruct (regions p); [congruence | cbn [List.length]; lia]. }
  unfold increases_on_doubling. eexists. eexists.
  split; [reflexivity |]. split; [reflexivity |].
  apply fgt_lt. cbn -[Z.mul Z.add Z.sub Qtrunc].
  change (inject_Z (24 * 30)) with 720.
  set (T := (accounts_count p * 2 * len (regions p))%Z).
  set (T' := (2 * accounts_count p * 2 * len (regions p))%Z).
  assert (ET : inject_Z T' == 2 * inject_Z T).
  { unfold T, T'. rewrite !inject_Z_mult. ring. }
  assert (HT : 2 * inject_Z (accounts_count p) <= inject_Z T).
  { change 2 with (inject_Z 2). rewrite <- inject_Z_mult, <- Zle_Qle. unfold T. nia. }
  destruct (count_times_price T 0.05) as (X0 & XL & XU); [lra | unfold T; nia |].
  destruct (count_times_price T' 0.05) as (X0' & XL' & XU'); [lra | unfold T'; nia |].
  destruct (rnd_lit_bounds 720) as (L720 & U720 & N720); [lra |].
  pose proof (rnd_mul_hi _ _ _ _ X0 XU N720 U720) as AU.
  assert (P1 : 0 <= lo * (lo * inject_Z T' * (lo * 0.05))).
  { apply lo_times_nonneg. apply Qmult_le_0_compat.
    - apply lo_times_nonneg, inject_Z_nonneg. unfold T'. nia.
    - apply lo_times_nonneg. lra. }
  assert (P2 : 0 <= lo * 720) by (apply lo_times_nonneg; lra).
  pose proof (rnd_mul_lo _ _ _ _ P1 XL' P2 L720) as AL'.
  assert (A0 : 0 <= R (R (R (inject_Z T) * R 0.05) * R 720))
    by (apply rnd_mul_nonneg; assumption).
  assert (A0' : 0 <= R (R (R (inject_Z T') * R 0.05) * R 720))
    by (apply rnd_mul_nonneg; assumption).
  destruct (count_times_price (expected_data_gb_monthly p) 0.7) as (G0 & _ & GU);
    [lra | lia |].
  destruct (value_times_price _ _ 0.02 G0 GU) as (D0 & DU); [lra |].
  apply sum2_lt; try assumption.
  unfold lo, hi, u in *. lra.
Qed.

Lemma cloudwatch_doubling : increases_on_doubling calculate_cloudwatch_costs p.
Proof.
  destruct (valid_profile_std p valid) as (Ha & _ & _ & Hd & _).
  destruct valid as (Za & _ & _ & Zd & _).
  pose proof data_bound_Q as Hb.
  unfold increases_on_doubling. eexists. eexists.
  split; [reflexivity |]. split; [reflexivity |].
  apply fgt_lt. cbn -[Z.mul Z.add Z.sub Qtrunc].
  change (inject_Z 6) with 6.
  pose proof (doubled_accounts (accounts_count p)) as E2.
  destruct (price_times_count 7.89 (accounts_count p)) as (B0 & _ & BU); [lra | lia |].
  destruct (price_times_count 7.89 (2 * accounts_count p)) as (B0' & BL' & _); [lra | lia |].
  destruct (count_times_price (expected_data_gb_monthly p) 0.3) as (L0 & _ & LU);
    [lra | lia |].
  destruct (value_times_price _ _ 0.50 L0 LU) as (I0 & IU); [lra |].
  destruct (value_times_price _ _ 6 L0 LU) as (M0 & MU); [lra |].
  destruct (value_times_price _ _ 0.03 M0 MU) as (S0 & SU); [lra |].
  apply sum3_lt; try assumption.
  unfold lo, hi, u in *. lra.
Qed.

Lemma security_hub_doubling : increases_on_doubling calculate_security_hub_costs p.
Proof.
  destruct (valid_profile_std p valid) as (Ha & _).
  destruct valid as (Za & _).
  assert (Zc : (0 <= len (compliance_requirements p))%Z) by (unfold len; lia).
  unfold increases_on_doubling. eexists. eexists.
  split; [reflexivity |]. split; [reflexivity |].
  apply fgt_lt. cbn -[Z.mul Z.add Z.sub Qtrunc].
  set (K := (accounts_count p * len (compliance_requirements p) * 1000)%Z).
  set (K' := (2 * accounts_count p * len (compliance_requirements p) * 1000)%Z).
  assert (ZK : (0 <= K)%Z) by (unfold K; nia).
  assert (ZK' : (0 <= K')%Z) by (unfold K'; nia).
  assert (EK : inject_Z K' == 2 * inject_Z K).
  { unfold K, K'. rewrite !inject_Z_mult. ring. }
  assert (E1 : inject_Z (accounts_count p * 10000) == 10000 * inject_Z (accounts_count p))
    by (rewrite inject_Z_mult; ring).
  assert (E2 : inject_Z (2 * accounts_count p * 10000)
               == 20000 * inject_Z (accounts_count p))
    by (rewrite !inject_Z_mult; ring).
  pose proof (inject_Z_nonneg K ZK) as QK.
  destruct (per_100k (accounts_count p * 10000)) as (F0 & _ & FU); [lia |].
  destruct (per_100k (2 * accounts_count p * 10000)) as (F0' & FL' & _); [lia |].
  destruct (per_100k K) as (C0 & _ & CU); [lia |].
  destruct (per_100k K') as (C0' & CL' & _); [lia |].
  destruct (value_times_price _ _ 0.30 F0 FU) as (I0 & IU); [lra |].
  destruct (value_times_price _ _ 0.10 C0 CU) as (J0 & JU); [lra |].
  pose proof (value_times_price_lo
                (R (inject_Z (2 * accounts_count p * 10000) / inject_Z 100000))
                (lo * (inject_Z (2 * accounts_count p * 10000) * (1 # 100000))) 0.30)
    as IL'.
  pose proof (value_times_price_lo
                (R (inject_Z K' / inject_Z 100000))
                (lo * (inject_Z K' * (1 # 100000))) 0.10) as JL'.
  unfold lo, hi, u in *.
  specialize (IL' ltac:(lra) ltac:(lra) ltac:(lra)).
  specialize (JL' ltac:(lra) ltac:(lra) ltac:(lra)).
  assert (I0' : 0 <= R (R (inject_Z (2 * accounts_count p * 10000) / inject_Z 100000)
                        * R 0.30)) by (apply rnd_mul_nonneg; [assumption | apply rnd_nonneg; lra]).
  assert (J0' : 0 <= R (R (inject_Z K' / inject_Z 100000) * R 0.10))
    by (apply rnd_mul_nonneg; [assumption | apply rnd_nonneg; lra]).
  apply rnd_lt; [lra | lra |].
  unfold lo, hi, u in *. lra.
Qed.

Lemma control_tower_doubling : unchanged_on_doubling calculate_control_tower_costs p.
Proof. unfold unchanged_on_doubling. eexists. split; reflexivity. Qed.

Lemma backup_doubling : increases_on_doubling calculate_backup_costs p.
Proof.
  destruct (valid_profile_std p valid) as (Ha & _ & _ & _ & H0 & H1).
  destruct valid as (Za & _).
  unfold increases_on_doubling. eexists. eexists.
  split; [reflexivity |]. split; [reflexivity |].
  apply fgt_lt. cbn -[Z.mul Z.add Z.sub Qtrunc].
  pose proof (doubled_accounts (accounts_count p)) as E2.
  set (c := R (R 1 - development_accounts_ratio p)).
  assert (T : 0 <= R 1 - development_accounts_ratio p) by (rewrite (rnd_one R); lra).
  assert (C0 : 0 <= c) by (apply rnd_nonneg, T).
  assert (CU : c <= hi).
  { destruct (rnd_bounds _ T) as [_ U]. fold c in U.
    rewrite (rnd_one R) in U. unfold hi, u in *. lra. }
  destruct (rnd_lit_bounds (inject_Z (accounts_count p))) as (AL & AU & A0); [lra |].
  destruct (rnd_lit_bounds (inject_Z (2 * accounts_count p))) as (AL' & AU' & A0'); [lra |].
  set (v := R (R (inject_Z (accounts_count p)) * c)).
  set (v' := R (R (inject_Z (2 * accounts_count p)) * c)).
  assert (V0 : 0 <= v) by (apply rnd_mul_nonneg; assumption).
  assert (VU : v <= hi * (hi * inject_Z (accounts_count p) * c))
    by (apply rnd_mul_hi; try assumption; apply Qle_refl).
  assert (VH : v <= hi * (hi * inject_Z (accounts_count p) * hi))
    by (apply rnd_mul_hi; assumption).
  assert (VL' : lo * (lo * inject_Z (2 * accounts_count p) * c) <= v').
  { apply rnd_mul_lo; try assumption; try apply Qle_refl.
    apply lo_times_nonneg. lra. }
  assert (AC : 0 <= inject_Z (accounts_count p) * c)
    by (apply Qmult_le_0_compat; lra).
  assert (VV : v <= v').
  { eapply Qle_trans; [exact VU |]. eapply Qle_trans; [| exact VL'].
    setoid_replace (hi * (hi * inject_Z (accounts_count p) * c))
      with (hi * hi * (inject_Z (accounts_count p) * c)) by ring.
    setoid_replace (lo * (lo * inject_Z (2 * accounts_count p) * c))
      with (2 * lo * lo * (inject_Z (accounts_count p) * c)) by (rewrite E2; ring).
    apply Qmult_le_compat_r; [unfold lo, hi, u; lra | exact AC]. }
  pose proof (Qtrunc_nonneg v V0) as P0.
  pose proof (Qtrunc_mono v v' V0 VV) as PM.
  pose proof (Qtrunc_le v V0) as PV.
  set (s := (Qtrunc v * 100 + (accounts_count p - Qtrunc v) * 30)%Z).
  set (s' := (Qtrunc v' * 100 + (2 * accounts_count p - Qtrunc v') * 30)%Z).
  assert (ZS : (0 <= s)%Z) by (unfold s; lia).
  assert (ZS' : (s + 30 * accounts_count p <= s')%Z) by (unfold s, s'; lia).
  assert (QS : inject_Z s == 70 * inject_Z (Qtrunc v) + 30 * inject_Z (accounts_count p)).
  { unfold s. rewrite inject_Z_plus, !inject_Z_mult.
    unfold Zminus. rewrite inject_Z_plus, inject_Z_opp. ring. }
  assert (QS' : inject_Z s + 30 * inject_Z (accounts_count p) <= inject_Z s').
  { change 30 with (inject_Z 30). rewrite <- inject_Z_mult, <- inject_Z_plus, <- Zle_Qle.
    exact ZS'. }
  pose proof (inject_Z_nonneg s ZS) as QS0.
  destruct (count_times_price s 0.05) as (X0 & _ & XU); [lra | lia |].
  destruct (count_times_price s' 0.05) as (X0' & XL' & _); [lra | lia |].
  destruct (count_times_price s 0.5) as (G0 & _ & GU); [lra | lia |].
  destruct (count_times_price s' 0.5) as (G0' & GL' & _); [lra | lia |].
  destruct (value_times_price _ _ 0.02 G0 GU) as (Y0 & YU); [lra |].
  pose proof (value_times_price_lo (R (R (inject_Z s') * R 0.5))
                (lo * (lo * inject_Z s' * (lo * 0.5))) 0.02) as YL'.
  assert (Y0' : 0 <= R (R (R (inject_Z s') * R 0.5) * R 0.02))
    by (apply rnd_mul_nonneg; [assumption | apply rnd_nonneg; lra]).
  unfold lo, hi, u in *.
  specialize (YL' ltac:(lra) ltac:(lra) ltac:(lra)).
  apply rnd_lt; [lra | lra |].
  unfold lo, hi, u in *. lra.
Qed.

(** C5, amended: as long as the data volume is at most 10^16 GB per
    account (and nothing overflows), doubling the accounts strictly raises
    the monthly cost of GuardDuty, Config, Transit Gateway, CloudWatch,
    Security Hub and Backup, and leaves Control Tower's unchanged. *)
Theorem doubling_accounts_scales_costs : scaling_property p.
Proof.
  unfold scaling_property.
  split; [exact guardduty_doubling |].
  split; [exact config_doubling |].
  split; [exact transit_gateway_doubling |].
  split; [exact cloudwatch_doubling |].
  split; [exact security_hub_doubling |].
  split; [exact backup_doubling |].
  exact control_tower_doubling.
Qed.

End Doubling.

End StandardModel.

(** ** The two readings side by side *)

(** The exact value of a double. *)
Definition float_value (x : float) : Q :=
  match Prim2SF x with
  | S754_finite s m e => B64.value s m e
  | _ => 0
  end.

Definition same_costs (sq : ServiceCost Q) (sf : ServiceCost float) : Prop :=
  monthly_cost sq == float_value (monthly_cost sf)
  /\ annual_cost sq == float_value (annual_cost sf)
  /\ optimization_potential sq == float_value (optimization_potential sf).

(** On the example profile the standard model with [binary53] computes
    the very doubles of binary64, service by service. *)
Lemma binary53_agrees_with_binary64 :
  exists services_q services_f,
    services_of (FO := Std.ops binary53)
      (LandingZoneCostCalculator_new (FO := Std.ops binary53)
         (example_profile (FO := Std.ops binary53)))
    = Ok services_q
    /\ services_of (FO := B64.ops)
         (LandingZoneCostCalculator_new (FO := B64.ops) (example_profile (FO := B64.ops)))
       = Ok services_f
    /\ Forall2 same_costs services_q services_f.
Proof.
  eexists. eexists.
  split; [vm_compute; reflexivity |].
  split; [vm_compute; reflexivity |].
  repeat constructor; vm_compute; reflexivity.
Qed.

(** C4, amended: the backup calculator takes
    [prod_accounts = int(accounts_count * (1 - ratio))], truncating toward
    zero, then [dev_accounts], [storage_gb], [cross_region_gb] and the
    monthly cost as the formula says, with potential 0.25; and without
    overflow it returns for every profile. *)
Theorem backup_costs_truncate :
  (forall (F : Type) (FO : PyFloat F) (self : LandingZoneCostCalculator F),
      monthly_of (calculate_backup_costs self) = backup_monthly_amended self
      /\ potential_of (calculate_backup_costs self)
         = (_ <- backup_monthly_amended self ;; Ok (float_lit 0.25)))
  /\ (forall (R : Rounding) (p : OrganizationProfile Q),
         returns (calculate_backup_costs (FO := Std.ops R)
                    (LandingZoneCostCalculator_new (FO := Std.ops R) p))).
Proof.
  split.
  - intros F FO self. split; [apply backup_monthly_is_amended |].
    unfold potential_of, calculate_backup_costs, backup_monthly_amended,
      backup_monthly_with, int_fmul.
    destruct (float_of_int (accounts_count (org_profile self))); [| reflexivity].
    cbn [bind]. destruct (float_to_int _); [| reflexivity].
    cbn [bind]. destruct (float_of_int _); reflexivity.
  - intros R p. eexists. reflexivity.
Qed.

(** C8, amended.  In binary64, for every profile: no calculator raises
    [ZeroDivisionError]; the only exceptions are [OverflowError], for an
    int that does not fit a float or a product that [int] finds infinite,
    and [ValueError], in Control Tower exactly when [accounts_count] has
    more than 4300 digits and in Backup when [int] finds a nan; with zero
    data or no framework the data terms and the compliance term are
    exactly 0.0.  For every float implementation, GuardDuty, Config,
    Transit Gateway, CloudTrail, CloudWatch and Security Hub return
    exactly when every int they convert to a float or divide into one
    gives a float, the ints of the cost drivers included: with 10^307 GB
    a month GuardDuty and CloudTrail raise [OverflowError] although their
    cost terms are finite.  Without overflow, for every valid profile,
    all eight calculators and the report return, and the same terms are
    zero. *)
Theorem calculators_raise_no_division_fault :
  (forall p : OrganizationProfile float,
      calculators_satisfy (FO := B64.ops) (fun c => no_division_fault c) p
      /\ calculator_exceptions p
      /\ (expected_data_gb_monthly p = 0%Z ->
          data_terms (FO := B64.ops) (LandingZoneCostCalculator_new (FO := B64.ops) p)
            (fun c => c = Ok 0%float))
      /\ (compliance_requirements p = [] ->
          security_hub_compliance_cost (FO := B64.ops)
            (LandingZoneCostCalculator_new (FO := B64.ops) p) = Ok 0%float))
  /\ (forall (F : Type) (FO : PyFloat F) (self : LandingZoneCostCalculator F),
         conversions_decide self)
  /\ heavy_data_example
  /\ long_accounts_example
  /\ (forall (R : Rounding) (p : OrganizationProfile Q),
         valid_profile (FO := Std.ops R) p ->
         calculators_return (FO := Std.ops R) p
         /\ returns (generate_cost_report (FO := Std.ops R)
                       (LandingZoneCostCalculator_new (FO := Std.ops R) p))
         /\ (expected_data_gb_monthly p = 0%Z ->
             data_terms (FO := Std.ops R)
               (LandingZoneCostCalculator_new (FO := Std.ops R) p) zero_valued)
         /\ (compliance_requirements p = [] ->
             zero_valued
               (security_hub_compliance_cost (FO := Std.ops R)
                  (LandingZoneCostCalculator_new (FO := Std.ops R) p)))).
Proof.
  split; [| split; [| split; [| split]]].
  - intros p. split; [apply calculators_never_divide_by_zero |].
    split; [apply calculators_raise_only |].
    split; [apply zero_data_terms_b64 | apply zero_frameworks_term_b64].
  - intros F FO self. apply calculators_return_iff_conversions_do.
  - exact cost_drivers_overflow_under_heavy_data.
  - exact control_tower_refuses_long_accounts.
  - intros R p V. split; [apply calculators_return_std |].
    split; [apply report_returns_std, V |].
    split; [apply zero_data_terms_std | apply zero_frameworks_term_std].
Qed.

(** ** The theorems at concrete profiles *)

Section OnBinary53.
#[local] Hint Extern 0 (PyFloat Q) => exact (Std.ops binary53) : typeclass_instances.

(** The example profile, its ratio 0.3 rounded to 53 bits. *)
Definition example_profile53 : OrganizationProfile Q := example_profile.

Ltac valid_on_binary53 :=
  unfold valid_profile, example_profile53;
  cbn [accounts_count employees regions expected_data_gb_monthly
       development_accounts_ratio example_profile with_accounts with_data
       with_regions with_ratio with_frameworks];
  repeat split; try lia; try discriminate; vm_compute; reflexivity.

(** C2 on the example profile, rounding to 53 bits. *)
Lemma annual_total_example :
  valid_profile example_profile53
  /\ exists services,
       services_of (LandingZoneCostCalculator_new example_profile53) = Ok services
       /\ List.length services = 8%nat
       /\ Forall (fun s => 0 <= monthly_cost s
                           /\ annual_cost s = (monthly_cost s * float_lit 12)%py) services
       /\ qpow lo 8 * qsum (map monthly_cost services) <= total_monthly_of services
       /\ total_monthly_of services <= qpow hi 8 * qsum (map monthly_cost services)
       /\ qpow lo 8 * qsum (map annual_cost services) <= total_annual_of services
       /\ total_annual_of services <= qpow hi 8 * qsum (map annual_cost services)
       /\ 89.10 <= total_monthly_of services
       /\ Qabs (total_annual_of services - total_monthly_of services * 12)
          <= (1 # 1000000) * Qabs (total_monthly_of services * 12).
Proof.
  split; [valid_on_binary53 |].
  apply (annual_total_is_twelve_monthly_totals binary53 example_profile53). valid_on_binary53.
Defined.

(** C3 on the example profile, rounding to 53 bits. *)
Lemma optimized_monthly_example :
  valid_profile example_profile53
  /\ exists services,
       services_of (LandingZoneCostCalculator_new example_profile53) = Ok services
       /\ optimized_monthly_of services <= total_monthly_of services
       /\ optimized_monthly_of services < total_monthly_of services
       /\ (optimized_monthly_of services == total_monthly_of services
           <-> Forall (fun s => optimization_potential s == 0) services).
Proof.
  split; [valid_on_binary53 |].
  apply (optimized_monthly_below_total binary53 example_profile53). valid_on_binary53.
Defined.

(** C5 on the example profile: 10 accounts against 20. *)
Lemma doubling_example :
  valid_profile example_profile53
  /\ (expected_data_gb_monthly example_profile53
      <= 10 ^ 16 * accounts_count example_profile53)%Z
  /\ scaling_property example_profile53.
Proof.
  split; [valid_on_binary53 |].
  split; [vm_compute; discriminate |].
  apply (doubling_accounts_scales_costs binary53 example_profile53).
  - valid_on_binary53.
  - vm_compute. discriminate.
Defined.


(** A profile with no data and no compliance framework. *)
Definition quiet_profile : OrganizationProfile Q :=
  with_data 0 (with_frameworks [] example_profile53).

(** C8 on the quiet profile: everything returns and the affected terms
    are zero. *)
Lemma no_division_fault_example :
  valid_profile quiet_profile
  /\ calculators_return quiet_profile
  /\ returns (generate_cost_report (LandingZoneCostCalculator_new quiet_profile))
  /\ data_terms (LandingZoneCostCalculator_new quiet_profile) zero_valued
  /\ zero_valued (security_hub_compliance_cost (LandingZoneCostCalculator_new quiet_profile)).
Proof.
  assert (V : valid_profile quiet_profile) by (unfold quiet_profile; valid_on_binary53).
  destruct (proj2 (proj2 (proj2 (proj2 calculators_raise_no_division_fault)))
              binary53 quiet_profile V)
    as (Hc & Hr & Hd & Hf).
  split; [exact V |]. split; [exact Hc |]. split; [exact Hr |].
  split; [apply Hd; reflexivity | apply Hf; reflexivity].
Defined.

End OnBinary53.

Section OnBinary64Again.
#[local] Existing Instance B64.ops.

(** C7 on a profile with 60 accounts in three regions: its monthly total
    is above 2000 and all three factors are reported. *)
Lemma sprawling_profile_is_high_risk :
  exists services,
    services_of (LandingZoneCostCalculator_new sprawling_profile) = Ok services
    /\ total_monthly_of services = 15980.4875%float
    /\ risk_level (_generate_risk_analysis (LandingZoneCostCalculator_new sprawling_profile)
                     (total_monthly_of services)) = "high"
    /\ risk_factors (_generate_risk_analysis (LandingZoneCostCalculator_new sprawling_profile)
                       (total_monthly_of services))
       = [high_monthly_spend; multi_region_complexity; account_sprawl].
Proof.
  eexists. split; [vm_compute; reflexivity |].
  split; [vm_compute; reflexivity |].
  match goal with
  | |- risk_level (_generate_risk_analysis ?self ?m) = _ /\ _ =>
      destruct (risk_analysis_rules self m) as (_ & _ & _ & _ & _ & Hexample)
  end.
  apply Hexample; vm_compute; reflexivity.
Defined.

(** C6 at the boundary: 20 accounts do not get the recommendation, 21 do. *)
Lemma budget_controls_boundary :
  ~ In (budget_controls_rule 23428.65%float)
       (_generate_recommendations
          (LandingZoneCostCalculator_new (with_accounts 20 example_profile))
          [] 23428.65%float)
  /\ In (budget_controls_rule 23428.65%float)
        (_generate_recommendations
           (LandingZoneCostCalculator_new (with_accounts 21 example_profile))
           [] 23428.65%float).
Proof.
  split.
  - apply (budget_controls_iff_more_than_20
             (LandingZoneCostCalculator_new (with_accounts 20 example_profile))).
    reflexivity.
  - apply (budget_controls_iff_more_than_20
             (LandingZoneCostCalculator_new (with_accounts 21 example_profile))).
    reflexivity.
Defined.

End OnBinary64Again.

(** ** What each calculator reads, and what the report is made of *)

Section Shape.
Context {F : Type} {FO : PyFloat F}.

Definition with_name (n : string) (p : OrganizationProfile F) : OrganizationProfile F :=
  {| name := n;
     accounts_count := accounts_count p;
     employees := employees p;
     regions := regions p;
     compliance_requirements := compliance_requirements p;
     expected_data_gb_monthly := expected_data_gb_monthly p;
     business_hours_only := business_hours_only p;
     development_accounts_ratio := development_accounts_ratio p |}.

Definition with_business_hours_only (b : bool) (p : OrganizationProfile F) : OrganizationProfile F :=
  {| name := name p;
     accounts_count := accounts_count p;
     employees := employees p;
     regions := regions p;
     compliance_requirements := compliance_requirements p;
     expected_data_gb_monthly := expected_data_gb_monthly p;
     business_hours_only := b;
     development_accounts_ratio := development_accounts_ratio p |}.

Definition with_employees (n : Z) (p : OrganizationProfile F) : OrganizationProfile F :=
  {| name := name p;
     accounts_count := accounts_count p;
     employees := n;
     regions := regions p;
     compliance_requirements := compliance_requirements p;
     expected_data_gb_monthly := expected_data_gb_monthly p;
     business_hours_only := business_hours_only p;
     development_accounts_ratio := development_accounts_ratio p |}.

(** The name, potential and tier each calculator gives its service, in the
    order of the report. *)
Definition catalogue : list (string * Q * string) :=
  [("AWS Control Tower", 0.0, "enterprise");
   ("Amazon GuardDuty", 0.20, "premium");
   ("AWS Config", 0.25, "standard");
   ("AWS Transit Gateway", 0.30, "standard");
   ("AWS CloudTrail", 0.15, "standard");
   ("Amazon CloudWatch", 0.40, "standard");
   ("AWS Security Hub", 0.10, "premium");
   ("AWS Backup", 0.25, "standard")].

Definition listed (s : ServiceCost F) (entry : string * Q * string) : Prop :=
  let '(n, c, t) := entry in
  service_name s = n
  /\ optimization_potential s = float_lit c
  /\ cost_tier s = t
  /\ annual_cost s = (monthly_cost s * float_lit 12)%py.

Ltac returned H :=
  repeat match type of H with
         | bind ?c _ = Ok _ => destruct c; [cbn [bind] in H | discriminate H]
         end;
  apply Ok_inj in H; subst; repeat split.

Lemma control_tower_listed (self : LandingZoneCostCalculator F) (s : ServiceCost F) :
  calculate_control_tower_costs self = Ok s -> listed s ("AWS Control Tower", 0.0, "enterprise").
Proof. unfold calculate_control_tower_costs. intros H. returned H. Qed.

Lemma guardduty_listed (self : LandingZoneCostCalculator F) (s : ServiceCost F) :
  calculate_guardduty_costs self = Ok s -> listed s ("Amazon GuardDuty", 0.20, "premium").
Proof. unfold calculate_guardduty_costs. intros H. returned H. Qed.

Lemma config_listed (self : LandingZoneCostCalculator F) (s : ServiceCost F) :
  calculate_config_costs self = Ok s -> listed s ("AWS Config", 0.25, "standard").
Proof. unfold calculate_config_costs. intros H. returned H. Qed.

Lemma transit_gateway_listed (self : LandingZoneCostCalculator F) (s : ServiceCost F) :
  calculate_transit_gateway_costs self = Ok s -> listed s ("AWS Transit Gateway", 0.30, "standard").
Proof. unfold calculate_transit_gateway_costs. intros H. returned H. Qed.

Lemma cloudtrail_listed (self : LandingZoneCostCalculator F) (s : ServiceCost F) :
  calculate_cloudtrail_costs self = Ok s -> listed s ("AWS CloudTrail", 0.15, "standard").
Proof. unfold calculate_cloudtrail_costs. intros H. returned H. Qed.

Lemma cloudwatch_listed (self : LandingZoneCostCalculator F) (s : ServiceCost F) :
  calculate_cloudwatch_costs self = Ok s -> listed s ("Amazon CloudWatch", 0.40, "standard").
Proof. unfold calculate_cloudwatch_costs. intros H. returned H. Qed.

Lemma security_hub_listed (self : LandingZoneCostCalculator F) (s : ServiceCost F) :
  calculate_security_hub_costs self = Ok s -> listed s ("AWS Security Hub", 0.10, "premium").
Proof. unfold calculate_security_hub_costs. intros H. returned H. Qed.

Lemma backup_listed (self : LandingZoneCostCalculator F) (s : ServiceCost F) :
  calculate_backup_costs self = Ok s -> listed s ("AWS Backup", 0.25, "standard").
Proof. unfold calculate_backup_costs. intros H. returned H. Qed.

Lemma services_listed (self : LandingZoneCostCalculator F) (services : list (ServiceCost F)) :
  services_of self = Ok services -> Forall2 listed services catalogue.
Proof.
  unfold services_of. intros H.
  destruct (calculate_control_tower_costs self) as [s1 |] eqn:E1; [| discriminate H].
  destruct (calculate_guardduty_costs self) as [s2 |] eqn:E2; [| discriminate H].
  destruct (calculate_config_costs self) as [s3 |] eqn:E3; [| discriminate H].
  destruct (calculate_transit_gateway_costs self) as [s4 |] eqn:E4; [| discriminate H].
  destruct (calculate_cloudtrail_costs self) as [s5 |] eqn:E5; [| discriminate H].
  destruct (calculate_cloudwatch_costs self) as [s6 |] eqn:E6; [| discriminate H].
  destruct (calculate_security_hub_costs self) as [s7 |] eqn:E7; [| discriminate H].
  destruct (calculate_backup_costs self) as [s8 |] eqn:E8; [| discriminate H].
  cbn [bind] in H. apply Ok_inj in H. subst services.
  unfold catalogue.
  apply Forall2_cons; [exact (control_tower_listed self s1 E1) |].
  apply Forall2_cons; [exact (guardduty_listed self s2 E2) |].
  apply Forall2_cons; [exact (config_listed self s3 E3) |].
  apply Forall2_cons; [exact (transit_gateway_listed self s4 E4) |].
  apply Forall2_cons; [exact (cloudtrail_listed self s5 E5) |].
  apply Forall2_cons; [exact (cloudwatch_listed self s6 E6) |].
  apply Forall2_cons; [exact (security_hub_listed self s7 E7) |].
  apply Forall2_cons; [exact (backup_listed self s8 E8) |].
  apply Forall2_nil.
Qed.


Lemma control_tower_first (self : LandingZoneCostCalculator F)
    (services : list (ServiceCost F)) :
  services_of self = Ok services ->
  exists s rest,
    services = s :: rest
    /\ monthly_cost s = CONTROL_TOWER_BASE (pricing self)
    /\ annual_cost s = (CONTROL_TOWER_BASE (pricing self) * float_lit 12)%py.
Proof.
  unfold services_of, calculate_control_tower_costs. intros H.
  destruct (int_str _); [| discriminate H]. cbn [bind] in H.
  repeat match type of H with
         | bind ?c _ = Ok _ => destruct c; [cbn [bind] in H | discriminate H]
         end.
  apply Ok_inj in H. subst services. eexists. eexists. repeat split.
Qed.

(** The entries of the breakdown follow the services one by one. *)
Lemma entries_follow_services (total_monthly : F) (services : list (ServiceCost F))
    (entries : list (ServiceEntry F)) :
  map_result (service_entry total_monthly) services = Ok entries ->
  Forall2 (fun e s =>
             entry_name e = service_name s
             /\ entry_monthly_cost e = float_round (monthly_cost s) 2
             /\ entry_annual_cost e = float_round (annual_cost s) 2
             /\ entry_optimization_potential_pct e
                = float_round (optimization_potential s * float_lit 100)%py 1
             /\ entry_cost_tier e = cost_tier s)
          entries services.
Proof.
  revert entries. induction services as [| s services IH]; intros entries H.
  - apply Ok_inj in H. subst. constructor.
  - cbn [map_result] in H. unfold service_entry at 1 in H.
    destruct (ftruediv (monthly_cost s) total_monthly) as [share |]; [| discriminate H].
    cbn [bind] in H.
    destruct (map_result (service_entry total_monthly) services) as [es |]; [| discriminate H].
    cbn [bind] in H. apply Ok_inj in H. subst entries.
    constructor; [repeat split | apply IH; reflexivity].
Qed.

(** What [generate_cost_report] returns, when it returns. *)
Lemma report_shape (self : LandingZoneCostCalculator F) (report : CostReport F) :
  generate_cost_report self = Ok report ->
  exists services,
    services_of self = Ok services
    /\ map_result (service_entry (total_monthly_of services)) services
       = Ok (cost_breakdown_services report)
    /\ organization_profile report = org_profile self
    /\ recommendations report
       = _generate_recommendations self services (total_annual_of services)
    /\ risk_analysis report = _generate_risk_analysis self (total_monthly_of services)
    /\ totals_monthly_cost (cost_breakdown_totals report)
       = float_round (total_monthly_of services) 2
    /\ totals_annual_cost (cost_breakdown_totals report)
       = float_round (total_annual_of services) 2.
Proof.
  unfold generate_cost_report. intros H.
  destruct (services_of self) as [services |]; [| discriminate H].
  cbn [bind] in H. exists services.
  destruct (map_result (service_entry (total_monthly_of services)) services) as [entries |];
    [| repeat match type of H with
              | bind ?c _ = Ok _ => destruct c; [cbn [bind] in H | discriminate H]
              end; discriminate H ].
  repeat match type of H with
         | bind ?c _ = Ok _ => destruct c; [cbn [bind] in H | discriminate H]
         end.
  apply Ok_inj in H. subst report. repeat split.
Qed.

Lemma pci_listed (fs : list string) :
  existsb (String.eqb "pci-dss") fs = true <-> In "pci-dss" fs.
Proof.
  rewrite existsb_exists. split.
  - intros (x & Hin & E). apply String.eqb_eq in E. subst x. exact Hin.
  - intros Hin. exists "pci-dss". split; [exact Hin | apply String.eqb_refl].
Qed.

Lemma pci_rule_is_no_other_rule (t : F) :
  pci_scope_rule t <> transit_reserved_rule t
  /\ pci_scope_rule t <> log_retention_rule t
  /\ pci_scope_rule t <> budget_controls_rule t.
Proof.
  repeat split; intro E; apply (f_equal category) in E; discriminate E.
Qed.

(** X10: the PCI scope recommendation (0.05 of the annual total) is in the
    engine's output exactly when the string "pci-dss" is one of the
    compliance requirements, and it is then the last recommendation; the
    output has two recommendations, one more with more than 20 accounts
    and one more with "pci-dss". *)
Theorem pci_scope_iff_listed (self : LandingZoneCostCalculator F)
    (services : list (ServiceCost F)) (total_annual : F) :
  let recommendations := _generate_recommendations self services total_annual in
  (In (pci_scope_rule total_annual) recommendations
   <-> In "pci-dss" (compliance_requirements (org_profile self)))
  /\ (In "pci-dss" (compliance_requirements (org_profile self)) ->
      last recommendations (transit_reserved_rule total_annual)
      = pci_scope_rule total_annual)
  /\ List.length recommendations
     = (2 + (if (accounts_count (org_profile self) >? 20)%Z then 1 else 0)
        + (if existsb (String.eqb "pci-dss") (compliance_requirements (org_profile self))
           then 1 else 0))%nat
  /\ estimated_savings_annual (pci_scope_rule total_annual)
     = (total_annual * float_lit 0.05)%py.
Proof.
  cbv zeta. rewrite recommendations_shape.
  destruct (pci_rule_is_no_other_rule total_annual) as (N1 & N2 & N3).
  pose proof (pci_listed (compliance_requirements (org_profile self))) as L.
  destruct (existsb _ _) eqn:E.
  - assert (Hin : In "pci-dss" (compliance_requirements (org_profile self)))
      by (apply L; reflexivity).
    split; [| split; [| split; [| reflexivity]]].
    + split; [intros _; exact Hin | intros _].
      apply in_or_app. right. apply in_or_app. right. left. reflexivity.
    + intros _. destruct (accounts_count (org_profile self) >? 20)%Z; reflexivity.
    + destruct (accounts_count (org_profile self) >? 20)%Z; reflexivity.
  - assert (Hout : ~ In "pci-dss" (compliance_requirements (org_profile self))).
    { intros Hin. apply L in Hin. discriminate Hin. }
    split; [| split; [| split; [| reflexivity]]].
    + split; [| intros Hin; contradiction].
      destruct (accounts_count (org_profile self) >? 20)%Z; simpl;
        intros H; repeat (destruct H as [H | H]; [symmetry in H; tauto |]); contradiction.
    + intros Hin. contradiction.
    + destruct (accounts_count (org_profile self) >? 20)%Z; reflexivity.
Qed.

(** The figures of a service: everything but its cost drivers. *)
Definition figures (s : ServiceCost F) :=
  (service_name s, monthly_cost s, annual_cost s, optimization_potential s, cost_tier s).

Definition figures_of (c : result (ServiceCost F)) :=
  s <- c ;; Ok (figures s).

(** X11: the profile fields each calculator reads.  Two profiles that agree
    on them get the same result, cost drivers and exceptions included:
    Control Tower reads [accounts_count] (for its first cost driver);
    GuardDuty and CloudWatch the accounts and the data volume; Config the
    accounts and the number of compliance requirements (for a cost
    driver); Transit Gateway the accounts, the number of regions and the
    data volume; CloudTrail the data volume; Security Hub the accounts and
    the compliance requirements (their names, for a cost driver); Backup
    the accounts and the development ratio.  The figures need less:
    Control Tower's are the same for any two profiles where it returns,
    Config's depend on the accounts only, and Security Hub's on the
    accounts and the number of compliance requirements. *)
Theorem calculators_read_only (p q : OrganizationProfile F) :
  let self := LandingZoneCostCalculator_new p in
  let other := LandingZoneCostCalculator_new q in
  (accounts_count p = accounts_count q ->
   calculate_control_tower_costs self = calculate_control_tower_costs other)
  /\ (accounts_count p = accounts_count q ->
      expected_data_gb_monthly p = expected_data_gb_monthly q ->
      calculate_guardduty_costs self = calculate_guardduty_costs other)
  /\ (accounts_count p = accounts_count q ->
      List.length (compliance_requirements p) = List.length (compliance_requirements q) ->
      calculate_config_costs self = calculate_config_costs other)
  /\ (accounts_count p = accounts_count q ->
      List.length (regions p) = List.length (regions q) ->
      expected_data_gb_monthly p = expected_data_gb_monthly q ->
      calculate_transit_gateway_costs self = calculate_transit_gateway_costs other)
  /\ (expected_data_gb_monthly p = expected_data_gb_monthly q ->
      calculate_cloudtrail_costs self = calculate_cloudtrail_costs other)
  /\ (accounts_count p = accounts_count q ->
      expected_data_gb_monthly p = expected_data_gb_monthly q ->
      calculate_cloudwatch_costs self = calculate_cloudwatch_costs other)
  /\ (accounts_count p = accounts_count q ->
      compliance_requirements p = compliance_requirements q ->
      calculate_security_hub_costs self = calculate_security_hub_costs other)
  /\ (accounts_count p = accounts_count q ->
      development_accounts_ratio p = development_accounts_ratio q ->
      calculate_backup_costs self = calculate_backup_costs other)
  /\ (forall s t,
        calculate_control_tower_costs self = Ok s ->
        calculate_control_tower_costs other = Ok t ->
        figures s = figures t)
  /\ (accounts_count p = accounts_count q ->
      figures_of (calculate_config_costs self) = figures_of (calculate_config_costs other))
  /\ (accounts_count p = accounts_count q ->
      List.length (compliance_requirements p) = List.length (compliance_requirements q) ->
      figures_of (calculate_security_hub_costs self)
      = figures_of (calculate_security_hub_costs other)).
Proof.
  cbv zeta.
  unfold figures_of, calculate_control_tower_costs, calculate_guardduty_costs,
    calculate_config_costs, calculate_transit_gateway_costs, calculate_cloudtrail_costs,
    calculate_cloudwatch_costs, calculate_security_hub_costs, calculate_backup_costs,
    LandingZoneCostCalculator_new, int_fmul, len.
  cbn [org_profile pricing].
  repeat match goal with |- _ /\ _ => split end.
  1-8: intros; repeat match goal with E : _ = _ |- _ => rewrite E; clear E end; reflexivity.
  - intros s t Hs Ht.
    destruct (int_str (accounts_count p)); [| discriminate Hs].
    destruct (int_str (accounts_count q)); [| discriminate Ht].
    cbn [bind] in Hs, Ht. apply Ok_inj in Hs, Ht. subst s t. reflexivity.
  - intros E. rewrite E.
    destruct (float_of_int (500 * accounts_count q)); [| reflexivity].
    cbn [bind]. destruct (float_of_int _); reflexivity.
  - intros E1 E2. rewrite E1, E2.
    destruct (int_truediv (accounts_count q * 10000) 100000); [| reflexivity].
    cbn [bind]. destruct (int_truediv _ _); reflexivity.
Qed.

(** The parts of a report that are computed: everything but the profile it
    carries. *)
Definition computed (report : CostReport F) :=
  (cost_breakdown_services report, cost_breakdown_totals report,
   business_metrics report, recommendations report, risk_analysis report).

(** X12: the name of the organization and the flag [business_hours_only] are
    never read: changing them changes nothing in what the report computes,
    nor whether it is produced. *)
Theorem report_ignores_name_and_business_hours (p : OrganizationProfile F)
    (n : string) (b : bool) :
  let p' := with_name n (with_business_hours_only b p) in
  (r <- generate_cost_report (LandingZoneCostCalculator_new p') ;; Ok (computed r))
  = (r <- generate_cost_report (LandingZoneCostCalculator_new p) ;; Ok (computed r))
  /\ services_of (LandingZoneCostCalculator_new p')
     = services_of (LandingZoneCostCalculator_new p).
Proof.
  cbv zeta. split; [| reflexivity].
  unfold generate_cost_report.
  change (services_of (LandingZoneCostCalculator_new (with_name n (with_business_hours_only b p))))
    with (services_of (LandingZoneCostCalculator_new p)).
  destruct (services_of (LandingZoneCostCalculator_new p)) as [services |]; [| reflexivity].
  cbn [bind].
  change (employees (org_profile (LandingZoneCostCalculator_new
            (with_name n (with_business_hours_only b p)))))
    with (employees (org_profile (LandingZoneCostCalculator_new p))).
  change (accounts_count (org_profile (LandingZoneCostCalculator_new
            (with_name n (with_business_hours_only b p)))))
    with (accounts_count (org_profile (LandingZoneCostCalculator_new p))).
  repeat match goal with
         | |- context [bind ?c _] =>
             match c with
             | bind _ _ => fail 1
             | _ => destruct c; cbn [bind]; [| reflexivity]
             end
         end.
  reflexivity.
Qed.

End Shape.

Section ShapeOnBinary64.
#[local] Existing Instance B64.ops.

(** X1: whenever the report is produced, its breakdown lists the same eight
    services in the same order, each with its tier and its optimization
    potential in percent; the Control Tower entry reads 89.1 a month and
    1069.2 a year whatever the profile; and the report carries the profile
    it was computed from. *)
Theorem report_lists_the_eight_services (p : OrganizationProfile float)
    (report : CostReport float) :
  generate_cost_report (LandingZoneCostCalculator_new p) = Ok report ->
  map (fun e => (entry_name e, entry_optimization_potential_pct e, entry_cost_tier e))
      (cost_breakdown_services report)
  = [("AWS Control Tower", float_lit 0, "enterprise");
     ("Amazon GuardDuty", float_lit 20, "premium");
     ("AWS Config", float_lit 25, "standard");
     ("AWS Transit Gateway", float_lit 30, "standard");
     ("AWS CloudTrail", float_lit 15, "standard");
     ("Amazon CloudWatch", float_lit 40, "standard");
     ("AWS Security Hub", float_lit 10, "premium");
     ("AWS Backup", float_lit 25, "standard")]
  /\ (exists e rest,
        cost_breakdown_services report = e :: rest
        /\ entry_monthly_cost e = float_lit 89.10
        /\ entry_annual_cost e = float_lit 1069.20)
  /\ organization_profile report = p.
Proof.
  intros H.
  destruct (report_shape _ _ H) as (services & Hs & He & Hp & _).
  pose proof (services_listed _ _ Hs) as L.
  pose proof (entries_follow_services _ _ _ He) as E.
  unfold catalogue in L.
  repeat match goal with
         | L : Forall2 _ _ (_ :: _) |- _ => inversion L; clear L; subst
         | L : Forall2 _ _ [] |- _ => inversion L; clear L; subst
         end.
  repeat match goal with
         | E : Forall2 _ _ (_ :: _) |- _ => inversion E; clear E; subst
         | E : Forall2 _ _ [] |- _ => inversion E; clear E; subst
         end.
  unfold listed in *.
  repeat match goal with
         | A : _ /\ _ |- _ => destruct A
         end.
  split; [| split; [| exact Hp]].
  - cbn [map].
    repeat match goal with
           | A : entry_name _ = _ |- _ => rewrite A; clear A
           | A : entry_cost_tier _ = _ |- _ => rewrite A; clear A
           | A : entry_optimization_potential_pct _ = _ |- _ => rewrite A; clear A
           end.
    repeat match goal with
           | A : service_name _ = _ |- _ => rewrite A; clear A
           | A : cost_tier _ = _ |- _ => rewrite A; clear A
           | A : optimization_potential _ = _ |- _ => rewrite A; clear A
           end.
    vm_compute. reflexivity.
  - destruct (control_tower_first _ _ Hs) as (s & rest & Es & Hm & Ha).
    apply (f_equal (@hd_error _)) in Es. cbn [hd_error] in Es.
    apply (f_equal (fun o => match o with Some x => x | None => s end)) in Es.
    subst s.
    eexists. eexists. split; [reflexivity |].
    repeat match goal with
           | A : entry_monthly_cost _ = _ |- _ => rewrite A; clear A
           | A : entry_annual_cost _ = _ |- _ => rewrite A; clear A
           end.
    rewrite Hm, Ha. split; vm_compute; reflexivity.
Qed.

(** X2: with no employee the report is not produced: once the eight
    calculators have returned, the division of the monthly total by
    [employees] raises [ZeroDivisionError]. *)
Theorem report_rejects_zero_employees (p : OrganizationProfile float) :
  employees p = 0%Z ->
  returns (services_of (LandingZoneCostCalculator_new p)) ->
  generate_cost_report (LandingZoneCostCalculator_new p) = Raise ZeroDivisionError.
Proof.
  intros He [services Hs]. unfold generate_cost_report.
  rewrite Hs. cbn [bind org_profile LandingZoneCostCalculator_new].
  rewrite He. reflexivity.
Qed.

(** The example profile with no employee. *)
Lemma zero_employees_example :
  employees (with_employees 0 example_profile) = 0%Z
  /\ returns (services_of (LandingZoneCostCalculator_new (with_employees 0 example_profile)))
  /\ generate_cost_report (LandingZoneCostCalculator_new (with_employees 0 example_profile))
     = Raise ZeroDivisionError.
Proof.
  split; [reflexivity |].
  assert (R : returns (services_of
                         (LandingZoneCostCalculator_new (with_employees 0 example_profile))))
    by (eexists; vm_compute; reflexivity).
  split; [exact R |].
  apply (report_rejects_zero_employees (with_employees 0 example_profile)); [reflexivity | exact R].
Defined.

(** The report of the example profile. *)
Lemma report_lists_example :
  exists report,
    generate_cost_report (LandingZoneCostCalculator_new example_profile) = Ok report
    /\ map entry_name (cost_breakdown_services report)
       = ["AWS Control Tower"; "Amazon GuardDuty"; "AWS Config"; "AWS Transit Gateway";
          "AWS CloudTrail"; "Amazon CloudWatch"; "AWS Security Hub"; "AWS Backup"]
    /\ organization_profile report = example_profile.
Proof.
  eexists. split; [vm_compute; reflexivity |].
  match goal with
  | |- map _ (cost_breakdown_services ?r) = _ /\ _ =>
      destruct (report_lists_the_eight_services example_profile r) as (Hl & _ & Hp);
        [vm_compute; reflexivity |]
  end.
  split; [| exact Hp].
  apply (f_equal (map (fun t => fst (fst t)))) in Hl.
  rewrite map_map in Hl. exact Hl.
Defined.

End ShapeOnBinary64.

(** ** The report in the standard model *)

(** Non-negative counts and a ratio within [0, 1]: what the calculators
    need for their costs to be non-negative.  [employees] and [regions] are
    left free. *)
Definition billable {F : Type} {FO : PyFloat F} (p : OrganizationProfile F) : Prop :=
  (0 <= accounts_count p)%Z
  /\ (0 <= expected_data_gb_monthly p)%Z
  /\ fle (float_lit 0) (development_accounts_ratio p) = true
  /\ fle (development_accounts_ratio p) (float_lit 1) = true.

Section ReportStd.
Variable R : Rounding.
#[local] Hint Extern 0 (PyFloat Q) => exact (Std.ops R) : typeclass_instances.

Ltac nonnegative :=
  repeat first
    [ assumption
    | apply rnd_nonneg
    | apply Qmult_le_0_compat
    | apply add_nonneg
    | apply div_nonneg
    | apply inject_Z_nonneg
    | apply Qtrunc_nonneg
    | reflexivity
    | discriminate
    | nia ].

Lemma rnd_nonzero (x : Q) : ~ x == 0 -> ~ R x == 0.
Proof.
  intros Hx E. pose proof (rnd_err R x) as B.
  apply Qabs_Qle_condition in B. destruct B as [B1 B2].
  rewrite E in B1, B2.
  destruct (Qlt_le_dec x 0) as [N | P].
  - rewrite (Qabs_neg x) in B1, B2 by lra. unfold u in *. lra.
  - rewrite (Qabs_pos x P) in B1, B2. unfold u in *.
    apply Hx. lra.
Qed.

Lemma billable_std (p : OrganizationProfile Q) :
  billable p ->
  0 <= inject_Z (accounts_count p)
  /\ 0 <= inject_Z (expected_data_gb_monthly p)
  /\ 0 <= development_accounts_ratio p
  /\ development_accounts_ratio p <= 1.
Proof.
  intros (Ha & Hd & H0 & H1).
  change (fle (float_lit 0) (development_accounts_ratio p))
    with (Qle_bool (R 0) (development_accounts_ratio p)) in H0.
  change (fle (development_accounts_ratio p) (float_lit 1))
    with (Qle_bool (development_accounts_ratio p) (R 1)) in H1.
  apply Qle_bool_iff in H0, H1.
  rewrite (rnd_zero R 0 (Qeq_refl 0)) in H0. rewrite (rnd_one R) in H1.
  repeat split; try assumption; apply inject_Z_nonneg; assumption.
Qed.

Lemma valid_is_billable (p : OrganizationProfile Q) : valid_profile p -> billable p.
Proof.
  intros (Ha & _ & _ & Hd & H0 & H1). repeat split; try assumption. lia.
Qed.

(** The services of a billable profile: the eight of the catalogue, with
    non-negative costs. *)
Lemma services_billable (p : OrganizationProfile Q) :
  billable p ->
  exists m2 m3 m4 m5 m6 m7 m8 d1 d2 d3 d4 d5 d6 d7 d8,
    services_of (LandingZoneCostCalculator_new p)
    = Ok [service R "AWS Control Tower" (R 89.10) 0.0 "enterprise" d1;
          service R "Amazon GuardDuty" m2 0.20 "premium" d2;
          service R "AWS Config" m3 0.25 "standard" d3;
          service R "AWS Transit Gateway" m4 0.30 "standard" d4;
          service R "AWS CloudTrail" m5 0.15 "standard" d5;
          service R "Amazon CloudWatch" m6 0.40 "standard" d6;
          service R "AWS Security Hub" m7 0.10 "premium" d7;
          service R "AWS Backup" m8 0.25 "standard" d8]
    /\ 0 <= m2 /\ 0 <= m3 /\ 0 <= m4 /\ 0 <= m5 /\ 0 <= m6 /\ 0 <= m7 /\ 0 <= m8.
Proof.
  intros B. destruct (billable_std p B) as (Ha & Hd & H0 & H1).
  do 15 eexists. split; [reflexivity |].
  cbn -[Z.mul Z.add Z.sub Qtrunc].
  destruct B as (Za & Zd & _).
  assert (Zl : (0 <= len (regions p))%Z) by (unfold len; lia).
  assert (Zc : (0 <= len (compliance_requirements p))%Z) by (unfold len; lia).
  assert (S1 : 0 <= 1 - development_accounts_ratio p) by lra.
  assert (S2 : 0 <= R 1 - development_accounts_ratio p) by (rewrite (rnd_one R); exact S1).
  assert (P0 : (0 <= Qtrunc (R (R (inject_Z (accounts_count p))
                                   * R (R 1 - development_accounts_ratio p))%Q))%Z)
    by (apply Qtrunc_nonneg; nonnegative).
  repeat split; nonnegative.
Qed.

Lemma truediv_nonzero (x y : Q) : ~ y == 0 -> ftruediv x y = Ok (R (x / y)).
Proof.
  intros Hy. change (ftruediv x y) with (Std.truediv R x y). unfold Std.truediv.
  destruct (Qeq_bool y 0) eqn:E; [| reflexivity].
  apply Qeq_bool_iff in E. contradiction.
Qed.

Lemma truediv_zero (x y : Q) : y == 0 -> ftruediv x y = Raise ZeroDivisionError.
Proof.
  intros Hy. change (ftruediv x y) with (Std.truediv R x y). unfold Std.truediv.
  destruct (Qeq_bool y 0) eqn:E; [reflexivity |].
  apply Qeq_bool_neq in E. contradiction.
Qed.

Lemma inject_Z_nonzero (n : Z) : n <> 0%Z -> ~ inject_Z n == 0.
Proof.
  intros Hn E. apply Hn. unfold Qeq in E. simpl in E. lia.
Qed.

Lemma ftruediv_int_nonzero (x : Q) (n : Z) :
  n <> 0%Z -> ftruediv_int x n = Ok (R (x / R (inject_Z n))).
Proof.
  intros Hn. unfold ftruediv_int.
  change (float_of_int n) with (Ok (A := Q) (R (inject_Z n))). cbn [bind].
  apply truediv_nonzero, rnd_nonzero, inject_Z_nonzero, Hn.
Qed.

Lemma ftruediv_int_zero (x : Q) : ftruediv_int x 0 = Raise ZeroDivisionError.
Proof.
  unfold ftruediv_int.
  change (float_of_int 0) with (Ok (A := Q) (R (inject_Z 0))). cbn [bind].
  apply truediv_zero, rnd_zero. reflexivity.
Qed.

(** The entry of a service in the breakdown, its share taken. *)
Definition entry_of (total_monthly : Q) (service : ServiceCost Q) : ServiceEntry Q :=
  {| entry_name := service_name service;
     entry_monthly_cost := float_round (monthly_cost service) 2;
     entry_annual_cost := float_round (annual_cost service) 2;
     entry_cost_drivers := cost_drivers service;
     entry_optimization_potential_pct :=
       float_round (optimization_potential service * float_lit 100)%py 1;
     entry_cost_tier := cost_tier service;
     entry_percentage_of_total :=
       float_round (R (monthly_cost service / total_monthly) * float_lit 100)%py 1 |}.

Lemma entries_std (total_monthly : Q) (services : list (ServiceCost Q)) :
  ~ total_monthly == 0 ->
  map_result (service_entry total_monthly) services
  = Ok (map (entry_of total_monthly) services).
Proof.
  intros Ht. induction services as [| s services IH]; [reflexivity |].
  cbn [map_result map]. unfold service_entry at 1.
  rewrite (truediv_nonzero _ _ Ht). cbn [bind]. rewrite IH. reflexivity.
Qed.

(** The report, once the services are known and no divisor is zero. *)
Definition report_of (self : LandingZoneCostCalculator Q) (services : list (ServiceCost Q))
    : CostReport Q :=
  let total_monthly := total_monthly_of services in
  let total_annual := total_annual_of services in
  let optimized_monthly := optimized_monthly_of services in
  let optimized_annual := (optimized_monthly * float_lit 12)%py in
  let potential_savings_monthly := (total_monthly - optimized_monthly)%py in
  let potential_savings_annual := (total_annual - optimized_annual)%py in
  {| organization_profile := org_profile self;
     cost_breakdown_services := map (entry_of total_monthly) services;
     cost_breakdown_totals :=
       {| totals_monthly_cost := float_round total_monthly 2;
          totals_annual_cost := float_round total_annual 2;
          totals_optimized_monthly := float_round optimized_monthly 2;
          totals_optimized_annual := float_round optimized_annual 2;
          potential_savings_monthly := float_round potential_savings_monthly 2;
          potential_savings_annual := float_round potential_savings_annual 2;
          potential_savings_percentage :=
            float_round (R (potential_savings_annual / total_annual) * float_lit 100)%py 1 |};
     business_metrics :=
       {| cost_per_employee_monthly :=
            float_round (R (total_monthly / R (inject_Z (employees (org_profile self))))) 2;
          cost_per_employee_annual :=
            float_round (R (total_annual / R (inject_Z (employees (org_profile self))))) 2;
          cost_per_account_monthly :=
            float_round
              (R (total_monthly / R (inject_Z (accounts_count (org_profile self))))) 2;
          cost_per_account_annual :=
            float_round
              (R (total_annual / R (inject_Z (accounts_count (org_profile self))))) 2 |};
     recommendations := _generate_recommendations self services total_annual;
     risk_analysis := _generate_risk_analysis self total_monthly |}.

Lemma report_std (self : LandingZoneCostCalculator Q) (services : list (ServiceCost Q)) :
  services_of self = Ok services ->
  ~ total_monthly_of services == 0 ->
  ~ total_annual_of services == 0 ->
  employees (org_profile self) <> 0%Z ->
  accounts_count (org_profile self) <> 0%Z ->
  generate_cost_report self = Ok (report_of self services).
Proof.
  intros Hs Hm Ha He Hc. unfold generate_cost_report.
  rewrite Hs. cbn [bind].
  rewrite !ftruediv_int_nonzero by assumption. cbn [bind].
  rewrite (entries_std _ _ Hm). cbn [bind].
  rewrite (truediv_nonzero _ _ Ha). cbn [bind].
  reflexivity.
Qed.

(** The totals of a billable profile are positive. *)
Lemma totals_positive (p : OrganizationProfile Q) :
  billable p ->
  exists services,
    services_of (LandingZoneCostCalculator_new p) = Ok services
    /\ 0 < total_monthly_of services
    /\ 0 < total_annual_of services.
Proof.
  intros B.
  destruct (services_billable p B)
    as (m2 & m3 & m4 & m5 & m6 & m7 & m8 & d1 & d2 & d3 & d4 & d5 & d6 & d7 & d8
        & Hs & H2 & H3 & H4 & H5 & H6 & H7 & H8).
  eexists. split; [exact Hs |].
  unfold total_monthly_of, total_annual_of.
  cbn [map monthly_cost annual_cost service].
  destruct (rnd_lit_bounds R 89.10) as (L1 & U1 & N1); [lra |].
  destruct (annual_term_bounds R (R 89.10) N1) as (A1n & A1l & A1u).
  destruct (annual_term_bounds R m2 H2) as (A2n & A2l & A2u).
  destruct (annual_term_bounds R m3 H3) as (A3n & A3l & A3u).
  destruct (annual_term_bounds R m4 H4) as (A4n & A4l & A4u).
  destruct (annual_term_bounds R m5 H5) as (A5n & A5l & A5u).
  destruct (annual_term_bounds R m6 H6) as (A6n & A6l & A6u).
  destruct (annual_term_bounds R m7 H7) as (A7n & A7l & A7u).
  destruct (annual_term_bounds R m8 H8) as (A8n & A8l & A8u).
  match goal with |- 0 < py_sum ?l /\ _ =>
    pose proof (py_sum_bounds R l) as HM; set (tm := py_sum l) in * end.
  match goal with |- _ /\ 0 < py_sum ?l =>
    pose proof (py_sum_bounds R l) as HA; set (ta := py_sum l) in * end.
  clearbody tm ta.
  cbn [List.length qpow qsum fold_right] in HM, HA.
  destruct HM as (ML & MU & MN); [repeat constructor; assumption |].
  destruct HA as (AL & AU & AN); [repeat constructor; assumption |].
  unfold lo, hi, u in *. split; lra.
Qed.

(** X3: for a billable profile the report is produced exactly when neither
    [employees] nor [accounts_count] is zero; when one of them is, the
    report raises [ZeroDivisionError], although all eight calculators have
    returned. *)
Theorem report_returns_iff_divisors_nonzero (p : OrganizationProfile Q) :
  billable p ->
  calculators_return p
  /\ (returns (generate_cost_report (LandingZoneCostCalculator_new p))
      <-> employees p <> 0%Z /\ accounts_count p <> 0%Z)
  /\ (employees p = 0%Z \/ accounts_count p = 0%Z ->
      generate_cost_report (LandingZoneCostCalculator_new p) = Raise ZeroDivisionError).
Proof.
  intros B. split; [apply calculators_return_std |].
  destruct (totals_positive p B) as (services & Hs & Hm & Ha).
  assert (Nm : ~ total_monthly_of services == 0) by lra.
  assert (Na : ~ total_annual_of services == 0) by lra.
  assert (Z : employees p = 0%Z \/ accounts_count p = 0%Z ->
              generate_cost_report (LandingZoneCostCalculator_new p)
              = Raise ZeroDivisionError).
  { intros Hz. unfold generate_cost_report. rewrite Hs. cbn [bind].
    cbn [org_profile LandingZoneCostCalculator_new].
    destruct (Z.eq_dec (employees p) 0) as [E0 | E0].
    - rewrite E0, ftruediv_int_zero. reflexivity.
    - destruct Hz as [Hz | Hz]; [contradiction |].
      rewrite !ftruediv_int_nonzero by assumption. cbn [bind].
      rewrite (entries_std _ _ Nm). cbn [bind].
      rewrite (truediv_nonzero _ _ Na). cbn [bind].
      rewrite Hz, ftruediv_int_zero. reflexivity. }
  split; [| exact Z].
  split.
  - intros [report Hr].
    destruct (Z.eq_dec (employees p) 0) as [E0 | E0];
      [rewrite Z in Hr by (left; exact E0); discriminate Hr |].
    destruct (Z.eq_dec (accounts_count p) 0) as [A0 | A0];
      [rewrite Z in Hr by (right; exact A0); discriminate Hr |].
    split; assumption.
  - intros [E0 A0]. eexists.
    apply (report_std (LandingZoneCostCalculator_new p) services); assumption.
Qed.

Lemma optimized_term_lower (m c : Q) :
  0 <= m -> 0 <= c -> c <= 1 # 2 ->
  lo * (m * (lo * (1 - hi * c))) <= R (m * R (R 1 - R c)).
Proof.
  intros Hm H0 H1. destruct (rnd_lit_bounds R c H0) as (L & U & N).
  assert (T : 0 <= R 1 - R c).
  { rewrite (rnd_one R). unfold hi, u in U. lra. }
  destruct (rnd_bounds R _ T) as [L' _].
  assert (D : lo * (1 - hi * c) <= R (R 1 - R c)).
  { eapply Qle_trans; [| exact L'].
    apply Qmult_le_l; [unfold lo, u; lra |].
    rewrite (rnd_one R). lra. }
  apply rnd_mul_lo; try assumption; try apply Qle_refl.
  apply lo_times_nonneg. unfold hi, u. lra.
Qed.

(** The relative error allowed to the totals below: 1e-12. *)
Definition eps : Q := 1 # 1000000000000.

(** The three totals of eight non-negative services against the exact
    sums. *)
Lemma totals_close (m1 m2 m3 m4 m5 m6 m7 m8 : Q)
    (d1 d2 d3 d4 d5 d6 d7 d8 : list (line Q)) :
  0 <= m1 -> 0 <= m2 -> 0 <= m3 -> 0 <= m4 -> 0 <= m5 -> 0 <= m6 -> 0 <= m7 -> 0 <= m8 ->
  let services :=
    [service R "AWS Control Tower" m1 0.0 "enterprise" d1;
     service R "Amazon GuardDuty" m2 0.20 "premium" d2;
     service R "AWS Config" m3 0.25 "standard" d3;
     service R "AWS Transit Gateway" m4 0.30 "standard" d4;
     service R "AWS CloudTrail" m5 0.15 "standard" d5;
     service R "Amazon CloudWatch" m6 0.40 "standard" d6;
     service R "AWS Security Hub" m7 0.10 "premium" d7;
     service R "AWS Backup" m8 0.25 "standard" d8] in
  let total := m1 + m2 + m3 + m4 + m5 + m6 + m7 + m8 in
  let kept := m1 + 0.80 * m2 + 0.75 * m3 + 0.70 * m4 + 0.85 * m5 + 0.60 * m6
              + 0.90 * m7 + 0.75 * m8 in
  (1 - eps) * total <= total_monthly_of services
  /\ total_monthly_of services <= (1 + eps) * total
  /\ (1 - eps) * (12 * total) <= total_annual_of services
  /\ total_annual_of services <= (1 + eps) * (12 * total)
  /\ (1 - eps) * kept <= optimized_monthly_of services
  /\ optimized_monthly_of services <= (1 + eps) * kept.
Proof.
  intros H1 H2 H3 H4 H5 H6 H7 H8. cbv zeta.
  unfold total_monthly_of, total_annual_of, optimized_monthly_of.
  cbn [map monthly_cost annual_cost optimization_potential service].
  change (float_lit 1) with (R 1).
  destruct (annual_term_bounds R m1 H1) as (A1n & A1l & A1u).
  destruct (annual_term_bounds R m2 H2) as (A2n & A2l & A2u).
  destruct (annual_term_bounds R m3 H3) as (A3n & A3l & A3u).
  destruct (annual_term_bounds R m4 H4) as (A4n & A4l & A4u).
  destruct (annual_term_bounds R m5 H5) as (A5n & A5l & A5u).
  destruct (annual_term_bounds R m6 H6) as (A6n & A6l & A6u).
  destruct (annual_term_bounds R m7 H7) as (A7n & A7l & A7u).
  destruct (annual_term_bounds R m8 H8) as (A8n & A8l & A8u).
  destruct (optimized_term_bounds R m1 0.0 H1) as (O1n & O1u); [lra | lra |].
  destruct (optimized_term_bounds R m2 0.20 H2) as (O2n & O2u); [lra | lra |].
  destruct (optimized_term_bounds R m3 0.25 H3) as (O3n & O3u); [lra | lra |].
  destruct (optimized_term_bounds R m4 0.30 H4) as (O4n & O4u); [lra | lra |].
  destruct (optimized_term_bounds R m5 0.15 H5) as (O5n & O5u); [lra | lra |].
  destruct (optimized_term_bounds R m6 0.40 H6) as (O6n & O6u); [lra | lra |].
  destruct (optimized_term_bounds R m7 0.10 H7) as (O7n & O7u); [lra | lra |].
  destruct (optimized_term_bounds R m8 0.25 H8) as (O8n & O8u); [lra | lra |].
  pose proof (optimized_term_lower m1 0.0 H1) as O1l.
  pose proof (optimized_term_lower m2 0.20 H2) as O2l.
  pose proof (optimized_term_lower m3 0.25 H3) as O3l.
  pose proof (optimized_term_lower m4 0.30 H4) as O4l.
  pose proof (optimized_term_lower m5 0.15 H5) as O5l.
  pose proof (optimized_term_lower m6 0.40 H6) as O6l.
  pose proof (optimized_term_lower m7 0.10 H7) as O7l.
  pose proof (optimized_term_lower m8 0.25 H8) as O8l.
  match goal with |- _ <= py_sum ?l /\ _ =>
    pose proof (py_sum_bounds R l) as HM; set (tm := py_sum l) in * end.
  match goal with |- _ /\ _ /\ _ <= py_sum ?l /\ _ =>
    pose proof (py_sum_bounds R l) as HA; set (ta := py_sum l) in * end.
  match goal with |- _ /\ _ /\ _ /\ _ /\ _ <= py_sum ?l /\ _ =>
    pose proof (py_sum_bounds R l) as HO; set (om := py_sum l) in * end.
  clearbody tm ta om.
  cbn [List.length qpow qsum fold_right] in HM, HA, HO.
  destruct HM as (ML & MU & MN); [repeat constructor; assumption |].
  destruct HA as (AL & AU & AN); [repeat constructor; assumption |].
  destruct HO as (OL & OU & ON); [repeat constructor; assumption |].
  cbn [fmul fsub Std.ops] in OL, OU.
  unfold eps, lo, hi, u in *.
  specialize (O1l ltac:(lra) ltac:(lra)).
  specialize (O2l ltac:(lra) ltac:(lra)).
  specialize (O3l ltac:(lra) ltac:(lra)).
  specialize (O4l ltac:(lra) ltac:(lra)).
  specialize (O5l ltac:(lra) ltac:(lra)).
  specialize (O6l ltac:(lra) ltac:(lra)).
  specialize (O7l ltac:(lra) ltac:(lra)).
  specialize (O8l ltac:(lra) ltac:(lra)).
  repeat split; lra.
Qed.

Lemma div_le (x y c : Q) : 0 < y -> x <= c * y -> x / y <= c.
Proof.
  intros Hy H. apply Qle_shift_div_r; assumption.
Qed.

Lemma le_div (x y c : Q) : 0 < y -> c * y <= x -> c <= x / y.
Proof.
  intros Hy H. apply Qle_shift_div_l; assumption.
Qed.

(** [round(x, 1)] is a number of tenths, the nearest to [x]. *)
Lemma round_1_tenths (x : Q) (a b : Z) :
  inject_Z a - (1 # 2) < x * 10 -> x * 10 < inject_Z b + (1 # 2) ->
  exists k : Z, float_round x 1 = R (k # 10) /\ (a <= k <= b)%Z.
Proof.
  intros Ha Hb. exists (round_half_even (x * 10)). split; [reflexivity |].
  pose proof (round_half_even_err (x * 10)) as E.
  apply Qabs_Qle_condition in E. destruct E as [E1 E2].
  split.
  - assert (A : inject_Z a - 1 < inject_Z (round_half_even (x * 10))) by lra.
    assert (A' : inject_Z (a - 1) < inject_Z (round_half_even (x * 10))).
    { unfold Zminus. rewrite inject_Z_plus, inject_Z_opp. exact A. }
    rewrite <- Zlt_Qlt in A'. lia.
  - assert (B : inject_Z (round_half_even (x * 10)) < inject_Z b + 1) by lra.
    assert (B' : inject_Z (round_half_even (x * 10)) < inject_Z (b + 1)).
    { rewrite inject_Z_plus. exact B. }
    rewrite <- Zlt_Qlt in B'. lia.
Qed.

(** X4: the optimized monthly total keeps between 60% and 90% of the monthly
    total, and the savings percentage of the report is a number of tenths
    between 10.0 and 40.0. *)
Theorem savings_between_10_and_40_percent (p : OrganizationProfile Q) :
  valid_profile p ->
  exists services report k,
    services_of (LandingZoneCostCalculator_new p) = Ok services
    /\ generate_cost_report (LandingZoneCostCalculator_new p) = Ok report
    /\ (599999999 # 1000000000) * total_monthly_of services <= optimized_monthly_of services
    /\ optimized_monthly_of services <= (900000001 # 1000000000) * total_monthly_of services
    /\ potential_savings_percentage (cost_breakdown_totals report) = R (k # 10)
    /\ (100 <= k <= 400)%Z.
Proof.
  intros V.
  destruct (services_std R p V)
    as (m2 & m3 & m4 & m5 & m6 & m7 & m8 & d1 & d2 & d3 & d4 & d5 & d6 & d7 & d8
        & Hs & H2 & H3 & H4 & H5 & H6 & H7 & H8).
  destruct (rnd_lit_bounds R 89.10) as (L1 & U1 & N1); [lra |].
  assert (H4' : 0 <= m4) by lra.
  pose proof (totals_close (R 89.10) m2 m3 m4 m5 m6 m7 m8
                d1 d2 d3 d4 d5 d6 d7 d8 N1 H2 H3 H4' H5 H6 H7 H8) as T.
  cbv zeta in T.
  match type of Hs with _ = Ok ?l => set (services := l) in * end.
  destruct T as (ML & MU & AL & AU & OL & OU).
  set (tm := total_monthly_of services) in *.
  set (ta := total_annual_of services) in *.
  set (om := optimized_monthly_of services) in *.
  assert (Pm : 0 < tm) by (unfold eps, lo, u in *; lra).
  assert (Pa : 0 < ta) by (unfold eps, lo, u in *; lra).
  assert (Po : 0 <= om) by (unfold eps, lo, u in *; lra).
  destruct V as (Za & Ze & _).
  assert (Hr : generate_cost_report (LandingZoneCostCalculator_new p)
               = Ok (report_of (LandingZoneCostCalculator_new p) services)).
  { apply report_std.
    - exact Hs.
    - fold tm. intros E. rewrite E in Pm. discriminate Pm.
    - fold ta. intros E. rewrite E in Pa. discriminate Pa.
    - cbn [org_profile LandingZoneCostCalculator_new]. lia.
    - cbn [org_profile LandingZoneCostCalculator_new]. lia. }
  destruct (annual_term_bounds R om Po) as (OAn & OAl & OAu).
  set (oa := R (om * R 12)) in *.
  assert (D0 : 0 <= ta - oa) by (unfold eps, lo, hi, u in *; lra).
  destruct (rnd_bounds R _ D0) as (SL & SU).
  set (psa := R (ta - oa)) in *.
  assert (QL : (996 # 10000) <= psa / ta)
    by (apply le_div; [exact Pa | unfold eps, lo, hi, u in *; lra]).
  assert (QU : psa / ta <= (4004 # 10000))
    by (apply div_le; [exact Pa | unfold eps, lo, hi, u in *; lra]).
  assert (Q0 : 0 <= psa / ta) by lra.
  destruct (rnd_bounds R _ Q0) as (RL & RU).
  destruct (rnd_lit_bounds R 100) as (CL & CU & CN); [lra |].
  pose proof (rnd_mul_lo R (R (psa / ta)) (lo * (996 # 10000)) (R 100) (lo * 100)) as XL.
  pose proof (rnd_mul_hi R (R (psa / ta)) (hi * (4004 # 10000)) (R 100) (hi * 100)) as XU.
  unfold lo, hi, u in RL, RU, CL, CU, XL, XU.
  specialize (XL ltac:(lra) ltac:(lra) ltac:(lra) ltac:(lra)).
  specialize (XU ltac:(lra) ltac:(lra) ltac:(lra) ltac:(lra)).
  destruct (round_1_tenths (R (R (psa / ta) * R 100)) 100 400) as (k & Hk & Kb);
    [change (inject_Z 100) with 100; unfold lo, u in XL; lra
    |change (inject_Z 400) with 400; unfold hi, u in XU; lra |].
  exists services, (report_of (LandingZoneCostCalculator_new p) services), k.
  split; [exact Hs |]. split; [exact Hr |].
  fold tm om.
  split; [unfold eps in *; lra |]. split; [unfold eps, hi, u in *; lra |].
  split; [exact Hk | exact Kb].
Qed.

Lemma between_integers (z a b : Z) :
  inject_Z a - 1 < inject_Z z -> inject_Z z < inject_Z b + 1 -> (a <= z <= b)%Z.
Proof.
  intros A B. split.
  - assert (A' : inject_Z (a - 1) < inject_Z z).
    { unfold Zminus. rewrite inject_Z_plus, inject_Z_opp. exact A. }
    rewrite <- Zlt_Qlt in A'. lia.
  - assert (B' : inject_Z z < inject_Z (b + 1)).
    { rewrite inject_Z_plus. exact B. }
    rewrite <- Zlt_Qlt in B'. lia.
Qed.

(** [round(x, 1)] is within 0.05 of [x]. *)
Lemma round_1_near (x : Q) :
  exists k : Z,
    float_round x 1 = R (k # 10)
    /\ x * 10 - (1 # 2) <= inject_Z k
    /\ inject_Z k <= x * 10 + (1 # 2).
Proof.
  exists (round_half_even (x * 10)). split; [reflexivity |].
  pose proof (round_half_even_err (x * 10)) as E.
  apply Qabs_Qle_condition in E. destruct E as [E1 E2]. split; lra.
Qed.

(** A share of the total, in percent, before [round]. *)
Lemma share_percent (q : Q) :
  0 <= q ->
  lo * (lo * q * (lo * 100)) <= R (R q * R 100)
  /\ R (R q * R 100) <= hi * (hi * q * (hi * 100)).
Proof.
  intros Hq. destruct (rnd_lit_bounds R q Hq) as (Lq & Uq & Nq).
  destruct (rnd_lit_bounds R 100) as (Lc & Uc & Nc); [lra |].
  pose proof (lo_times_nonneg q Hq).
  split; [apply rnd_mul_lo | apply rnd_mul_hi]; try assumption.
  unfold lo, u. lra.
Qed.

(** X5: the eight percentages of the breakdown are numbers of tenths between
    0.0 and 100.0, and they add up to 100 within 0.4. *)
Theorem percentages_add_up_to_100 (p : OrganizationProfile Q) :
  valid_profile p ->
  exists report ks,
    generate_cost_report (LandingZoneCostCalculator_new p) = Ok report
    /\ map entry_percentage_of_total (cost_breakdown_services report)
       = map (fun k : Z => R (k # 10)) ks
    /\ List.length ks = 8%nat
    /\ Forall (fun k => 0 <= k <= 1000)%Z ks
    /\ (996 <= fold_right Z.add 0 ks <= 1004)%Z.
Proof.
  intros V.
  destruct (services_std R p V)
    as (m2 & m3 & m4 & m5 & m6 & m7 & m8 & d1 & d2 & d3 & d4 & d5 & d6 & d7 & d8
        & Hs & H2 & H3 & H4 & H5 & H6 & H7 & H8).
  destruct (rnd_lit_bounds R 89.10) as (L1 & U1 & N1); [lra |].
  assert (H4' : 0 <= m4) by lra.
  pose proof (totals_close (R 89.10) m2 m3 m4 m5 m6 m7 m8
                d1 d2 d3 d4 d5 d6 d7 d8 N1 H2 H3 H4' H5 H6 H7 H8) as T.
  cbv zeta in T.
  match type of Hs with _ = Ok ?l => set (services := l) in * end.
  destruct T as (ML & MU & AL & AU & _ & _).
  set (tm := total_monthly_of services) in *.
  set (ta := total_annual_of services) in *.
  assert (Pm : 0 < tm) by (unfold eps, lo, u in *; lra).
  assert (Pa : 0 < ta) by (unfold eps, lo, u in *; lra).
  destruct V as (Za & Ze & _).
  assert (Hr : generate_cost_report (LandingZoneCostCalculator_new p)
               = Ok (report_of (LandingZoneCostCalculator_new p) services)).
  { apply report_std.
    - exact Hs.
    - fold tm. intros E. rewrite E in Pm. discriminate Pm.
    - fold ta. intros E. rewrite E in Pa. discriminate Pa.
    - cbn [org_profile LandingZoneCostCalculator_new]. lia.
    - cbn [org_profile LandingZoneCostCalculator_new]. lia. }
  set (m1 := R 89.10) in *.
  assert (SL : 1 - 2 * eps <= (m1 + m2 + m3 + m4 + m5 + m6 + m7 + m8) / tm)
    by (apply le_div; [exact Pm | unfold eps in *; lra]).
  assert (SU : (m1 + m2 + m3 + m4 + m5 + m6 + m7 + m8) / tm <= 1 + 2 * eps)
    by (apply div_le; [exact Pm | unfold eps in *; lra]).
  assert (SE : m1 / tm + m2 / tm + m3 / tm + m4 / tm + m5 / tm + m6 / tm + m7 / tm + m8 / tm
               == (m1 + m2 + m3 + m4 + m5 + m6 + m7 + m8) / tm)
    by (unfold Qdiv; ring).
  assert (Q1 : 0 <= m1 / tm) by (apply div_nonneg; assumption).
  assert (Q2 : 0 <= m2 / tm) by (apply div_nonneg; assumption).
  assert (Q3 : 0 <= m3 / tm) by (apply div_nonneg; assumption).
  assert (Q4 : 0 <= m4 / tm) by (apply div_nonneg; assumption).
  assert (Q5 : 0 <= m5 / tm) by (apply div_nonneg; assumption).
  assert (Q6 : 0 <= m6 / tm) by (apply div_nonneg; assumption).
  assert (Q7 : 0 <= m7 / tm) by (apply div_nonneg; assumption).
  assert (Q8 : 0 <= m8 / tm) by (apply div_nonneg; assumption).
  destruct (share_percent _ Q1) as (X1l & X1u).
  destruct (share_percent _ Q2) as (X2l & X2u).
  destruct (share_percent _ Q3) as (X3l & X3u).
  destruct (share_percent _ Q4) as (X4l & X4u).
  destruct (share_percent _ Q5) as (X5l & X5u).
  destruct (share_percent _ Q6) as (X6l & X6u).
  destruct (share_percent _ Q7) as (X7l & X7u).
  destruct (share_percent _ Q8) as (X8l & X8u).
  destruct (round_1_near (R (R (m1 / tm) * R 100))) as (k1 & E1 & K1l & K1u).
  destruct (round_1_near (R (R (m2 / tm) * R 100))) as (k2 & E2 & K2l & K2u).
  destruct (round_1_near (R (R (m3 / tm) * R 100))) as (k3 & E3 & K3l & K3u).
  destruct (round_1_near (R (R (m4 / tm) * R 100))) as (k4 & E4 & K4l & K4u).
  destruct (round_1_near (R (R (m5 / tm) * R 100))) as (k5 & E5 & K5l & K5u).
  destruct (round_1_near (R (R (m6 / tm) * R 100))) as (k6 & E6 & K6l & K6u).
  destruct (round_1_near (R (R (m7 / tm) * R 100))) as (k7 & E7 & K7l & K7u).
  destruct (round_1_near (R (R (m8 / tm) * R 100))) as (k8 & E8 & K8l & K8u).
  exists (report_of (LandingZoneCostCalculator_new p) services),
    [k1; k2; k3; k4; k5; k6; k7; k8].
  split; [exact Hr |].
  split.
  { cbn [report_of cost_breakdown_services map services entry_of entry_percentage_of_total
         monthly_cost service].
    fold services tm.
    change (float_lit 100) with (R 100). cbn [fmul Std.ops].
    rewrite E1, E2, E3, E4, E5, E6, E7, E8. reflexivity. }
  split; [reflexivity |].
  set (q1 := m1 / tm) in *. set (q2 := m2 / tm) in *. set (q3 := m3 / tm) in *.
  set (q4 := m4 / tm) in *. set (q5 := m5 / tm) in *. set (q6 := m6 / tm) in *.
  set (q7 := m7 / tm) in *. set (q8 := m8 / tm) in *.
  clearbody q1 q2 q3 q4 q5 q6 q7 q8.
  rewrite <- SE in SL, SU.
  unfold eps, lo, hi, u in *.
  split.
  - repeat (apply Forall_cons;
            [apply between_integers;
             change (inject_Z 0) with 0; change (inject_Z 1000) with 1000; lra |]).
    apply Forall_nil.
  - cbn [fold_right]. apply between_integers.
    + rewrite !inject_Z_plus. change (inject_Z 0) with 0. change (inject_Z 996) with 996. lra.
    + rewrite !inject_Z_plus. change (inject_Z 0) with 0. change (inject_Z 1004) with 1004. lra.
Qed.

End ReportStd.

Section RiskStd.
Variable R : Rounding.
#[local] Hint Extern 0 (PyFloat Q) => exact (Std.ops R) : typeclass_instances.

Ltac nonnegative :=
  repeat first
    [ assumption
    | apply rnd_nonneg
    | apply Qmult_le_0_compat
    | apply add_nonneg
    | apply div_nonneg
    | apply inject_Z_nonneg
    | apply Qtrunc_nonneg
    | reflexivity
    | discriminate
    | nia ].

(** A sum of two non-negative floats is at least [1 - u] times each. *)
Lemma sum_at_least (x y : Q) :
  0 <= x -> 0 <= y -> lo * (x + y) <= R (x + y) /\ 0 <= R (x + y).
Proof.
  intros Hx Hy. assert (N : 0 <= x + y) by lra.
  destruct (rnd_bounds R _ N) as [L _]. split; [exact L | apply rnd_nonneg, N].
Qed.

Lemma services_at_least (p : OrganizationProfile Q) :
  valid_profile p ->
  exists m2 m3 m4 m5 m6 m7 m8 d1 d2 d3 d4 d5 d6 d7 d8,
    services_of (LandingZoneCostCalculator_new p)
    = Ok [service R "AWS Control Tower" (R 89.10) 0.0 "enterprise" d1;
          service R "Amazon GuardDuty" m2 0.20 "premium" d2;
          service R "AWS Config" m3 0.25 "standard" d3;
          service R "AWS Transit Gateway" m4 0.30 "standard" d4;
          service R "AWS CloudTrail" m5 0.15 "standard" d5;
          service R "Amazon CloudWatch" m6 0.40 "standard" d6;
          service R "AWS Security Hub" m7 0.10 "premium" d7;
          service R "AWS Backup" m8 0.25 "standard" d8]
    /\ 15.59 * inject_Z (accounts_count p) <= m2
    /\ 7.49 * inject_Z (accounts_count p) <= m3
    /\ 71.9 * inject_Z (accounts_count p) <= m4
    /\ 67.49 <= m5
    /\ 7.88 * inject_Z (accounts_count p) <= m6
    /\ 0.029 * inject_Z (accounts_count p) <= m7
    /\ 1.79 * inject_Z (accounts_count p) <= m8.
Proof.
  intros V. destruct (valid_profile_std R p V) as (Ha & He & Hr & Hd & H0 & H1).
  do 15 eexists. split; [reflexivity |].
  cbn -[Z.mul Z.add Z.sub Qtrunc].
  destruct V as (Za & Ze & Zr & Zd & _).
  assert (Zl : (1 <= len (regions p))%Z).
  { unfold len. destruct (regions p); [congruence | cbn [List.length]; lia]. }
  assert (Zc : (0 <= len (compliance_requirements p))%Z) by (unfold len; lia).
  set (a := accounts_count p) in *.
  set (d := expected_data_gb_monthly p) in *.
  clearbody a d.
  repeat split.
  - destruct (price_times_count R 15.60 a) as (X0 & XL & _); [lra | lia |].
    lazymatch goal with |- _ <= rnd R (rnd R (?x + ?y) + ?z) =>
      assert (Y0 : 0 <= y) by nonnegative; assert (Z0 : 0 <= z) by nonnegative;
      destruct (sum_at_least x y X0 Y0) as (S1 & N1);
      destruct (sum_at_least (R (x + y)) z N1 Z0) as (S2 & _)
    end.
    unfold lo, u in *. lra.
  - destruct (count_times_price R (500 * a) 0.003) as (X0 & XL & _); [lra | lia |].
    destruct (count_times_price R (a * 50 * 4 * 30) 0.001) as (Y0 & YL & _); [lra | lia |].
    lazymatch goal with |- _ <= rnd R (?x + ?y) => destruct (sum_at_least x y X0 Y0) as (S1 & _) end.
    assert (E1 : inject_Z (500 * a) == 500 * inject_Z a)
      by (rewrite inject_Z_mult; reflexivity).
    assert (E2 : inject_Z (a * 50 * 4 * 30) == 6000 * inject_Z a)
      by (rewrite !inject_Z_mult; ring).
    unfold lo, u in *. lra.
  - change (inject_Z (24 * 30)) with 720.
    destruct (count_times_price R (a * 2 * len (regions p)) 0.05) as (X0 & XL & _);
      [lra | nia |].
    destruct (rnd_lit_bounds R 720) as (CL & _ & CN); [lra |].
    assert (T2 : 2 * inject_Z a <= inject_Z (a * 2 * len (regions p))).
    { change 2 with (inject_Z 2). rewrite <- inject_Z_mult, <- Zle_Qle. nia. }
    pose proof (rnd_mul_lo R
                  (R (R (inject_Z (a * 2 * len (regions p))) * R 0.05))
                  (lo * (lo * (2 * inject_Z a) * (lo * 0.05))) (R 720) (lo * 720)) as AL.
    lazymatch goal with |- _ <= rnd R (?x + ?y) =>
      assert (A0 : 0 <= x) by nonnegative; assert (Y0 : 0 <= y) by nonnegative;
      destruct (sum_at_least x y A0 Y0) as (S1 & _)
    end.
    unfold lo, u in *.
    specialize (AL ltac:(lra) ltac:(lra) ltac:(lra) ltac:(lra)).
    lra.
  - destruct (rnd_lit_bounds R 67.50) as (CL & _ & CN); [lra |].
    lazymatch goal with |- _ <= rnd R (rnd R (?x + ?y) + ?z) =>
      assert (Y0 : 0 <= y) by nonnegative; assert (Z0 : 0 <= z) by nonnegative;
      destruct (sum_at_least x y CN Y0) as (S1 & N1);
      destruct (sum_at_least (R (x + y)) z N1 Z0) as (S2 & _)
    end.
    unfold lo, u in *. lra.
  - destruct (price_times_count R 7.89 a) as (X0 & XL & _); [lra | lia |].
    lazymatch goal with |- _ <= rnd R (rnd R (?x + ?y) + ?z) =>
      assert (Y0 : 0 <= y) by nonnegative; assert (Z0 : 0 <= z) by nonnegative;
      destruct (sum_at_least x y X0 Y0) as (S1 & N1);
      destruct (sum_at_least (R (x + y)) z N1 Z0) as (S2 & _)
    end.
    unfold lo, u in *. lra.
  - destruct (per_100k R (a * 10000)) as (Q0 & QL & _); [lia |].
    pose proof (value_times_price_lo R (R (inject_Z (a * 10000) / inject_Z 100000))
                  (lo * (inject_Z (a * 10000) * (1 # 100000))) 0.30) as XL.
    assert (E1 : inject_Z (a * 10000) == 10000 * inject_Z a)
      by (rewrite inject_Z_mult; ring).
    lazymatch goal with |- _ <= rnd R (?x + ?y) =>
      assert (X0 : 0 <= x) by nonnegative; assert (Y0 : 0 <= y) by nonnegative;
      destruct (sum_at_least x y X0 Y0) as (S1 & _)
    end.
    unfold lo, u in *.
    specialize (XL ltac:(lra) ltac:(lra) ltac:(lra)).
    lra.
  - set (v := R (R (inject_Z a) * R (R 1 - development_accounts_ratio p))).
    assert (V0 : 0 <= v).
    { unfold v. apply rnd_mul_nonneg; [apply rnd_nonneg; lra |].
      apply rnd_nonneg. rewrite (rnd_one R). lra. }
    pose proof (Qtrunc_nonneg v V0) as P0.
    set (s := (Qtrunc v * 100 + (a - Qtrunc v) * 30)%Z).
    assert (ZS : (30 * a <= s)%Z) by (unfold s; lia).
    assert (QS : 30 * inject_Z a <= inject_Z s).
    { change 30 with (inject_Z 30). rewrite <- inject_Z_mult, <- Zle_Qle. exact ZS. }
    destruct (count_times_price R s 0.05) as (X0 & XL & _); [lra | lia |].
    destruct (count_times_price R s 0.5) as (G0 & GL & _); [lra | lia |].
    pose proof (value_times_price_lo R (R (R (inject_Z s) * R 0.5))
                  (lo * (lo * inject_Z s * (lo * 0.5))) 0.02) as YL.
    lazymatch goal with |- _ <= rnd R (?x + ?y) =>
      assert (Y0 : 0 <= y) by nonnegative;
      destruct (sum_at_least x y X0 Y0) as (S1 & _)
    end.
    unfold lo, u in *.
    specialize (YL ltac:(lra) ltac:(lra) ltac:(lra)).
    lra.
Qed.

(** From 18 accounts on, the monthly total of a valid profile is above
    2000. *)
Lemma high_spend_from_18_accounts (p : OrganizationProfile Q) :
  valid_profile p ->
  (18 <= accounts_count p)%Z ->
  exists services,
    services_of (LandingZoneCostCalculator_new p) = Ok services
    /\ generate_cost_report (LandingZoneCostCalculator_new p)
       = Ok (report_of R (LandingZoneCostCalculator_new p) services)
    /\ 2000 < total_monthly_of services
    /\ spend_triggered (total_monthly_of services) = true.
Proof.
  intros V H18.
  destruct (services_at_least p V)
    as (m2 & m3 & m4 & m5 & m6 & m7 & m8 & d1 & d2 & d3 & d4 & d5 & d6 & d7 & d8
        & Hs & H2 & H3 & H4 & H5 & H6 & H7 & H8).
  destruct (valid_profile_std R p V) as (Ha & _).
  assert (A18 : 18 <= inject_Z (accounts_count p)).
  { change 18 with (inject_Z 18). rewrite <- Zle_Qle. exact H18. }
  destruct (rnd_lit_bounds R 89.10) as (L1 & U1 & N1); [lra |].
  destruct (rnd_lit_bounds R 2000) as (_ & U2 & _); [lra |].
  pose proof (totals_close R (R 89.10) m2 m3 m4 m5 m6 m7 m8
                d1 d2 d3 d4 d5 d6 d7 d8) as T.
  cbv zeta in T.
  match type of Hs with _ = Ok ?l => set (services := l) in * end.
  destruct T as (ML & MU & AL & AU & _ & _); try lra.
  set (tm := total_monthly_of services) in *.
  set (ta := total_annual_of services) in *.
  assert (Pm : hi * 2000 < tm) by (unfold eps, lo, hi, u in *; lra).
  assert (Pa : 0 < ta) by (unfold eps, lo, hi, u in *; lra).
  destruct V as (Za & Ze & _).
  exists services. split; [exact Hs |].
  split.
  { apply report_std.
    - exact Hs.
    - fold tm. intros E. rewrite E in Pm. unfold hi, u in Pm. lra.
    - fold ta. intros E. rewrite E in Pa. discriminate Pa.
    - cbn [org_profile LandingZoneCostCalculator_new]. lia.
    - cbn [org_profile LandingZoneCostCalculator_new]. lia. }
  fold tm.
  split; [unfold hi, u in Pm; lra |].
  unfold spend_triggered. apply fgt_lt. change (float_lit 2000) with (R 2000).
  unfold hi, u in *. lra.
Qed.

(** X6: from 18 accounts on, the report of a valid profile carries the factor
    [high_monthly_spend] and its risk level is not low; with more than 50
    accounts, where [account_sprawl] is added, the level is high. *)
Theorem eighteen_accounts_mean_high_spend (p : OrganizationProfile Q) :
  valid_profile p ->
  (18 <= accounts_count p)%Z ->
  exists services report,
    services_of (LandingZoneCostCalculator_new p) = Ok services
    /\ generate_cost_report (LandingZoneCostCalculator_new p) = Ok report
    /\ 2000 < total_monthly_of services
    /\ In high_monthly_spend (risk_factors (risk_analysis report))
    /\ risk_level (risk_analysis report) <> "low"
    /\ ((50 < accounts_count p)%Z ->
        In account_sprawl (risk_factors (risk_analysis report))
        /\ risk_level (risk_analysis report) = "high").
Proof.
  intros V H18.
  destruct (high_spend_from_18_accounts p V H18) as (services & Hs & Hr & Hm & Sp).
  exists services, (report_of R (LandingZoneCostCalculator_new p) services).
  split; [exact Hs |]. split; [exact Hr |]. split; [exact Hm |].
  cbn [risk_analysis report_of].
  rewrite risk_level_shape, risk_factors_shape. unfold triggered. rewrite Sp.
  cbn [org_profile LandingZoneCostCalculator_new].
  split; [left; reflexivity |].
  split.
  - destruct (regions_triggered p); destruct (sprawl_triggered p); discriminate.
  - intros H50.
    assert (St : sprawl_triggered p = true) by (unfold sprawl_triggered; apply Z.gtb_lt; lia).
    rewrite St. split.
    + apply in_or_app. right. apply in_or_app. right. left. reflexivity.
    + destruct (regions_triggered p); reflexivity.
Qed.

End RiskStd.

(** ** The accounts and the storage of the backup calculator *)

Section BackupTerms.
Context {F : Type} {FO : PyFloat F}.
Variable self : LandingZoneCostCalculator F.

(** [prod_accounts] and [backup_storage_gb] of the Backup calculator *)
Definition backup_prod_accounts : result Z :=
  prod_share <- int_fmul (accounts_count (org_profile self))
                         (float_lit 1 - development_accounts_ratio (org_profile self))%py ;;
  float_to_int prod_share.

Definition backup_storage_gb : result Z :=
  prod_accounts <- backup_prod_accounts ;;
  let dev_accounts := (accounts_count (org_profile self) - prod_accounts)%Z in
  Ok (prod_accounts * 100 + dev_accounts * 30)%Z.

Lemma backup_monthly_terms :
  monthly_of (calculate_backup_costs self)
  = (backup_storage_gb <- backup_storage_gb ;;
     storage_cost <- int_fmul backup_storage_gb (AWS_BACKUP_STORAGE_PER_GB_MONTH (pricing self)) ;;
     cross_region_gb <- int_fmul backup_storage_gb (float_lit 0.5) ;;
     Ok (storage_cost
         + cross_region_gb * AWS_BACKUP_CROSS_REGION_COPY_PER_GB (pricing self))%py).
Proof.
  unfold monthly_of, calculate_backup_costs, backup_storage_gb, backup_prod_accounts,
    int_fmul.
  destruct (float_of_int (accounts_count (org_profile self))) as [share |]; [| reflexivity].
  cbn [bind]. destruct (float_to_int _) as [prod |]; [| reflexivity].
  cbn [bind]. destruct (float_of_int _) as [storage |]; reflexivity.
Qed.

End BackupTerms.

Section BackupStd.
Variable R : Rounding.
#[local] Hint Extern 0 (PyFloat Q) => exact (Std.ops R) : typeclass_instances.

(** X7: with at most 10^15 accounts, the production accounts of a valid
    profile are the accounts times [1 - ratio], truncated (up to the
    rounding of the product); production and development accounts are
    both between 0 and the number of accounts; the storage is between 30
    and 100 GB per account and the monthly cost between 1.79 and 6.01 per
    account. *)
Theorem backup_storage_between_30_and_100_gb (p : OrganizationProfile Q) :
  valid_profile p ->
  (accounts_count p <= 10 ^ 15)%Z ->
  let self := LandingZoneCostCalculator_new p in
  let a := accounts_count p in
  let share := inject_Z a * (1 - development_accounts_ratio p) in
  exists prod_accounts storage_gb monthly,
    backup_prod_accounts self = Ok prod_accounts
    /\ backup_storage_gb self = Ok storage_gb
    /\ monthly_of (calculate_backup_costs self) = Ok monthly
    /\ (1 - eps) * share - 1 < inject_Z prod_accounts
    /\ inject_Z prod_accounts <= (1 + eps) * share
    /\ (0 <= prod_accounts <= a)%Z
    /\ (0 <= a - prod_accounts <= a)%Z
    /\ storage_gb = (30 * a + 70 * prod_accounts)%Z
    /\ (30 * a <= storage_gb <= 100 * a)%Z
    /\ 1.79 * inject_Z a <= monthly
    /\ monthly <= 6.01 * inject_Z a.
Proof.
  intros V Hb. cbv zeta.
  destruct (valid_profile_std R p V) as (Ha & _ & _ & _ & H0 & H1).
  destruct V as (Za & _).
  rewrite backup_monthly_terms.
  unfold backup_storage_gb, backup_prod_accounts.
  do 3 eexists. split; [reflexivity |]. split; [reflexivity |]. split; [reflexivity |].
  cbn -[Z.mul Z.add Z.sub Z.pow Qtrunc].
  set (a := accounts_count p) in *.
  set (r := development_accounts_ratio p) in *.
  set (c := R (R 1 - r)).
  assert (T : 0 <= R 1 - r) by (rewrite (rnd_one R); lra).
  destruct (rnd_bounds R _ T) as [CL CU]. fold c in CL, CU.
  rewrite (rnd_one R) in CL, CU.
  assert (C0 : 0 <= c) by (apply rnd_nonneg, T).
  destruct (rnd_lit_bounds R (inject_Z a)) as (AL & AU & A0); [lra |].
  set (v := R (R (inject_Z a) * c)).
  assert (A15 : inject_Z a <= 1000000000000000).
  { change 1000000000000000 with (inject_Z (10 ^ 15)). rewrite <- Zle_Qle. exact Hb. }
  assert (S0 : 0 <= inject_Z a * (1 - r)) by (apply Qmult_le_0_compat; lra).
  assert (V0 : 0 <= v) by (apply rnd_mul_nonneg; assumption).
  assert (VU : v <= hi * (hi * inject_Z a * (hi * (1 - r)))).
  { apply rnd_mul_hi; assumption. }
  assert (VL : lo * (lo * inject_Z a * (lo * (1 - r))) <= v).
  { apply rnd_mul_lo; try assumption.
    - apply lo_times_nonneg. lra.
    - apply lo_times_nonneg. lra. }
  assert (VU' : v <= (1 + eps) * (inject_Z a * (1 - r))).
  { eapply Qle_trans; [exact VU |].
    setoid_replace (hi * (hi * inject_Z a * (hi * (1 - r))))
      with (hi * hi * hi * (inject_Z a * (1 - r))) by ring.
    apply Qmult_le_compat_r; [unfold eps, hi, u; lra | exact S0]. }
  assert (VL' : (1 - eps) * (inject_Z a * (1 - r)) <= v).
  { eapply Qle_trans; [| exact VL].
    setoid_replace (lo * (lo * inject_Z a * (lo * (1 - r))))
      with (lo * lo * lo * (inject_Z a * (1 - r))) by ring.
    apply Qmult_le_compat_r; [unfold eps, lo, u; lra | exact S0]. }
  assert (VA : v < inject_Z a + 1).
  { assert (X : inject_Z a * (1 - r) <= inject_Z a).
    { setoid_replace (inject_Z a) with (inject_Z a * 1) at 2 by ring.
      rewrite (Qmult_comm (inject_Z a) (1 - r)), (Qmult_comm (inject_Z a) 1).
      apply Qmult_le_compat_r; lra. }
    assert (VU3 : v <= hi * hi * hi * (inject_Z a * (1 - r))).
    { eapply Qle_trans; [exact VU |].
      setoid_replace (hi * (hi * inject_Z a * (hi * (1 - r))))
        with (hi * hi * hi * (inject_Z a * (1 - r))) by ring.
      apply Qle_refl. }
    unfold hi, u in VU3. lra. }
  pose proof (Qtrunc_nonneg v V0) as P0.
  pose proof (Qtrunc_le v V0) as PV.
  assert (PL : v - 1 < inject_Z (Qtrunc v)).
  { rewrite (Qtrunc_floor v V0). pose proof (Qlt_floor v) as Fl.
    rewrite inject_Z_plus in Fl. change (inject_Z 1) with 1 in Fl. lra. }
  assert (PA : (Qtrunc v <= a)%Z).
  { assert (Lt : inject_Z (Qtrunc v) < inject_Z (a + 1)).
    { rewrite inject_Z_plus. change (inject_Z 1) with 1. lra. }
    rewrite <- Zlt_Qlt in Lt. lia. }
  set (prod := Qtrunc v) in *.
  set (s := (prod * 100 + (a - prod) * 30)%Z).
  assert (ZS : (30 * a <= s <= 100 * a)%Z) by (unfold s; lia).
  assert (QSl : 30 * inject_Z a <= inject_Z s).
  { change 30 with (inject_Z 30). rewrite <- inject_Z_mult, <- Zle_Qle. lia. }
  assert (QSu : inject_Z s <= 100 * inject_Z a).
  { change 100 with (inject_Z 100). rewrite <- inject_Z_mult, <- Zle_Qle. lia. }
  destruct (count_times_price R s 0.05) as (X0 & XL & XU); [lra | lia |].
  destruct (count_times_price R s 0.5) as (G0 & GL & GU); [lra | lia |].
  destruct (value_times_price R _ _ 0.02 G0 GU) as (Y0 & YU); [lra |].
  pose proof (value_times_price_lo R (R (R (inject_Z s) * R 0.5))
                (lo * (lo * inject_Z s * (lo * 0.5))) 0.02) as YL.
  assert (N : 0 <= R (R (inject_Z s) * R 0.05) + R (R (R (inject_Z s) * R 0.5) * R 0.02))
    by lra.
  destruct (rnd_bounds R _ N) as (ML & MU).
  split; [lra |]. split; [lra |].
  split; [lia |]. split; [lia |]. split; [unfold s; lia |]. split; [lia |].
  unfold lo, hi, u in *.
  specialize (YL ltac:(lra) ltac:(lra) ltac:(lra)).
  split; lra.
Qed.

End BackupStd.

(** ** More data, more regions, more frameworks *)

Section Growth.
Context {F : Type} {FO : PyFloat F}.

(** The monthly cost of calculator [calc] is strictly higher for [p'] than
    for [p]. *)
Definition costs_more
    (calc : LandingZoneCostCalculator F -> result (ServiceCost F))
    (p p' : OrganizationProfile F) : Prop :=
  exists m m',
    monthly_of (calc (LandingZoneCostCalculator_new p)) = Ok m
    /\ monthly_of (calc (LandingZoneCostCalculator_new p')) = Ok m'
    /\ fgt m' m = true.

(** Calculator [calc] returns the same for [p'] as for [p]. *)
Definition costs_the_same
    (calc : LandingZoneCostCalculator F -> result (ServiceCost F))
    (p p' : OrganizationProfile F) : Prop :=
  calc (LandingZoneCostCalculator_new p') = calc (LandingZoneCostCalculator_new p).

(** Calculator [calc] returns the same figures for [p'] as for [p]; the
    cost drivers may differ. *)
Definition same_figures
    (calc : LandingZoneCostCalculator F -> result (ServiceCost F))
    (p p' : OrganizationProfile F) : Prop :=
  figures_of (calc (LandingZoneCostCalculator_new p'))
  = figures_of (calc (LandingZoneCostCalculator_new p)).

(** The third cost driver of the Config calculator. *)
Definition frameworks_driver (n : Z) : line F :=
  [Literal "Compliance monitoring across "; Integer n; Literal " frameworks"].

End Growth.

Section GrowthStd.
Variable R : Rounding.
#[local] Hint Extern 0 (PyFloat Q) => exact (Std.ops R) : typeclass_instances.

Lemma sum3_grows (x y z x' y' z' : Q) :
  0 <= x -> 0 <= y -> 0 <= z -> 0 <= x' -> 0 <= y' -> 0 <= z' ->
  hi * (hi * (x + y) + z) < lo * (lo * (x' + y') + z') ->
  R (R (x + y) + z) < R (R (x' + y') + z').
Proof.
  intros Hx Hy Hz Hx' Hy' Hz' H.
  destruct (sum_at_least R x y Hx Hy) as (_ & N).
  destruct (sum_at_least R x' y' Hx' Hy') as (L' & N').
  assert (S : 0 <= x + y) by lra.
  destruct (rnd_bounds R _ S) as (_ & U).
  apply rnd_lt; [lra | lra |].
  unfold lo, hi, u in *. lra.
Qed.

Lemma sum2_grows (x y x' y' : Q) :
  0 <= x -> 0 <= y -> 0 <= x' -> 0 <= y' ->
  hi * (x + y) < lo * (x' + y') ->
  R (x + y) < R (x' + y').
Proof.
  intros Hx Hy Hx' Hy' H. apply rnd_lt; [lra | lra | exact H].
Qed.

Section DoublingData.
Variable p : OrganizationProfile Q.
Hypothesis valid : valid_profile p.
Hypothesis some_data : (1 <= expected_data_gb_monthly p)%Z.
Hypothesis bounded_accounts :
  (accounts_count p * len (regions p) <= 10 ^ 9 * expected_data_gb_monthly p)%Z.

Let p' : OrganizationProfile Q := with_data (2 * expected_data_gb_monthly p) p.

Lemma accounts_bound_Q :
  inject_Z (accounts_count p * 2 * len (regions p))
  <= 2000000000 * inject_Z (expected_data_gb_monthly p)
  /\ inject_Z (accounts_count p) <= 1000000000 * inject_Z (expected_data_gb_monthly p)
  /\ 1 <= inject_Z (expected_data_gb_monthly p).
Proof.
  destruct valid as (Za & _ & Zr & Zd & _).
  assert (Zl : (1 <= len (regions p))%Z).
  { unfold len. destruct (regions p); [congruence | cbn [List.length]; lia]. }
  change 2000000000 with (inject_Z (2 * 10 ^ 9)).
  change 1000000000 with (inject_Z (10 ^ 9)).
  change 1 with (inject_Z 1).
  rewrite <- !inject_Z_mult, <- !Zle_Qle. repeat split; nia.
Qed.

Lemma guardduty_data_doubling : costs_more calculate_guardduty_costs p p'.
Proof.
  destruct accounts_bound_Q as (_ & Hb & Hd).
  destruct valid as (Za & _ & _ & Zd & _).
  unfold costs_more. eexists. eexists.
  split; [reflexivity |]. split; [reflexivity |].
  apply fgt_lt. cbn -[Z.mul Z.add Z.sub Qtrunc].
  set (a := accounts_count p) in *. set (d := expected_data_gb_monthly p) in *.
  clearbody a d.
  destruct (price_times_count R 15.60 a) as (X0 & _ & XU); [lra | lia |].
  destruct (per_100k R (d * 100)) as (Q0 & _ & QU); [lia |].
  destruct (per_100k R (2 * d * 100)) as (Q0' & QL' & _); [lia |].
  destruct (value_times_price R _ _ 0.10 Q0 QU) as (Y0 & YU); [lra |].
  pose proof (value_times_price_lo R (R (inject_Z (2 * d * 100) / inject_Z 100000))
                (lo * (inject_Z (2 * d * 100) * (1 # 100000))) 0.10) as YL'.
  destruct (count_times_price R d 0.50) as (Z0 & _ & ZU); [lra | lia |].
  destruct (count_times_price R (2 * d) 0.50) as (Z0' & ZL' & _); [lra | lia |].
  assert (E1 : inject_Z (d * 100) == 100 * inject_Z d) by (rewrite inject_Z_mult; ring).
  assert (E2 : inject_Z (2 * d * 100) == 200 * inject_Z d) by (rewrite !inject_Z_mult; ring).
  assert (E3 : inject_Z (2 * d) == 2 * inject_Z d) by (rewrite inject_Z_mult; ring).
  assert (Y0' : 0 <= R (R (inject_Z (2 * d * 100) / inject_Z 100000) * R 0.10))
    by (apply rnd_mul_nonneg; [assumption | apply rnd_nonneg; lra]).
  apply sum3_grows; try assumption.
  unfold lo, hi, u in *.
  specialize (YL' ltac:(lra) ltac:(lra) ltac:(lra)).
  lra.
Qed.

Lemma transit_gateway_data_doubling : costs_more calculate_transit_gateway_costs p p'.
Proof.
  destruct accounts_bound_Q as (Hb & _ & Hd).
  destruct valid as (Za & _ & Zr & Zd & _).
  assert (Zl : (1 <= len (regions p))%Z).
  { unfold len. destruct (regions p); [congruence | cbn [List.length]; lia]. }
  unfold costs_more. eexists. eexists.
  split; [reflexivity |]. split; [reflexivity |].
  apply fgt_lt. cbn -[Z.mul Z.add Z.sub Qtrunc].
  change (inject_Z (24 * 30)) with 720.
  set (T := (accounts_count p * 2 * len (regions p))%Z) in *.
  assert (ZT : (0 <= T)%Z) by (unfold T; nia).
  set (d := expected_data_gb_monthly p) in *.
  clearbody T d.
  destruct (count_times_price R T 0.05) as (X0 & _ & XU); [lra | lia |].
  destruct (value_times_price R _ _ 720 X0 XU) as (A0 & AU); [lra |].
  destruct (count_times_price R d 0.7) as (G0 & _ & GU); [lra | lia |].
  destruct (count_times_price R (2 * d) 0.7) as (G0' & GL' & _); [lra | lia |].
  destruct (value_times_price R _ _ 0.02 G0 GU) as (D0 & DU); [lra |].
  pose proof (value_times_price_lo R (R (R (inject_Z (2 * d)) * R 0.7))
                (lo * (lo * inject_Z (2 * d) * (lo * 0.7))) 0.02) as DL'.
  assert (E3 : inject_Z (2 * d) == 2 * inject_Z d) by (rewrite inject_Z_mult; ring).
  assert (D0' : 0 <= R (R (R (inject_Z (2 * d)) * R 0.7) * R 0.02))
    by (apply rnd_mul_nonneg; [assumption | apply rnd_nonneg; lra]).
  apply sum2_grows; try assumption.
  unfold lo, hi, u in *.
  specialize (DL' ltac:(lra) ltac:(lra) ltac:(lra)).
  lra.
Qed.

Lemma cloudtrail_data_doubling : costs_more calculate_cloudtrail_costs p p'.
Proof.
  destruct accounts_bound_Q as (_ & _ & Hd).
  destruct valid as (Za & _ & _ & Zd & _).
  unfold costs_more. eexists. eexists.
  split; [reflexivity |]. split; [reflexivity |].
  apply fgt_lt. cbn -[Z.mul Z.add Z.sub Qtrunc].
  set (d := expected_data_gb_monthly p) in *.
  clearbody d.
  destruct (rnd_lit_bounds R 67.50) as (_ & BU & B0); [lra |].
  destruct (per_100k R (d * 50)) as (Q0 & _ & QU); [lia |].
  destruct (per_100k R (2 * d * 50)) as (Q0' & QL' & _); [lia |].
  destruct (value_times_price R _ _ 0.10 Q0 QU) as (Y0 & YU); [lra |].
  destruct (value_times_price R _ _ 0.35 Q0 QU) as (I0 & IU); [lra |].
  destruct (value_times_price R _ _ 0.1 I0 IU) as (Z0 & ZU); [lra |].
  pose proof (value_times_price_lo R (R (inject_Z (2 * d * 50) / inject_Z 100000))
                (lo * (inject_Z (2 * d * 50) * (1 # 100000))) 0.10) as YL'.
  pose proof (value_times_price_lo R (R (inject_Z (2 * d * 50) / inject_Z 100000))
                (lo * (inject_Z (2 * d * 50) * (1 # 100000))) 0.35) as IL'.
  pose proof (value_times_price_lo R
                (R (R (inject_Z (2 * d * 50) / inject_Z 100000) * R 0.35))
                (lo * (lo * (inject_Z (2 * d * 50) * (1 # 100000)) * (lo * 0.35))) 0.1) as ZL'.
  assert (E1 : inject_Z (d * 50) == 50 * inject_Z d) by (rewrite inject_Z_mult; ring).
  assert (E2 : inject_Z (2 * d * 50) == 100 * inject_Z d) by (rewrite !inject_Z_mult; ring).
  assert (Y0' : 0 <= R (R (inject_Z (2 * d * 50) / inject_Z 100000) * R 0.10))
    by (apply rnd_mul_nonneg; [assumption | apply rnd_nonneg; lra]).
  assert (I0' : 0 <= R (R (inject_Z (2 * d * 50) / inject_Z 100000) * R 0.35))
    by (apply rnd_mul_nonneg; [assumption | apply rnd_nonneg; lra]).
  assert (Z0' : 0 <= R (R (R (inject_Z (2 * d * 50) / inject_Z 100000) * R 0.35) * R 0.1))
    by (apply rnd_mul_nonneg; [assumption | apply rnd_nonneg; lra]).
  apply sum3_grows; try assumption.
  unfold lo, hi, u in *.
  specialize (YL' ltac:(lra) ltac:(lra) ltac:(lra)).
  specialize (IL' ltac:(lra) ltac:(lra) ltac:(lra)).
  specialize (ZL' ltac:(lra) ltac:(lra) ltac:(lra)).
  lra.
Qed.

Lemma cloudwatch_data_doubling : costs_more calculate_cloudwatch_costs p p'.
Proof.
  destruct accounts_bound_Q as (_ & Hb & Hd).
  destruct valid as (Za & _ & _ & Zd & _).
  unfold costs_more. eexists. eexists.
  split; [reflexivity |]. split; [reflexivity |].
  apply fgt_lt. cbn -[Z.mul Z.add Z.sub Qtrunc].
  change (inject_Z 6) with 6.
  set (a := accounts_count p) in *. set (d := expected_data_gb_monthly p) in *.
  clearbody a d.
  destruct (price_times_count R 7.89 a) as (B0 & _ & BU); [lra | lia |].
  destruct (count_times_price R d 0.3) as (L0 & _ & LU); [lra | lia |].
  destruct (count_times_price R (2 * d) 0.3) as (L0' & LL' & _); [lra | lia |].
  destruct (value_times_price R _ _ 0.50 L0 LU) as (I0 & IU); [lra |].
  destruct (value_times_price R _ _ 6 L0 LU) as (M0 & MU); [lra |].
  destruct (value_times_price R _ _ 0.03 M0 MU) as (S0 & SU); [lra |].
  pose proof (value_times_price_lo R (R (R (inject_Z (2 * d)) * R 0.3))
                (lo * (lo * inject_Z (2 * d) * (lo * 0.3))) 0.50) as IL'.
  pose proof (value_times_price_lo R (R (R (inject_Z (2 * d)) * R 0.3))
                (lo * (lo * inject_Z (2 * d) * (lo * 0.3))) 6) as ML'.
  pose proof (value_times_price_lo R (R (R (R (inject_Z (2 * d)) * R 0.3) * R 6))
                (lo * (lo * (lo * inject_Z (2 * d) * (lo * 0.3)) * (lo * 6))) 0.03) as SL'.
  assert (E3 : inject_Z (2 * d) == 2 * inject_Z d) by (rewrite inject_Z_mult; ring).
  assert (I0' : 0 <= R (R (R (inject_Z (2 * d)) * R 0.3) * R 0.50))
    by (apply rnd_mul_nonneg; [assumption | apply rnd_nonneg; lra]).
  assert (M0' : 0 <= R (R (R (inject_Z (2 * d)) * R 0.3) * R 6))
    by (apply rnd_mul_nonneg; [assumption | apply rnd_nonneg; lra]).
  assert (S0' : 0 <= R (R (R (R (inject_Z (2 * d)) * R 0.3) * R 6) * R 0.03))
    by (apply rnd_mul_nonneg; [assumption | apply rnd_nonneg; lra]).
  apply sum3_grows; try assumption.
  unfold lo, hi, u in *.
  specialize (IL' ltac:(lra) ltac:(lra) ltac:(lra)).
  specialize (ML' ltac:(lra) ltac:(lra) ltac:(lra)).
  specialize (SL' ltac:(lra) ltac:(lra) ltac:(lra)).
  lra.
Qed.

(** X8: with at least 1 GB a month and at most 10^9 accounts times
    regions per GB (and nothing overflowing), doubling the data volume
    strictly raises the monthly cost of GuardDuty, Transit Gateway,
    CloudTrail and CloudWatch, and leaves Control Tower, Config, Security
    Hub and Backup as they are. *)
Theorem doubling_data_scales_costs :
  costs_more calculate_guardduty_costs p p'
  /\ costs_more calculate_transit_gateway_costs p p'
  /\ costs_more calculate_cloudtrail_costs p p'
  /\ costs_more calculate_cloudwatch_costs p p'
  /\ costs_the_same calculate_control_tower_costs p p'
  /\ costs_the_same calculate_config_costs p p'
  /\ costs_the_same calculate_security_hub_costs p p'
  /\ costs_the_same calculate_backup_costs p p'.
Proof.
  split; [exact guardduty_data_doubling |].
  split; [exact transit_gateway_data_doubling |].
  split; [exact cloudtrail_data_doubling |].
  split; [exact cloudwatch_data_doubling |].
  repeat split; reflexivity.
Qed.

End DoublingData.
Section OneMore.
Variable p : OrganizationProfile Q.
Hypothesis valid : valid_profile p.
Hypothesis bounded_data :
  (expected_data_gb_monthly p <= 10 ^ 15 * accounts_count p)%Z.
Hypothesis bounded_regions : (len (regions p) <= 10 ^ 6)%Z.
Hypothesis bounded_frameworks : (len (compliance_requirements p) <= 10 ^ 6)%Z.

Lemma len_cons {A : Type} (x : A) (xs : list A) : len (x :: xs) = (len xs + 1)%Z.
Proof. unfold len. cbn [List.length]. lia. Qed.

Lemma one_more_region (region : string) :
  costs_more calculate_transit_gateway_costs p (with_regions (region :: regions p) p).
Proof.
  destruct valid as (Za & _ & Zr & Zd & _).
  assert (Zl : (1 <= len (regions p))%Z).
  { unfold len. destruct (regions p); [congruence | cbn [List.length]; lia]. }
  unfold costs_more. eexists. eexists.
  split; [reflexivity |]. split; [reflexivity |].
  apply fgt_lt. cbn -[Z.mul Z.add Z.sub Qtrunc len].
  change (inject_Z (24 * 30)) with 720.
  rewrite len_cons.
  set (a := accounts_count p) in *. set (d := expected_data_gb_monthly p) in *.
  set (r := len (regions p)) in *.
  clearbody a d r.
  assert (Ha : 1 <= inject_Z a) by (change 1 with (inject_Z 1); rewrite <- Zle_Qle; lia).
  assert (Hr : 1 <= inject_Z r) by (change 1 with (inject_Z 1); rewrite <- Zle_Qle; lia).
  assert (Hd : 0 <= inject_Z d) by (apply inject_Z_nonneg; lia).
  assert (Bd : inject_Z d <= 1000000000000000 * inject_Z a).
  { change 1000000000000000 with (inject_Z (10 ^ 15)).
    rewrite <- inject_Z_mult, <- Zle_Qle. exact bounded_data. }
  assert (ET : inject_Z (a * 2 * (r + 1)) == inject_Z (a * 2 * r) + 2 * inject_Z a).
  { rewrite !inject_Z_mult, inject_Z_plus. ring. }
  assert (BT : inject_Z (a * 2 * r) <= 2000000 * inject_Z a).
  { change 2000000 with (inject_Z (2 * 10 ^ 6)).
    rewrite <- inject_Z_mult, <- Zle_Qle. nia. }
  assert (T0 : 0 <= inject_Z (a * 2 * r)) by (apply inject_Z_nonneg; nia).
  destruct (count_times_price R (a * 2 * r) 0.05) as (X0 & _ & XU); [lra | nia |].
  destruct (count_times_price R (a * 2 * (r + 1)) 0.05) as (X0' & XL' & _); [lra | nia |].
  destruct (value_times_price R _ _ 720 X0 XU) as (A0 & AU); [lra |].
  pose proof (value_times_price_lo R (R (R (inject_Z (a * 2 * (r + 1))) * R 0.05))
                (lo * (lo * inject_Z (a * 2 * (r + 1)) * (lo * 0.05))) 720) as AL'.
  destruct (count_times_price R d 0.7) as (G0 & _ & GU); [lra | lia |].
  destruct (value_times_price R _ _ 0.02 G0 GU) as (D0 & DU); [lra |].
  assert (A0' : 0 <= R (R (R (inject_Z (a * 2 * (r + 1))) * R 0.05) * R 720))
    by (apply rnd_mul_nonneg; [assumption | apply rnd_nonneg; lra]).
  apply sum2_lt; try assumption.
  unfold lo, hi, u in *.
  specialize (AL' ltac:(lra) ltac:(lra) ltac:(lra)).
  lra.
Qed.

Lemma one_more_framework (framework : string) :
  costs_more calculate_security_hub_costs p
    (with_frameworks (framework :: compliance_requirements p) p).
Proof.
  destruct valid as (Za & _).
  assert (Zc : (0 <= len (compliance_requirements p))%Z) by (unfold len; lia).
  unfold costs_more. eexists. eexists.
  split; [reflexivity |]. split; [reflexivity |].
  apply fgt_lt. cbn -[Z.mul Z.add Z.sub Qtrunc len].
  rewrite len_cons.
  set (a := accounts_count p) in *.
  set (n := len (compliance_requirements p)) in *.
  clearbody a n.
  assert (Ha : 1 <= inject_Z a) by (change 1 with (inject_Z 1); rewrite <- Zle_Qle; lia).
  assert (EK : inject_Z (a * (n + 1) * 1000) == inject_Z (a * n * 1000) + 1000 * inject_Z a).
  { rewrite !inject_Z_mult, inject_Z_plus. ring. }
  assert (BK : inject_Z (a * n * 1000) <= 1000000000 * inject_Z a).
  { change 1000000000 with (inject_Z (10 ^ 9)).
    rewrite <- inject_Z_mult, <- Zle_Qle. nia. }
  assert (K0 : 0 <= inject_Z (a * n * 1000)) by (apply inject_Z_nonneg; nia).
  assert (E1 : inject_Z (a * 10000) == 10000 * inject_Z a) by (rewrite inject_Z_mult; ring).
  destruct (per_100k R (a * 10000)) as (F0 & _ & FU); [lia |].
  destruct (per_100k R (a * n * 1000)) as (C0 & _ & CU); [nia |].
  destruct (per_100k R (a * (n + 1) * 1000)) as (C0' & CL' & _); [nia |].
  destruct (value_times_price R _ _ 0.30 F0 FU) as (I0 & IU); [lra |].
  destruct (value_times_price R _ _ 0.10 C0 CU) as (J0 & JU); [lra |].
  pose proof (value_times_price_lo R (R (inject_Z (a * (n + 1) * 1000) / inject_Z 100000))
                (lo * (inject_Z (a * (n + 1) * 1000) * (1 # 100000))) 0.10) as JL'.
  assert (J0' : 0 <= R (R (inject_Z (a * (n + 1) * 1000) / inject_Z 100000) * R 0.10))
    by (apply rnd_mul_nonneg; [assumption | apply rnd_nonneg; lra]).
  apply sum2_grows; try assumption.
  unfold lo, hi, u in *.
  specialize (JL' ltac:(lra) ltac:(lra) ltac:(lra)).
  lra.
Qed.

(** X9: one more region, whatever its name, strictly raises the Transit
    Gateway cost and changes no other calculator; one more compliance
    framework, whatever its name and even if it is listed already,
    strictly raises the Security Hub cost, leaves the figures of Config as
    they are while its third cost driver counts one framework more, and
    changes no other calculator. *)
Theorem one_more_region_or_framework (item : string) :
  let more_regions := with_regions (item :: regions p) p in
  let more_frameworks := with_frameworks (item :: compliance_requirements p) p in
  costs_more calculate_transit_gateway_costs p more_regions
  /\ costs_the_same calculate_control_tower_costs p more_regions
  /\ costs_the_same calculate_guardduty_costs p more_regions
  /\ costs_the_same calculate_config_costs p more_regions
  /\ costs_the_same calculate_cloudtrail_costs p more_regions
  /\ costs_the_same calculate_cloudwatch_costs p more_regions
  /\ costs_the_same calculate_security_hub_costs p more_regions
  /\ costs_the_same calculate_backup_costs p more_regions
  /\ costs_more calculate_security_hub_costs p more_frameworks
  /\ costs_the_same calculate_control_tower_costs p more_frameworks
  /\ costs_the_same calculate_guardduty_costs p more_frameworks
  /\ same_figures calculate_config_costs p more_frameworks
  /\ (exists service service',
        calculate_config_costs (LandingZoneCostCalculator_new p) = Ok service
        /\ calculate_config_costs (LandingZoneCostCalculator_new more_frameworks)
           = Ok service'
        /\ nth_error (cost_drivers service) 2
           = Some (frameworks_driver (len (compliance_requirements p)))
        /\ nth_error (cost_drivers service') 2
           = Some (frameworks_driver (len (compliance_requirements p) + 1)))
  /\ costs_the_same calculate_transit_gateway_costs p more_frameworks
  /\ costs_the_same calculate_cloudtrail_costs p more_frameworks
  /\ costs_the_same calculate_cloudwatch_costs p more_frameworks
  /\ costs_the_same calculate_backup_costs p more_frameworks.
Proof.
  cbv zeta.
  split; [apply one_more_region |].
  do 7 (split; [reflexivity |]).
  split; [apply one_more_framework |].
  do 3 (split; [reflexivity |]).
  split.
  { eexists. eexists. split; [reflexivity |]. split; [reflexivity |].
    split; [reflexivity |].
    cbn [nth_error cost_drivers].
    rewrite <- (len_cons item (compliance_requirements p)). reflexivity. }
  repeat split; reflexivity.
Qed.

End OneMore.

End GrowthStd.

(** ** The summary printed by [print_summary_report]

    Each [print] call is kept as the pieces of its f-string: the literal
    text and, for every replacement field, the value with its format
    specification.  Turning a piece into characters is Python's [format],
    which is not part of the script. *)

Section Summary.
Context {F : Type} {FO : PyFloat F}.

(** [chr(10)], the newline of the script's string literals *)
Definition newline : string := String (ascii_of_nat 10) EmptyString.

(** [s * n] on a string *)
Fixpoint str_times (s : string) (n : nat) : string :=
  match n with
  | O => EmptyString
  | S n' => s ++ str_times s n'
  end.

(** [str.upper] on ASCII letters *)
Definition upper_ascii (c : ascii) : ascii :=
  let n := nat_of_ascii c in
  if ((97 <=? n) && (n <=? 122))%nat then ascii_of_nat (n - 32) else c.

Fixpoint upper (s : string) : string :=
  match s with
  | EmptyString => EmptyString
  | String c s' => String (upper_ascii c) (upper s')
  end.

(** [enumerate(xs, start)] *)
Fixpoint enumerate {A : Type} (xs : list A) (start : Z) : list (Z * A) :=
  match xs with
  | [] => []
  | x :: xs' => (start, x) :: enumerate xs' (start + 1)
  end.

(** The line printed for each service of the breakdown. *)
Definition service_line (service : ServiceEntry F) : line F :=
  [Literal "  "; FieldLeft (entry_name service) 25;
   Literal " $"; FixedPoint (entry_monthly_cost service) false 8 2;
   Literal "/mo  $"; FixedPoint (entry_annual_cost service) false 10 2;
   Literal "/yr  ("; FixedPoint (entry_percentage_of_total service) false 4 1;
   Literal "%)"].

(** The two lines printed for each of the top recommendations. *)
Definition recommendation_title_line (i : Z) (rec : Recommendation F) : line F :=
  [Literal "  "; Integer i; Literal ". "; Field (title rec)].

Definition recommendation_lines (numbered : Z * Recommendation F) : list (line F) :=
  let '(i, rec) := numbered in
  let savings := estimated_savings_annual rec in
  [recommendation_title_line i rec;
   [Literal "     Potential savings: $"; FixedPoint savings true 0 0;
    Literal "/year | Effort: "; Field (implementation_effort rec)]].

Definition top_recommendations (report : CostReport F) : list (line F) :=
  flat_map recommendation_lines (enumerate (firstn 3 (recommendations report)) 1).

(** The line printed for each of the risks shown. *)
Definition risk_factor_line (factor : RiskFactor) : line F :=
  [Literal "  ‚Ä¢ "; Field (risk_description factor)].

Definition risk_icon (risk : RiskAnalysis) : string :=
  if String.eqb (risk_level risk) "high" then "üî¥"
  else if String.eqb (risk_level risk) "medium" then "üü°"
  else "üü¢".

Definition risk_assessment (report : CostReport F) : list (line F) :=
  let risk := risk_analysis report in
  [[Literal newline; Field (risk_icon risk); Literal " RISK ASSESSMENT: ";
    Field (upper (risk_level risk))]]
  ++ match risk_factors risk with
     | [] => []
     | _ :: _ => map risk_factor_line (firstn 2 (risk_factors risk))
     end.

(** [print_summary_report]: the lines printed, in order. *)
Definition print_summary_report (report : CostReport F) : list (line F) :=
  let org := organization_profile report in
  let totals := cost_breakdown_totals report in
  let business := business_metrics report in
  [[Literal (newline ++ str_times "=" 80)];
   [Literal "AWS ENTERPRISE LANDING ZONE - COST ANALYSIS"];
   [Literal (str_times "=" 80)];
   [Literal (newline ++ "üìä ORGANIZATION PROFILE")];
   [Literal "Name: "; Field (name org)];
   [Literal "Accounts: "; Integer (accounts_count org);
    Literal " | Employees: "; Integer (employees org);
    Literal " | Regions: "; Integer (len (regions org))];
   [Literal "Compliance: "; Field (String.concat ", " (compliance_requirements org))];
   [Literal (newline ++ "üí∞ COST SUMMARY")];
   [Literal "Monthly Cost: $"; FixedPoint (totals_monthly_cost totals) true 0 2];
   [Literal "Annual Cost:  $"; FixedPoint (totals_annual_cost totals) true 0 2];
   [Literal "Cost per Employee/Year: $";
    FixedPoint (cost_per_employee_annual business) true 0 2];
   [Literal "Cost per Account/Month: $";
    FixedPoint (cost_per_account_monthly business) true 0 2];
   [Literal (newline ++ "üéØ OPTIMIZATION POTENTIAL")];
   [Literal "Optimized Monthly: $"; FixedPoint (totals_optimized_monthly totals) true 0 2];
   [Literal "Optimized Annual:  $"; FixedPoint (totals_optimized_annual totals) true 0 2];
   [Literal "Potential Savings: $"; FixedPoint (potential_savings_annual totals) true 0 2;
    Literal " ("; Number (potential_savings_percentage totals); Literal "%)"];
   [Literal (newline ++ "üîç SERVICE BREAKDOWN")]]
  ++ map service_line (cost_breakdown_services report)
  ++ [[Literal (newline ++ "üí° TOP RECOMMENDATIONS")]]
  ++ top_recommendations report
  ++ risk_assessment report
  ++ [[Literal (newline ++ str_times "=" 80)]].

(** *** What the summary shows of the recommendations *)

(** A recommendation's title line is printed only in the block of the top
    recommendations. *)
Lemma title_line_only_among_top (report : CostReport F) (i : Z) (rec : Recommendation F) :
  In (recommendation_title_line i rec) (print_summary_report report) ->
  In (recommendation_title_line i rec) (top_recommendations report).
Proof.
  unfold print_summary_report. intros H.
  apply in_app_or in H. destruct H as [H | H].
  { simpl in H. repeat (destruct H as [H | H]; [discriminate H |]). contradiction. }
  apply in_app_or in H. destruct H as [H | H].
  { apply in_map_iff in H. destruct H as (e & E & _). discriminate E. }
  apply in_app_or in H. destruct H as [H | H].
  { simpl in H. destruct H as [H | H]; [discriminate H | contradiction]. }
  apply in_app_or in H. destruct H as [H | H]; [exact H |].
  apply in_app_or in H. destruct H as [H | H].
  - unfold risk_assessment in H. apply in_app_or in H. destruct H as [H | H].
    + simpl in H. destruct H as [H | H]; [discriminate H | contradiction].
    + destruct (risk_factors (risk_analysis report)); [contradiction |].
      apply in_map_iff in H. destruct H as (f & E & _). discriminate E.
  - simpl in H. destruct H as [H | H]; [discriminate H | contradiction].
Qed.

(** X13: the summary prints the first three recommendations of the report: the
    two fixed ones, then the budget-controls one with more than 20
    accounts, and the PCI one only with "pci-dss" listed and at most 20
    accounts.  With more than 20 accounts and "pci-dss" listed, the PCI
    recommendation is in the report and no line of the summary carries its
    title. *)
Theorem summary_shows_three_recommendations (self : LandingZoneCostCalculator F)
    (report : CostReport F) :
  generate_cost_report self = Ok report ->
  let many := (accounts_count (org_profile self) >? 20)%Z in
  let pci := existsb (String.eqb "pci-dss") (compliance_requirements (org_profile self)) in
  exists services,
    services_of self = Ok services
    /\ let total_annual := total_annual_of services in
    top_recommendations report
    = recommendation_lines (1%Z, transit_reserved_rule total_annual)
      ++ recommendation_lines (2%Z, log_retention_rule total_annual)
      ++ (if many then recommendation_lines (3%Z, budget_controls_rule total_annual)
          else if pci then recommendation_lines (3%Z, pci_scope_rule total_annual)
          else [])
    /\ (many = true -> pci = true ->
        In (pci_scope_rule total_annual) (recommendations report)
        /\ forall i, ~ In (recommendation_title_line i (pci_scope_rule total_annual))
                         (print_summary_report report)).
Proof.
  intros H. cbv zeta.
  destruct (report_shape _ _ H) as (services & Hs & _ & _ & Hrec & _).
  exists services. split; [exact Hs |].
  assert (T : top_recommendations report
              = recommendation_lines (1%Z, transit_reserved_rule (total_annual_of services))
                ++ recommendation_lines (2%Z, log_retention_rule (total_annual_of services))
                ++ (if (accounts_count (org_profile self) >? 20)%Z
                    then recommendation_lines
                           (3%Z, budget_controls_rule (total_annual_of services))
                    else if existsb (String.eqb "pci-dss")
                              (compliance_requirements (org_profile self))
                         then recommendation_lines
                                (3%Z, pci_scope_rule (total_annual_of services))
                         else [])).
  { unfold top_recommendations. rewrite Hrec, recommendations_shape.
    destruct (accounts_count (org_profile self) >? 20)%Z;
      destruct (existsb _ _); reflexivity. }
  split; [exact T |].
  intros Hmany Hpci. split.
  - rewrite Hrec, recommendations_shape, Hmany, Hpci.
    right. right. right. left. reflexivity.
  - intros i Hin. apply title_line_only_among_top in Hin.
    rewrite T, Hmany in Hin. simpl in Hin.
    repeat (destruct Hin as [Hin | Hin]; [discriminate Hin |]). contradiction.
Qed.

(** *** What the summary shows of the risk analysis *)

Lemma risk_line_only_in_assessment (report : CostReport F) (factor : RiskFactor) :
  In (risk_factor_line factor) (print_summary_report report) ->
  In (risk_factor_line factor)
     (map risk_factor_line (firstn 2 (risk_factors (risk_analysis report)))).
Proof.
  unfold print_summary_report. intros H.
  apply in_app_or in H. destruct H as [H | H].
  { simpl in H. repeat (destruct H as [H | H]; [discriminate H |]). contradiction. }
  apply in_app_or in H. destruct H as [H | H].
  { apply in_map_iff in H. destruct H as (e & E & _). discriminate E. }
  apply in_app_or in H. destruct H as [H | H].
  { simpl in H. destruct H as [H | H]; [discriminate H | contradiction]. }
  apply in_app_or in H. destruct H as [H | H].
  { unfold top_recommendations in H. apply in_flat_map in H.
    destruct H as ((i & rec) & _ & H). simpl in H.
    destruct H as [H | [H | H]]; [discriminate H | discriminate H | contradiction]. }
  apply in_app_or in H. destruct H as [H | H].
  - unfold risk_assessment in H. apply in_app_or in H. destruct H as [H | H].
    + simpl in H. destruct H as [H | H]; [discriminate H | contradiction].
    + destruct (risk_factors (risk_analysis report)) as [| f fs] eqn:E;
        [contradiction | exact H].
  - simpl in H. destruct H as [H | H]; [discriminate H | contradiction].
Qed.

Lemma risk_line_in_summary (report : CostReport F) (factor : RiskFactor) :
  In factor (firstn 2 (risk_factors (risk_analysis report))) ->
  In (risk_factor_line factor) (print_summary_report report).
Proof.
  intros H. unfold print_summary_report.
  apply in_or_app. right. apply in_or_app. right. apply in_or_app. right.
  apply in_or_app. right. apply in_or_app. left.
  unfold risk_assessment. apply in_or_app. right.
  destruct (risk_factors (risk_analysis report)) as [| f fs] eqn:E.
  - destruct H.
  - apply in_map. exact H.
Qed.

(** The headline of the risk assessment, by the number of factors. *)
Definition risk_headline (n : nat) : line F :=
  match n with
  | O => [Literal newline; Field "üü¢"; Literal " RISK ASSESSMENT: "; Field "LOW"]
  | S O => [Literal newline; Field "üü°"; Literal " RISK ASSESSMENT: "; Field "MEDIUM"]
  | _ => [Literal newline; Field "üî¥"; Literal " RISK ASSESSMENT: "; Field "HIGH"]
  end.

(** X14: the summary prints the headline of the risk level, in capitals and
    with the icon of the level, then the first two risk factors of the
    report.  The factor [account_sprawl], the last to be checked, is
    printed exactly when there are more than 50 accounts and the monthly
    total is at most 2000 or the regions are at most two. *)
Theorem summary_shows_two_risk_factors (self : LandingZoneCostCalculator F)
    (report : CostReport F) :
  generate_cost_report self = Ok report ->
  exists services,
    services_of self = Ok services
    /\ let total_monthly := total_monthly_of services in
    let p := org_profile self in
    risk_assessment report
    = risk_headline (triggered p total_monthly)
      :: map risk_factor_line
           (firstn 2 ((if spend_triggered total_monthly then [high_monthly_spend] else [])
                      ++ (if regions_triggered p then [multi_region_complexity] else [])
                      ++ (if sprawl_triggered p then [account_sprawl] else [])))
    /\ (In (risk_factor_line account_sprawl) (print_summary_report report)
        <-> sprawl_triggered p = true
            /\ (spend_triggered total_monthly = false \/ regions_triggered p = false)).
Proof.
  intros H. cbv zeta.
  destruct (report_shape _ _ H) as (services & Hs & _ & _ & _ & Hrisk & _).
  exists services. split; [exact Hs |].
  set (tm := total_monthly_of services) in *.
  pose proof (risk_factors_shape self tm) as Hf.
  pose proof (risk_level_shape self tm) as Hl.
  rewrite <- Hrisk in Hf, Hl.
  split.
  - unfold risk_assessment, risk_icon. rewrite Hl, Hf. unfold triggered.
    destruct (spend_triggered tm); destruct (regions_triggered (org_profile self));
      destruct (sprawl_triggered (org_profile self)); reflexivity.
  - split.
    + intros Hin. apply risk_line_only_in_assessment in Hin. rewrite Hf in Hin.
      destruct (spend_triggered tm); destruct (regions_triggered (org_profile self));
        destruct (sprawl_triggered (org_profile self)); simpl in Hin;
        repeat (destruct Hin as [Hin | Hin]; [try discriminate Hin |]);
        try contradiction; auto.
    + intros (Hsp & Hor). apply risk_line_in_summary. rewrite Hf, Hsp.
      destruct Hor as [Hor | Hor]; rewrite Hor.
      * destruct (regions_triggered (org_profile self)); simpl; auto.
      * destruct (spend_triggered tm); simpl; auto.
Qed.

End Summary.


Section SummaryStd.
Variable R : Rounding.
#[local] Hint Extern 0 (PyFloat Q) => exact (Std.ops R) : typeclass_instances.

(** X15: for a valid profile with more than 50 accounts the summary is headed
    HIGH and prints [high_monthly_spend] first; the second line is
    [multi_region_complexity] with more than two regions and
    [account_sprawl] otherwise: with more than two regions the account
    sprawl is in the report and not in the summary. *)
Theorem summary_of_many_accounts (p : OrganizationProfile Q) :
  valid_profile p ->
  (50 < accounts_count p)%Z ->
  exists report,
    generate_cost_report (LandingZoneCostCalculator_new p) = Ok report
    /\ risk_assessment report
       = [risk_headline 2;
          risk_factor_line high_monthly_spend;
          risk_factor_line (if (len (regions p) >? 2)%Z
                            then multi_region_complexity else account_sprawl)]
    /\ In account_sprawl (risk_factors (risk_analysis report))
    /\ (In (risk_factor_line account_sprawl) (print_summary_report report)
        <-> (len (regions p) <= 2)%Z).
Proof.
  intros V H50.
  destruct (high_spend_from_18_accounts R p V) as (services & Hs & Hr & Hm & Sp); [lia |].
  eexists. split; [exact Hr |].
  assert (Et : risk_analysis (report_of R (LandingZoneCostCalculator_new p) services)
               = _generate_risk_analysis (LandingZoneCostCalculator_new p)
                   (total_monthly_of services)) by reflexivity.
  assert (St : sprawl_triggered p = true) by (unfold sprawl_triggered; apply Z.gtb_lt; lia).
  pose proof (risk_factors_shape (LandingZoneCostCalculator_new p) (total_monthly_of services))
    as Hf.
  rewrite <- Et in Hf. cbn [org_profile LandingZoneCostCalculator_new] in Hf.
  rewrite Sp, St in Hf.
  split; [| split].
  - unfold risk_assessment, risk_icon.
    rewrite Hf, Et, risk_level_shape. unfold triggered.
    cbn [org_profile LandingZoneCostCalculator_new]. rewrite Sp, St.
    unfold regions_triggered. destruct (len (regions p) >? 2)%Z; reflexivity.
  - rewrite Hf. apply in_or_app. right. apply in_or_app. right. left. reflexivity.
  - split.
    + intros Hin. apply risk_line_only_in_assessment in Hin. rewrite Hf in Hin.
      unfold regions_triggered in Hin.
      destruct (len (regions p) >? 2)%Z eqn:E.
      * simpl in Hin. destruct Hin as [Hin | [Hin | Hin]];
          [discriminate Hin | discriminate Hin | contradiction].
      * rewrite Z.gtb_ltb in E. apply Z.ltb_ge in E. exact E.
    + intros Hle. apply risk_line_in_summary. rewrite Hf.
      unfold regions_triggered.
      assert (E : (len (regions p) >? 2)%Z = false)
        by (rewrite Z.gtb_ltb; apply Z.ltb_ge; exact Hle).
      rewrite E. simpl. auto.
Qed.

End SummaryStd.

(** ** The figures of the report against each other *)

Section FiguresStd.
Variable R : Rounding.
#[local] Hint Extern 0 (PyFloat Q) => exact (Std.ops R) : typeclass_instances.

(** [round(x, 2)] is a number of cents within half a cent of [x]. *)
Lemma round_2_near (x : Q) :
  0 <= x ->
  exists k : Z,
    float_round x 2 = R (k # 100)
    /\ (0 <= k)%Z
    /\ x * 100 - (1 # 2) <= inject_Z k
    /\ inject_Z k <= x * 100 + (1 # 2)
    /\ lo * (inject_Z k * (1 # 100)) <= R (k # 100)
    /\ R (k # 100) <= hi * (inject_Z k * (1 # 100)).
Proof.
  intros Hx. exists (round_half_even (x * 100)). split; [reflexivity |].
  pose proof (round_half_even_err (x * 100)) as E.
  apply Qabs_Qle_condition in E. destruct E as [E1 E2].
  set (k := round_half_even (x * 100)) in *.
  assert (K0 : (0 <= k)%Z).
  { assert (A : inject_Z (-1) < inject_Z k) by (change (inject_Z (-1)) with (-1); lra).
    rewrite <- Zlt_Qlt in A. lia. }
  assert (E : k # 100 == inject_Z k * (1 # 100)).
  { unfold Qeq, inject_Z. simpl. lia. }
  assert (N : 0 <= k # 100).
  { rewrite E. apply Qmult_le_0_compat; [apply inject_Z_nonneg, K0 | discriminate]. }
  destruct (rnd_bounds R _ N) as (L & U). rewrite E in L at 1. rewrite E in U at 2.
  repeat split; try assumption; lra.
Qed.

(** X16: for a valid profile whose monthly total is at most 10^9, every
    monthly cost of the breakdown is within 0.0051 of the cost computed,
    and the eight of them add up to the monthly total of the report within
    0.05. *)
Theorem breakdown_adds_up_to_total (p : OrganizationProfile Q) :
  valid_profile p ->
  exists services report,
    services_of (LandingZoneCostCalculator_new p) = Ok services
    /\ generate_cost_report (LandingZoneCostCalculator_new p) = Ok report
    /\ (total_monthly_of services <= 1000000000 ->
        Forall2 (fun entry service =>
                   Qabs (entry_monthly_cost entry - monthly_cost service) <= 51 # 10000)
                (cost_breakdown_services report) services
        /\ Qabs (qsum (map entry_monthly_cost (cost_breakdown_services report))
                 - totals_monthly_cost (cost_breakdown_totals report)) <= 5 # 100).
Proof.
  intros V.
  destruct (services_std R p V)
    as (m2 & m3 & m4 & m5 & m6 & m7 & m8 & d1 & d2 & d3 & d4 & d5 & d6 & d7 & d8
        & Hs & H2 & H3 & H4 & H5 & H6 & H7 & H8).
  destruct (rnd_lit_bounds R 89.10) as (L1 & U1 & N1); [lra |].
  assert (H4' : 0 <= m4) by lra.
  pose proof (totals_close R (R 89.10) m2 m3 m4 m5 m6 m7 m8
                d1 d2 d3 d4 d5 d6 d7 d8 N1 H2 H3 H4' H5 H6 H7 H8) as T.
  cbv zeta in T.
  match type of Hs with _ = Ok ?l => set (services := l) in * end.
  destruct T as (ML & MU & AL & AU & _ & _).
  set (tm := total_monthly_of services) in *.
  set (ta := total_annual_of services) in *.
  assert (Pm : 0 < tm) by (unfold eps, lo, u in *; lra).
  assert (Pa : 0 < ta) by (unfold eps, lo, u in *; lra).
  destruct V as (Za & Ze & _).
  assert (Hr : generate_cost_report (LandingZoneCostCalculator_new p)
               = Ok (report_of R (LandingZoneCostCalculator_new p) services)).
  { apply report_std.
    - exact Hs.
    - fold tm. intros E. rewrite E in Pm. discriminate Pm.
    - fold ta. intros E. rewrite E in Pa. discriminate Pa.
    - cbn [org_profile LandingZoneCostCalculator_new]. lia.
    - cbn [org_profile LandingZoneCostCalculator_new]. lia. }
  exists services, (report_of R (LandingZoneCostCalculator_new p) services).
  split; [exact Hs |]. split; [exact Hr |].
  fold tm. intros Hb.
  set (m1 := R 89.10) in *.
  destruct (round_2_near m1 N1) as (k1 & E1 & _ & K1l & K1u & C1l & C1u).
  destruct (round_2_near m2 H2) as (k2 & E2 & _ & K2l & K2u & C2l & C2u).
  destruct (round_2_near m3 H3) as (k3 & E3 & _ & K3l & K3u & C3l & C3u).
  destruct (round_2_near m4 H4') as (k4 & E4 & _ & K4l & K4u & C4l & C4u).
  destruct (round_2_near m5 H5) as (k5 & E5 & _ & K5l & K5u & C5l & C5u).
  destruct (round_2_near m6 H6) as (k6 & E6 & _ & K6l & K6u & C6l & C6u).
  destruct (round_2_near m7 H7) as (k7 & E7 & _ & K7l & K7u & C7l & C7u).
  destruct (round_2_near m8 H8) as (k8 & E8 & _ & K8l & K8u & C8l & C8u).
  destruct (round_2_near tm (Qlt_le_weak _ _ Pm)) as (kt & Et & _ & Ktl & Ktu & Ctl & Ctu).
  cbn [report_of cost_breakdown_services cost_breakdown_totals totals_monthly_cost map].
  fold tm. unfold services at 1 3. cbn [map].
  unfold entry_of. cbn [entry_monthly_cost monthly_cost service qsum fold_right].
  fold m1.
  split.
  - unfold services.
    repeat (apply Forall2_cons;
            [cbn [entry_monthly_cost monthly_cost service];
             first [rewrite E1 | rewrite E2 | rewrite E3 | rewrite E4
                   | rewrite E5 | rewrite E6 | rewrite E7 | rewrite E8];
             apply Qabs_Qle_condition; unfold eps, lo, hi, u in *; split; lra |]).
    apply Forall2_nil.
  - rewrite E1, E2, E3, E4, E5, E6, E7, E8, Et.
    apply Qabs_Qle_condition. unfold eps, lo, hi, u in *. split; lra.
Qed.

(** The savings of a rule that takes the share [c] of the annual total. *)
Lemma rule_savings (total_annual c : Q) :
  0 < total_annual -> 0 < c ->
  lo * (total_annual * (lo * c)) <= R (total_annual * R c)
  /\ R (total_annual * R c) <= hi * (total_annual * (hi * c)).
Proof.
  intros Ht Hc.
  destruct (rnd_lit_bounds R c) as (Lc & Uc & Nc); [lra |].
  split.
  - apply rnd_mul_lo; try lra. apply lo_times_nonneg. lra.
  - apply rnd_mul_hi; lra.
Qed.

Ltac compare_savings :=
  cbn [estimated_savings_annual transit_reserved_rule log_retention_rule
       budget_controls_rule pci_scope_rule fmul float_lit Std.ops];
  lra.

(** X17: for a valid profile the recommendations of the report come by
    strictly decreasing estimated savings, all positive, so that the three
    of the summary are the three largest; together they promise between
    26.9% and 40.1% of the annual total. *)
Theorem recommendations_by_decreasing_savings (p : OrganizationProfile Q) :
  valid_profile p ->
  exists services report,
    services_of (LandingZoneCostCalculator_new p) = Ok services
    /\ generate_cost_report (LandingZoneCostCalculator_new p) = Ok report
    /\ StronglySorted
         (fun earlier later =>
            estimated_savings_annual later < estimated_savings_annual earlier)
         (recommendations report)
    /\ Forall (fun rec => 0 < estimated_savings_annual rec) (recommendations report)
    /\ (269 # 1000) * total_annual_of services
       <= qsum (map estimated_savings_annual (recommendations report))
    /\ qsum (map estimated_savings_annual (recommendations report))
       <= (401 # 1000) * total_annual_of services.
Proof.
  intros V.
  destruct (totals_std R p V) as (services & Hs & _ & H89 & _ & Pa & _).
  assert (Pm : 0 < total_monthly_of services) by lra.
  destruct V as (Za & Ze & _).
  assert (Hr : generate_cost_report (LandingZoneCostCalculator_new p)
               = Ok (report_of R (LandingZoneCostCalculator_new p) services)).
  { apply report_std.
    - exact Hs.
    - intros E. rewrite E in Pm. discriminate Pm.
    - intros E. rewrite E in Pa. discriminate Pa.
    - cbn [org_profile LandingZoneCostCalculator_new]. lia.
    - cbn [org_profile LandingZoneCostCalculator_new]. lia. }
  exists services, (report_of R (LandingZoneCostCalculator_new p) services).
  split; [exact Hs |]. split; [exact Hr |].
  cbn [recommendations report_of]. rewrite recommendations_shape.
  set (ta := total_annual_of services) in *.
  destruct (rule_savings ta 0.15 Pa) as (L1 & U1); [lra |].
  destruct (rule_savings ta 0.12 Pa) as (L2 & U2); [lra |].
  destruct (rule_savings ta 0.08 Pa) as (L3 & U3); [lra |].
  destruct (rule_savings ta 0.05 Pa) as (L4 & U4); [lra |].
  unfold lo, hi, u in *.
  destruct (accounts_count (org_profile (LandingZoneCostCalculator_new p)) >? 20)%Z;
    destruct (existsb _ _);
    cbn [app map qsum fold_right];
    (split;
     [repeat first [apply SSorted_nil | apply SSorted_cons | apply Forall_nil
                   | apply Forall_cons; [compare_savings |]] |]);
    (split; [repeat first [apply Forall_nil | apply Forall_cons; [compare_savings |]] |]);
    split; compare_savings.
Qed.

End FiguresStd.

(** ** The further theorems at concrete profiles *)

Section MoreOnBinary53.
#[local] Hint Extern 0 (PyFloat Q) => exact (Std.ops binary53) : typeclass_instances.

Ltac evaluated :=
  unfold valid_profile, billable, example_profile53;
  cbn [accounts_count employees regions expected_data_gb_monthly compliance_requirements
       development_accounts_ratio example_profile with_accounts with_data
       with_regions with_ratio with_frameworks with_employees];
  repeat split; try lia; try discriminate; vm_compute; reflexivity.

(** The example profile with no employee: billable, and no report. *)
Lemma no_employee_no_report :
  billable (with_employees 0 example_profile53)
  /\ generate_cost_report (LandingZoneCostCalculator_new (with_employees 0 example_profile53))
     = Raise ZeroDivisionError.
Proof.
  split; [evaluated |].
  apply (report_returns_iff_divisors_nonzero binary53 (with_employees 0 example_profile53)).
  - evaluated.
  - left. reflexivity.
Defined.

(** The savings of the example profile. *)
Lemma savings_example :
  valid_profile example_profile53
  /\ exists services report k,
       services_of (LandingZoneCostCalculator_new example_profile53) = Ok services
       /\ generate_cost_report (LandingZoneCostCalculator_new example_profile53) = Ok report
       /\ (599999999 # 1000000000) * total_monthly_of services
          <= optimized_monthly_of services
       /\ optimized_monthly_of services
          <= (900000001 # 1000000000) * total_monthly_of services
       /\ potential_savings_percentage (cost_breakdown_totals report) = binary53 (k # 10)
       /\ (100 <= k <= 400)%Z.
Proof.
  split; [evaluated |].
  apply (savings_between_10_and_40_percent binary53 example_profile53). evaluated.
Defined.

(** The percentages of the example profile. *)
Lemma percentages_example :
  valid_profile example_profile53
  /\ exists report ks,
       generate_cost_report (LandingZoneCostCalculator_new example_profile53) = Ok report
       /\ map entry_percentage_of_total (cost_breakdown_services report)
          = map (fun k : Z => binary53 (k # 10)) ks
       /\ List.length ks = 8%nat
       /\ Forall (fun k => 0 <= k <= 1000)%Z ks
       /\ (996 <= fold_right Z.add 0 ks <= 1004)%Z.
Proof.
  split; [evaluated |].
  apply (percentages_add_up_to_100 binary53 example_profile53). evaluated.
Defined.

(** The example profile with 18 accounts. *)
Lemma eighteen_accounts_example :
  valid_profile (with_accounts 18 example_profile53)
  /\ exists services report,
       services_of (LandingZoneCostCalculator_new (with_accounts 18 example_profile53))
       = Ok services
       /\ generate_cost_report (LandingZoneCostCalculator_new (with_accounts 18 example_profile53))
          = Ok report
       /\ 2000 < total_monthly_of services
       /\ In high_monthly_spend (risk_factors (risk_analysis report))
       /\ risk_level (risk_analysis report) <> "low"
       /\ ((50 < accounts_count (with_accounts 18 example_profile53))%Z ->
           In account_sprawl (risk_factors (risk_analysis report))
           /\ risk_level (risk_analysis report) = "high").
Proof.
  split; [evaluated |].
  apply (eighteen_accounts_mean_high_spend binary53 (with_accounts 18 example_profile53)).
  - evaluated.
  - vm_compute. discriminate.
Defined.

(** The backup storage of the example profile: 7 production accounts of
    10, 790 GB. *)
Lemma backup_storage_example :
  valid_profile example_profile53
  /\ (accounts_count example_profile53 <= 10 ^ 15)%Z
  /\ exists prod_accounts storage_gb monthly,
       backup_prod_accounts (LandingZoneCostCalculator_new example_profile53)
       = Ok prod_accounts
       /\ backup_storage_gb (LandingZoneCostCalculator_new example_profile53) = Ok storage_gb
       /\ monthly_of (calculate_backup_costs (LandingZoneCostCalculator_new example_profile53))
          = Ok monthly
       /\ (1 - eps) * (inject_Z (accounts_count example_profile53)
                       * (1 - development_accounts_ratio example_profile53)) - 1
          < inject_Z prod_accounts
       /\ inject_Z prod_accounts
          <= (1 + eps) * (inject_Z (accounts_count example_profile53)
                          * (1 - development_accounts_ratio example_profile53))
       /\ (0 <= prod_accounts <= accounts_count example_profile53)%Z
       /\ (0 <= accounts_count example_profile53 - prod_accounts
           <= accounts_count example_profile53)%Z
       /\ storage_gb = (30 * accounts_count example_profile53 + 70 * prod_accounts)%Z
       /\ (30 * accounts_count example_profile53 <= storage_gb
           <= 100 * accounts_count example_profile53)%Z
       /\ 1.79 * inject_Z (accounts_count example_profile53) <= monthly
       /\ monthly <= 6.01 * inject_Z (accounts_count example_profile53).
Proof.
  split; [evaluated |]. split; [vm_compute; discriminate |].
  apply (backup_storage_between_30_and_100_gb binary53 example_profile53).
  - evaluated.
  - vm_compute. discriminate.
Defined.

(** Doubling the data of the example profile: 1000 GB against 2000. *)
Lemma doubling_data_example :
  valid_profile example_profile53
  /\ costs_more calculate_cloudtrail_costs example_profile53
       (with_data 2000 example_profile53)
  /\ costs_the_same calculate_backup_costs example_profile53
       (with_data 2000 example_profile53).
Proof.
  split; [evaluated |].
  destruct (doubling_data_scales_costs binary53 example_profile53)
    as (_ & _ & Ht & _ & _ & _ & _ & Hb);
    [evaluated | vm_compute; discriminate | vm_compute; discriminate |].
  split; [exact Ht | exact Hb].
Defined.

(** A second region and a third framework for the example profile. *)
Lemma one_more_example :
  valid_profile example_profile53
  /\ costs_more calculate_transit_gateway_costs example_profile53
       (with_regions ("eu-west-1" :: regions example_profile53) example_profile53)
  /\ costs_more calculate_security_hub_costs example_profile53
       (with_frameworks ("sox" :: compliance_requirements example_profile53)
          example_profile53)
  /\ same_figures calculate_config_costs example_profile53
       (with_frameworks ("sox" :: compliance_requirements example_profile53)
          example_profile53).
Proof.
  split; [evaluated |].
  destruct (one_more_region_or_framework binary53 example_profile53)
    with (item := "eu-west-1") as (Hr & _);
    [evaluated | vm_compute; discriminate | vm_compute; discriminate
    | vm_compute; discriminate |].
  destruct (one_more_region_or_framework binary53 example_profile53)
    with (item := "sox") as (_ & _ & _ & _ & _ & _ & _ & _ & Hf & _ & _ & Hc & _);
    [evaluated | vm_compute; discriminate | vm_compute; discriminate
    | vm_compute; discriminate |].
  split; [exact Hr |]. split; [exact Hf | exact Hc].
Defined.

(** The summary of the example profile with 60 accounts in one region:
    the account sprawl is printed. *)
Lemma summary_of_sixty_accounts :
  valid_profile (with_accounts 60 example_profile53)
  /\ exists report,
       generate_cost_report (LandingZoneCostCalculator_new (with_accounts 60 example_profile53))
       = Ok report
       /\ In (risk_factor_line (F := Q) account_sprawl) (print_summary_report report).
Proof.
  split; [evaluated |].
  destruct (summary_of_many_accounts binary53 (with_accounts 60 example_profile53))
    as (report & Hr & _ & _ & Hi); [evaluated | vm_compute; reflexivity |].
  exists report. split; [exact Hr |].
  apply Hi. vm_compute. discriminate.
Defined.

(** The breakdown of the example profile against its total. *)
Lemma breakdown_example :
  valid_profile example_profile53
  /\ exists services report,
       services_of (LandingZoneCostCalculator_new example_profile53) = Ok services
       /\ generate_cost_report (LandingZoneCostCalculator_new example_profile53) = Ok report
       /\ total_monthly_of services <= 1000000000
       /\ Forall2 (fun entry service =>
                     Qabs (entry_monthly_cost entry - monthly_cost service) <= 51 # 10000)
                  (cost_breakdown_services report) services
       /\ Qabs (qsum (map entry_monthly_cost (cost_breakdown_services report))
                - totals_monthly_cost (cost_breakdown_totals report)) <= 5 # 100.
Proof.
  split; [evaluated |].
  destruct (breakdown_adds_up_to_total binary53 example_profile53)
    as (services & report & Hs & Hr & Hclose); [evaluated |].
  exists services, report. split; [exact Hs |]. split; [exact Hr |].
  assert (Hb : total_monthly_of services <= 1000000000).
  { assert (E : Ok services = ?[s]) by (rewrite <- Hs; vm_compute; reflexivity).
    apply Ok_inj in E. subst services. vm_compute. discriminate. }
  split; [exact Hb | exact (Hclose Hb)].
Defined.

(** The recommendations of the example profile. *)
Lemma recommendations_example :
  valid_profile example_profile53
  /\ exists services report,
       services_of (LandingZoneCostCalculator_new example_profile53) = Ok services
       /\ generate_cost_report (LandingZoneCostCalculator_new example_profile53) = Ok report
       /\ StronglySorted
            (fun earlier later =>
               estimated_savings_annual later < estimated_savings_annual earlier)
            (recommendations report)
       /\ Forall (fun rec => 0 < estimated_savings_annual rec) (recommendations report)
       /\ (269 # 1000) * total_annual_of services
          <= qsum (map estimated_savings_annual (recommendations report))
       /\ qsum (map estimated_savings_annual (recommendations report))
          <= (401 # 1000) * total_annual_of services.
Proof.
  split; [evaluated |].
  apply (recommendations_by_decreasing_savings binary53 example_profile53). evaluated.
Defined.

End MoreOnBinary53.

Section MoreOnBinary64.
#[local] Existing Instance B64.ops.

(** The example profile with 21 accounts: four recommendations in the
    report, three in the summary. *)
Lemma summary_of_twenty_one_accounts :
  exists report services,
    generate_cost_report (LandingZoneCostCalculator_new (with_accounts 21 example_profile))
    = Ok report
    /\ services_of (LandingZoneCostCalculator_new (with_accounts 21 example_profile))
       = Ok services
    /\ List.length (recommendations report) = 4%nat
    /\ In (pci_scope_rule (total_annual_of services)) (recommendations report)
    /\ forall i, ~ In (recommendation_title_line i (pci_scope_rule (total_annual_of services)))
                      (print_summary_report report).
Proof.
  eexists.
  assert (H : generate_cost_report
                (LandingZoneCostCalculator_new (with_accounts 21 example_profile))
              = Ok ?[report]) by (vm_compute; reflexivity).
  destruct (summary_shows_three_recommendations _ _ H) as (services & Hs & _ & Hpci).
  exists services. split; [exact H |]. split; [exact Hs |].
  split; [vm_compute; reflexivity |].
  apply Hpci; reflexivity.
Defined.

(** The summary of the profile with 60 accounts in three regions: all
    three factors in the report, the account sprawl not in the summary. *)
Lemma summary_of_sprawling_profile :
  exists report,
    generate_cost_report (LandingZoneCostCalculator_new sprawling_profile) = Ok report
    /\ List.length (risk_factors (risk_analysis report)) = 3%nat
    /\ ~ In (risk_factor_line account_sprawl) (print_summary_report report).
Proof.
  eexists.
  assert (H : generate_cost_report (LandingZoneCostCalculator_new sprawling_profile)
              = Ok ?[report]) by (vm_compute; reflexivity).
  destruct (summary_shows_two_risk_factors _ _ H) as (services & Hs & _ & Hi).
  split; [exact H |]. split; [vm_compute; reflexivity |].
  intros Hin. apply Hi in Hin. destruct Hin as (_ & Hor).
  assert (E : Ok services = ?[s]) by (rewrite <- Hs; vm_compute; reflexivity).
  apply Ok_inj in E. subst services.
  destruct Hor as [Hsp | Hr];
    [vm_compute in Hsp; discriminate Hsp | vm_compute in Hr; discriminate Hr].
Defined.

(** The example profile without accounts: the calculators return and the
    report raises [ZeroDivisionError]. *)
Lemma no_account_no_report :
  returns (services_of (LandingZoneCostCalculator_new (with_accounts 0 example_profile)))
  /\ generate_cost_report (LandingZoneCostCalculator_new (with_accounts 0 example_profile))
     = Raise ZeroDivisionError.
Proof.
  split; [eexists; vm_compute; reflexivity | vm_compute; reflexivity].
Qed.

(** Seventeen accounts can stay below 2000 a month: one region, no data,
    no framework, development accounts only. *)
Lemma seventeen_accounts_can_be_low_risk :
  exists report,
    generate_cost_report
      (LandingZoneCostCalculator_new
         (with_ratio (float_lit 1)
            (with_frameworks [] (with_data 0 (with_accounts 17 example_profile)))))
    = Ok report
    /\ totals_monthly_cost (cost_breakdown_totals report) = float_lit 1938.54
    /\ risk_level (risk_analysis report) = "low".
Proof.
  eexists. split; [vm_compute; reflexivity |].
  split; vm_compute; reflexivity.
Qed.

End MoreOnBinary64.
